(** * NFT marketplace: the listing / purchase / withdrawal engine

    A shallow embedding of the two Solidity contracts of
    [stage3/nft-marketplace/smart-contracts/contracts]:

    - [NFTMarketplace.sol]          (module [Baseline]),
    - [NFTMarketplaceOptimized.sol] (module [Optimized]),

    together with the parts of OpenZeppelin Contracts 5.x they inherit
    (ERC721, Ownable, ReentrancyGuard).  Contract storage is an explicit
    record, every function is a computation in a state-and-revert monad that
    also records the storage writes, events and outbound value transfers in
    the order in which they happen. *)

From Stdlib Require Import ZArith Lia.
From stdpp Require Import gmap strings list fin_maps.

Local Open Scope Z_scope.

(** ** Machine integers and addresses *)

(** An [address] is a 160-bit number, [address(0)] is [0]; a [uint256]
    is a [Z] in [[0, 2^256)]. *)
Abbreviation address := Z (only parsing).

Definition uint256_max : Z := 2 ^ 256 - 1.
Definition uint96_max : Z := 2 ^ 96 - 1.

Definition is_uint256 (x : Z) : Prop := 0 <= x <= uint256_max.
Definition is_uint96 (x : Z) : Prop := 0 <= x <= uint96_max.

(** [unchecked { a + b }] and [unchecked { a - b }] on [uint256]. *)
Definition unchecked_add (a b : Z) : Z := (a + b) mod 2 ^ 256.
Definition unchecked_sub (a b : Z) : Z := (a - b) mod 2 ^ 256.

(** The explicit conversion [uint96(x)] keeps the low 96 bits. *)
Definition uint96 (x : Z) : Z := x mod 2 ^ 96.

(** [0.01 ether], in wei. *)
Definition ether_0_01 : Z := 10 ^ 16.

(** The sum of the values of a finite map. *)
Definition sum_map (m : gmap Z Z) : Z := map_fold (fun _ v acc => v + acc) 0 m.

(** ** Errors, events, effects *)

Inductive Error : Type :=
  | Error_string (reason : string)          (* require(cond, reason) *)
  | Panic_overflow                          (* Panic(0x11) *)
  | TransferReverted                        (* payable(a).transfer(v) failed *)
  | ReentrancyGuardReentrantCall
  | OwnableUnauthorizedAccount (account : address)
  | OwnableInvalidOwner (owner : address)
  | ERC721NonexistentToken (tokenId : Z)
  | ERC721IncorrectOwner (sender : address) (tokenId : Z) (owner : address)
  | ERC721InvalidSender (sender : address)
  | ERC721InvalidReceiver (receiver : address)
  | ERC721InsufficientApproval (operator : address) (tokenId : Z)
  | ERC721InvalidApprover (approver : address)
  | ERC721InvalidOperator (operator : address).

Inductive Event : Type :=
  | NFTListed (tokenId : Z) (seller : address) (price : Z)
  | NFTSold (tokenId : Z) (buyer seller : address) (price : Z)
  | ListingCancelled (tokenId : Z)
  | ListingFeeUpdated (newFee : Z)
  | Transfer (from to : address) (tokenId : Z)
  | Approval (owner approved : address) (tokenId : Z)
  | ApprovalForAll (owner operator : address) (approved : bool)
  | OwnershipTransferred (previousOwner newOwner : address).

(** The storage locations a function can write. *)
Inductive Slot : Type :=
  | Slot_status
  | Slot_owners (tokenId : Z)
  | Slot_tokenApprovals (tokenId : Z)
  | Slot_operatorApprovals (owner operator : address)
  | Slot_owner
  | Slot_listings (tokenId : Z)
  | Slot_pendingWithdrawals (account : address)
  | Slot_nextTokenIdCounter
  | Slot_listingFee.

(** What an outbound value transfer is for. *)
Inductive Purpose : Type := ListingFee | Refund | Payout.

Inductive Effect : Type :=
  | Wrote (s : Slot)
  | Sent (p : Purpose) (to : address) (amount : Z)
  | Emitted (e : Event).

#[global] Instance Error_eq_dec : EqDecision Error.
Proof. solve_decision. Defined.
#[global] Instance Event_eq_dec : EqDecision Event.
Proof. solve_decision. Defined.
#[global] Instance Slot_eq_dec : EqDecision Slot.
Proof. solve_decision. Defined.
#[global] Instance Purpose_eq_dec : EqDecision Purpose.
Proof. solve_decision. Defined.
#[global] Instance Effect_eq_dec : EqDecision Effect.
Proof. solve_decision. Defined.

(** ** Contract storage

    The record is shared by the two contracts; they differ in the
    [Listing] struct only, which is the parameter [L].  A Solidity mapping
    is a finite map read with the zero value as default.  ERC721's
    per-owner token counters and ERC721URIStorage's URI table are written
    by the functions below but read by none of them; they are left out. *)

Section Storage.
Context {L : Type}.

Record World : Type := mkWorld {
  (* ERC721 *)
  _owners : gmap Z Z;
  _tokenApprovals : gmap Z Z;
  _operatorApprovals : gset (Z * Z);
  (* Ownable *)
  _owner : address;
  (* ReentrancyGuard: [true] is ENTERED *)
  _status : bool;
  (* NFTMarketplace *)
  listings : gmap Z L;
  pendingWithdrawals : gmap Z Z;
  nextTokenIdCounter : Z;
  listingFee : Z;
  (* address(this).balance *)
  balance : Z;
  (* the event log, oldest first *)
  events : list Event
}.

Definition set_owners (f : gmap Z Z -> gmap Z Z) (w : World) : World :=
  mkWorld (f (_owners w)) (_tokenApprovals w) (_operatorApprovals w)
    (_owner w) (_status w) (listings w) (pendingWithdrawals w)
    (nextTokenIdCounter w) (listingFee w) (balance w) (events w).
Definition set_tokenApprovals (f : gmap Z Z -> gmap Z Z) (w : World) : World :=
  mkWorld (_owners w) (f (_tokenApprovals w)) (_operatorApprovals w)
    (_owner w) (_status w) (listings w) (pendingWithdrawals w)
    (nextTokenIdCounter w) (listingFee w) (balance w) (events w).
Definition set_operatorApprovals (f : gset (Z * Z) -> gset (Z * Z))
    (w : World) : World :=
  mkWorld (_owners w) (_tokenApprovals w) (f (_operatorApprovals w))
    (_owner w) (_status w) (listings w) (pendingWithdrawals w)
    (nextTokenIdCounter w) (listingFee w) (balance w) (events w).
Definition set_owner (a : address) (w : World) : World :=
  mkWorld (_owners w) (_tokenApprovals w) (_operatorApprovals w)
    a (_status w) (listings w) (pendingWithdrawals w)
    (nextTokenIdCounter w) (listingFee w) (balance w) (events w).
Definition set_status (b : bool) (w : World) : World :=
  mkWorld (_owners w) (_tokenApprovals w) (_operatorApprovals w)
    (_owner w) b (listings w) (pendingWithdrawals w)
    (nextTokenIdCounter w) (listingFee w) (balance w) (events w).
Definition set_listings (f : gmap Z L -> gmap Z L) (w : World) : World :=
  mkWorld (_owners w) (_tokenApprovals w) (_operatorApprovals w)
    (_owner w) (_status w) (f (listings w)) (pendingWithdrawals w)
    (nextTokenIdCounter w) (listingFee w) (balance w) (events w).
Definition set_pendingWithdrawals (f : gmap Z Z -> gmap Z Z)
    (w : World) : World :=
  mkWorld (_owners w) (_tokenApprovals w) (_operatorApprovals w)
    (_owner w) (_status w) (listings w) (f (pendingWithdrawals w))
    (nextTokenIdCounter w) (listingFee w) (balance w) (events w).
Definition set_nextTokenIdCounter (n : Z) (w : World) : World :=
  mkWorld (_owners w) (_tokenApprovals w) (_operatorApprovals w)
    (_owner w) (_status w) (listings w) (pendingWithdrawals w)
    n (listingFee w) (balance w) (events w).
Definition set_listingFee (n : Z) (w : World) : World :=
  mkWorld (_owners w) (_tokenApprovals w) (_operatorApprovals w)
    (_owner w) (_status w) (listings w) (pendingWithdrawals w)
    (nextTokenIdCounter w) n (balance w) (events w).
Definition set_balance (n : Z) (w : World) : World :=
  mkWorld (_owners w) (_tokenApprovals w) (_operatorApprovals w)
    (_owner w) (_status w) (listings w) (pendingWithdrawals w)
    (nextTokenIdCounter w) (listingFee w) n (events w).
Definition set_events (f : list Event -> list Event) (w : World) : World :=
  mkWorld (_owners w) (_tokenApprovals w) (_operatorApprovals w)
    (_owner w) (_status w) (listings w) (pendingWithdrawals w)
    (nextTokenIdCounter w) (listingFee w) (balance w) (f (events w)).

(** Reading a mapping: absent keys read as zero. *)
Definition owner_of (w : World) (tokenId : Z) : address :=
  default 0 (_owners w !! tokenId).
Definition approved_of (w : World) (tokenId : Z) : address :=
  default 0 (_tokenApprovals w !! tokenId).
Definition pending_of (w : World) (account : address) : Z :=
  default 0 (pendingWithdrawals w !! account).

(** The state right after deployment by [deployer]: the constructor
    runs [Ownable(msg.sender)], the fee initialiser is [0.01 ether]. *)
Definition deployed (deployer : address) : World :=
  mkWorld ∅ ∅ ∅ deployer false ∅ ∅ 0 ether_0_01 0 [].

(** ** The execution monad

    A computation takes the current storage and either returns a value
    and the new storage or reverts.  Alongside, it records each effect
    with the storage as it is right after the effect took place; for a
    value transfer this is the storage the recipient's code runs
    against. *)

Inductive Outcome (A : Type) : Type :=
  | Done (a : A) (w : World)
  | Reverted (e : Error).
#[global] Arguments Done {A} a w.
#[global] Arguments Reverted {A} e.

Record Run (A : Type) : Type := mkRun {
  log : list (Effect * World);
  res : Outcome A
}.
#[global] Arguments mkRun {A} log res.
#[global] Arguments log {A} r.
#[global] Arguments res {A} r.

Definition M (A : Type) : Type := World -> Run A.

Definition ret {A} (a : A) : M A := fun w => mkRun [] (Done a w).

Definition bind {A B} (m : M A) (k : A -> M B) : M B := fun w =>
  match m w with
  | mkRun l (Done a w') =>
      match k a w' with
      | mkRun l' o => mkRun (l ++ l') o
      end
  | mkRun l (Reverted e) => mkRun l (Reverted e)
  end.

Definition revert {A} (e : Error) : M A := fun _ => mkRun [] (Reverted e).

(** [require(cond, reason)] *)
Definition require_ (cond : bool) (reason : string) : M unit :=
  if cond then ret tt else revert (Error_string reason).

(** A storage read. *)
Definition sload {A} (f : World -> A) : M A := fun w => mkRun [] (Done (f w) w).

(** A storage write to slot [s]. *)
Definition sstore (s : Slot) (f : World -> World) : M unit := fun w =>
  mkRun [(Wrote s, f w)] (Done tt (f w)).

(** [emit e] *)
Definition emit (e : Event) : M unit := fun w =>
  let w' := set_events (fun l => l ++ [e]) w in
  mkRun [(Emitted e, w')] (Done tt w').

(** Checked [uint256] arithmetic of Solidity 0.8. *)
Definition checked_add (a b : Z) : M Z :=
  if bool_decide (a + b <= uint256_max) then ret (a + b) else revert Panic_overflow.
Definition checked_sub (a b : Z) : M Z :=
  if bool_decide (b <= a) then ret (a - b) else revert Panic_overflow.

(** A run with one more effect in front. *)
Definition cons_log {A} (x : Effect * World) (r : Run A) : Run A :=
  mkRun (x :: log r) (res r).

(** *** What is observed of a ledger *)

(** The sum of all escrow balances. *)
Definition escrow_total (w : World) : Z := sum_map (pendingWithdrawals w).

(** No guarded function is executing. *)
Definition Idle (w : World) : Prop := _status w = false.

(** Escrow balances are not negative and the contract holds at least
    their sum. *)
Definition Solvent (w : World) : Prop :=
  map_Forall (fun _ v => 0 <= v) (pendingWithdrawals w) /\
  escrow_total w <= balance w.

(** The value a trace sends out for purpose [p]. *)
Definition sent (p : Purpose) (tr : list (Effect * World)) : Z :=
  foldr (fun x acc =>
           match fst x with
           | Sent q _ amount => if decide (q = p) then amount + acc else acc
           | _ => acc
           end) 0 tr.

(** The storage the recipients of the value transfers of a trace run
    against. *)
Definition call_sites (tr : list (Effect * World)) : list World :=
  omap (fun x => match fst x with Sent _ _ _ => Some (snd x) | _ => None end) tr.

(** The prices of all sales in an event log. *)
Definition sold_total (evs : list Event) : Z :=
  foldr (fun e acc => match e with NFTSold _ _ _ p => p + acc | _ => acc end)
    0 evs.
End Storage.

#[global] Arguments set_owners {L} f w /.
#[global] Arguments set_tokenApprovals {L} f w /.
#[global] Arguments set_operatorApprovals {L} f w /.
#[global] Arguments set_owner {L} a w /.
#[global] Arguments set_status {L} b w /.
#[global] Arguments set_listings {L} f w /.
#[global] Arguments set_pendingWithdrawals {L} f w /.
#[global] Arguments set_nextTokenIdCounter {L} n w /.
#[global] Arguments set_listingFee {L} n w /.
#[global] Arguments set_balance {L} n w /.
#[global] Arguments set_events {L} f w /.
#[global] Arguments owner_of {L} w tokenId /.
#[global] Arguments approved_of {L} w tokenId /.
#[global] Arguments pending_of {L} w account /.
#[global] Arguments World L : clear implicits.
#[global] Arguments M L A : clear implicits.
#[global] Arguments Run L A : clear implicits.
#[global] Arguments Outcome L A : clear implicits.

Declare Scope evm_scope.
Delimit Scope evm_scope with evm.
Notation "x <- c1 ;; c2" := (bind c1 (fun x => c2))
  (at level 100, c1 at next level, right associativity) : evm_scope.
Notation "c1 ;; c2" := (bind c1 (fun _ => c2))
  (at level 100, right associativity) : evm_scope.
Local Open Scope evm_scope.

(** ** The message of a call

    [sender] and [value] are [msg.sender] and [msg.value].  [receives]
    is the environment of the transaction: [receives a v] tells whether
    the account [a] accepts a plain transfer of [v] wei (it has no code,
    or its receive function succeeds within the 2300 gas stipend that
    [transfer] forwards; that stipend does not pay for a storage write,
    so the recipient cannot change the marketplace). *)
Record Msg : Type := mkMsg {
  sender : address;
  value : Z;
  receives : address -> Z -> bool
}.

Section Inherited.
Context {L : Type}.
Abbreviation W := (World L).
Abbreviation M := (M L).

(** [payable(to).transfer(amount)]: reverts when the contract does not
    hold [amount] or the recipient refuses. *)
Definition transfer_ (msg : Msg) (p : Purpose) (to : address) (amount : Z)
    : M unit := fun w =>
  if bool_decide (amount <= balance w) && receives msg to amount then
    let w' := set_balance (balance w - amount) w in
    mkRun [(Sent p to amount, w')] (Done tt w')
  else mkRun [] (Reverted TransferReverted).

(** *** ReentrancyGuard *)

Definition _nonReentrantBefore : M unit :=
  entered <- sload _status ;;
  if entered : bool then revert ReentrancyGuardReentrantCall
  else sstore Slot_status (set_status true).

Definition _nonReentrantAfter : M unit :=
  sstore Slot_status (set_status false).

Definition nonReentrant (body : M unit) : M unit :=
  _nonReentrantBefore ;; body ;; _nonReentrantAfter.

(** *** Ownable *)

Definition owner : M address := sload _owner.

Definition _checkOwner (msg : Msg) : M unit :=
  o <- owner ;;
  if bool_decide (o ≠ sender msg)
  then revert (OwnableUnauthorizedAccount (sender msg))
  else ret tt.

Definition onlyOwner (msg : Msg) (body : M unit) : M unit :=
  _checkOwner msg ;; body.

Definition _transferOwnership (newOwner : address) : M unit :=
  oldOwner <- sload _owner ;;
  sstore Slot_owner (set_owner newOwner) ;;
  emit (OwnershipTransferred oldOwner newOwner).

Definition renounceOwnership (msg : Msg) : M unit :=
  onlyOwner msg (_transferOwnership 0).

Definition transferOwnership (msg : Msg) (newOwner : address) : M unit :=
  onlyOwner msg
    (if bool_decide (newOwner = 0) then revert (OwnableInvalidOwner 0)
     else _transferOwnership newOwner).

(** *** ERC721 *)

Definition _ownerOf (tokenId : Z) : M address :=
  sload (fun w => owner_of w tokenId).

Definition _requireOwned (tokenId : Z) : M address :=
  o <- _ownerOf tokenId ;;
  if bool_decide (o = 0) then revert (ERC721NonexistentToken tokenId)
  else ret o.

Definition ownerOf (tokenId : Z) : M address := _requireOwned tokenId.

Definition _getApproved (tokenId : Z) : M address :=
  sload (fun w => approved_of w tokenId).

Definition isApprovedForAll (o operator : address) : M bool :=
  sload (fun w => bool_decide ((o, operator) ∈ _operatorApprovals w)).

Definition _isAuthorized (o spender : address) (tokenId : Z) : M bool :=
  all <- isApprovedForAll o spender ;;
  approved <- _getApproved tokenId ;;
  ret (bool_decide (spender ≠ 0) &&
       (bool_decide (o = spender) || all || bool_decide (approved = spender))).

Definition _checkAuthorized (o spender : address) (tokenId : Z) : M unit :=
  ok <- _isAuthorized o spender tokenId ;;
  if ok : bool then ret tt
  else if bool_decide (o = 0) then revert (ERC721NonexistentToken tokenId)
  else revert (ERC721InsufficientApproval spender tokenId).

(** [_approve(to, tokenId, auth, emitEvent)] *)
Definition _approve (to : address) (tokenId : Z) (auth : address)
    (emitEvent : bool) : M unit :=
  (if emitEvent || bool_decide (auth ≠ 0) then
     o <- _requireOwned tokenId ;;
     all <- isApprovedForAll o auth ;;
     (if bool_decide (auth ≠ 0) && bool_decide (o ≠ auth) && negb all
      then revert (ERC721InvalidApprover auth) else ret tt) ;;
     (if emitEvent then emit (Approval o to tokenId) else ret tt)
   else ret tt) ;;
  sstore (Slot_tokenApprovals tokenId) (set_tokenApprovals <[tokenId := to]>).

Definition approve (msg : Msg) (to : address) (tokenId : Z) : M unit :=
  _approve to tokenId (sender msg) true.

Definition setApprovalForAll (msg : Msg) (operator : address)
    (approved : bool) : M unit :=
  if bool_decide (operator = 0) then revert (ERC721InvalidOperator operator)
  else
    sstore (Slot_operatorApprovals (sender msg) operator)
      (set_operatorApprovals (fun s =>
         if approved then s ∪ {[ (sender msg, operator) ]}
         else s ∖ {[ (sender msg, operator) ]})) ;;
    emit (ApprovalForAll (sender msg) operator approved).

(** ERC721's own [_update], what the contracts call [super._update]. *)
Definition ERC721_update (to : address) (tokenId : Z) (auth : address)
    : M address :=
  from <- _ownerOf tokenId ;;
  (if bool_decide (auth ≠ 0) then _checkAuthorized from auth tokenId
   else ret tt) ;;
  (if bool_decide (from ≠ 0) then _approve 0 tokenId 0 false else ret tt) ;;
  sstore (Slot_owners tokenId) (set_owners <[tokenId := to]>) ;;
  emit (Transfer from to tokenId) ;;
  ret from.

(** The functions below call the virtual [_update]: each contract
    supplies its override. *)
Variable _update : address -> Z -> address -> M address.

Definition _mint (to : address) (tokenId : Z) : M unit :=
  if bool_decide (to = 0) then revert (ERC721InvalidReceiver 0)
  else
    previousOwner <- _update to tokenId 0 ;;
    if bool_decide (previousOwner ≠ 0) then revert (ERC721InvalidSender 0)
    else ret tt.

Definition _transfer (from to : address) (tokenId : Z) : M unit :=
  if bool_decide (to = 0) then revert (ERC721InvalidReceiver 0)
  else
    previousOwner <- _update to tokenId 0 ;;
    if bool_decide (previousOwner = 0)
    then revert (ERC721NonexistentToken tokenId)
    else if bool_decide (previousOwner ≠ from)
    then revert (ERC721IncorrectOwner from tokenId previousOwner)
    else ret tt.

Definition transferFrom (msg : Msg) (from to : address) (tokenId : Z)
    : M unit :=
  if bool_decide (to = 0) then revert (ERC721InvalidReceiver 0)
  else
    previousOwner <- _update to tokenId (sender msg) ;;
    if bool_decide (previousOwner ≠ from)
    then revert (ERC721IncorrectOwner from tokenId previousOwner)
    else ret tt.
End Inherited.

(** ** The public interface

    The two contracts have the same external functions.  [listNFT] and
    [buyNFT] are [payable] and carry the value sent; the other functions are
    not payable, a call to them carries no value.  [safeTransferFrom] is
    [transferFrom] followed by a call to the recipient's
    [onERC721Received]; it runs outside any guarded function, so what the
    recipient does there amounts to further transactions of its own after
    the [transferFrom], or to nothing when it refuses the token. *)
Inductive Call : Type :=
  | Call_mintNFT (uri : string)
  | Call_listNFT (tokenId price : Z) (value : Z)
  | Call_buyNFT (tokenId : Z) (value : Z)
  | Call_cancelListing (tokenId : Z)
  | Call_withdrawFunds
  | Call_setListingFee (newFee : Z)
  | Call_transferFrom (from to : address) (tokenId : Z)
  | Call_approve (to : address) (tokenId : Z)
  | Call_setApprovalForAll (operator : address) (approved : bool)
  | Call_transferOwnership (newOwner : address)
  | Call_renounceOwnership.

Record Tx : Type := mkTx {
  tx_sender : address;
  tx_receives : address -> Z -> bool;
  tx_call : Call
}.

Definition is_address (a : Z) : Prop := 0 <= a < 2 ^ 160.

(** The arguments of a call are of their Solidity types, and no
    transaction comes from [address(0)]. *)
Definition wf_call (c : Call) : bool :=
  match c with
  | Call_mintNFT _ | Call_withdrawFunds | Call_renounceOwnership => true
  | Call_listNFT tokenId price value =>
      bool_decide (is_uint256 tokenId) && bool_decide (is_uint256 price)
      && bool_decide (is_uint256 value)
  | Call_buyNFT tokenId value =>
      bool_decide (is_uint256 tokenId) && bool_decide (is_uint256 value)
  | Call_cancelListing tokenId => bool_decide (is_uint256 tokenId)
  | Call_setListingFee newFee => bool_decide (is_uint256 newFee)
  | Call_transferFrom from to tokenId =>
      bool_decide (is_address from) && bool_decide (is_address to)
      && bool_decide (is_uint256 tokenId)
  | Call_approve to tokenId =>
      bool_decide (is_address to) && bool_decide (is_uint256 tokenId)
  | Call_setApprovalForAll operator _ => bool_decide (is_address operator)
  | Call_transferOwnership newOwner => bool_decide (is_address newOwner)
  end.

Definition wf_tx (tx : Tx) : bool :=
  bool_decide (is_address (tx_sender tx)) && bool_decide (tx_sender tx ≠ 0)
  && wf_call (tx_call tx).

Definition call_value (c : Call) : Z :=
  match c with
  | Call_listNFT _ _ v | Call_buyNFT _ v => v
  | _ => 0
  end.

Definition tx_msg (tx : Tx) : Msg :=
  mkMsg (tx_sender tx) (call_value (tx_call tx)) (tx_receives tx).

Inductive Status : Type :=
  | Success
  | Failure (e : Error).

#[global] Instance Status_eq_dec : EqDecision Status.
Proof. solve_decision. Defined.

Section Transactions.
Context {L : Type}.

(** The outcome of a transaction: a reverted call leaves the storage as
    it was, and the value sent with it returns to the sender. *)
Record Receipt : Type := mkReceipt {
  status : Status;
  post : World L;
  trace : list (Effect * World L)
}.

(** The value of the call is in the contract's balance when the body
    starts. *)
Definition receive_value (v : Z) (w : World L) : World L :=
  set_balance (balance w + v) w.

Variable dispatch : Msg -> Call -> M L unit.

Definition exec (tx : Tx) (w : World L) : Receipt :=
  let r := dispatch (tx_msg tx) (tx_call tx)
             (receive_value (call_value (tx_call tx)) w) in
  match res r with
  | Done _ w' => mkReceipt Success w' (log r)
  | Reverted e => mkReceipt (Failure e) w (log r)
  end.

Fixpoint exec_all (txs : list Tx) (w : World L) : World L :=
  match txs with
  | [] => w
  | tx :: rest => exec_all rest (post (exec tx w))
  end.

Fixpoint receipts (txs : list Tx) (w : World L) : list (Tx * Receipt) :=
  match txs with
  | [] => []
  | tx :: rest => (tx, exec tx w) :: receipts rest (post (exec tx w))
  end.

(** The states the contract can be in between two transactions. *)
Definition Reachable (w : World L) : Prop :=
  exists deployer txs,
    forallb wf_tx txs = true /\ w = exec_all txs (deployed deployer).
(** [wp r Q]: the run [r] satisfies [Q]; the form in which runs are
    executed symbolically. *)
Definition wp {A} (r : Run L A) (Q : Run L A -> Prop) : Prop := Q r.
End Transactions.

#[global] Arguments Receipt L : clear implicits.

(** *** Value flows of a run of transactions

    Only committed transactions count: what a reverted one did is undone. *)
Section Flows.
Context {L : Type}.

Definition is_buy (c : Call) : bool :=
  match c with Call_buyNFT _ _ => true | _ => false end.
Definition is_list (c : Call) : bool :=
  match c with Call_listNFT _ _ _ => true | _ => false end.

(** Whether a call puts [tokenId] on sale again. *)
Definition relists (tokenId : Z) (c : Call) : bool :=
  match c with
  | Call_listNFT t _ _ => bool_decide (t = tokenId)
  | _ => false
  end.

Definition committed (r : Receipt L) : bool :=
  bool_decide (status r = Success).

Definition total_over (f : Tx -> Receipt L -> Z)
    (rs : list (Tx * Receipt L)) : Z :=
  foldr (fun x acc => if committed (snd x) then f (fst x) (snd x) + acc else acc)
    0 rs.

(** What the contract keeps of the value of a call: the value less the
    refund. *)
Definition kept (tx : Tx) (r : Receipt L) : Z :=
  call_value (tx_call tx) - sent Refund (trace r).

(** Paid out by withdrawals. *)
Definition withdrawn : list (Tx * Receipt L) -> Z :=
  total_over (fun _ r => sent Payout (trace r)).
(** Listing fees handed to the operator. *)
Definition fees_collected : list (Tx * Receipt L) -> Z :=
  total_over (fun _ r => sent ListingFee (trace r)).
(** Received through purchases, refunds excluded. *)
Definition buy_proceeds : list (Tx * Receipt L) -> Z :=
  total_over (fun tx r => if is_buy (tx_call tx) then kept tx r else 0).
(** Paid in by listings, refunds excluded. *)
Definition fees_paid : list (Tx * Receipt L) -> Z :=
  total_over (fun tx r => if is_list (tx_call tx) then kept tx r else 0).
End Flows.

(** ** NFTMarketplace.sol *)
Module Baseline.

Record Listing : Type := mkListing {
  price : Z;
  seller : address;
  isActive : bool
}.

Definition Listing_zero : Listing := mkListing 0 0 false.

Abbreviation World := (World Listing).
Abbreviation M := (M Listing).

(** [listings[tokenId]] *)
Definition listing_of (w : World) (tokenId : Z) : Listing :=
  default Listing_zero (listings w !! tokenId).

(** [listings[tokenId].isActive = false] *)
Definition deactivate (tokenId : Z) (w : World) : World :=
  set_listings
    <[tokenId := mkListing (price (listing_of w tokenId))
                   (seller (listing_of w tokenId)) false]> w.

Definition _update (to : address) (tokenId : Z) (auth : address) : M address :=
  from <- _ownerOf tokenId ;;
  l <- sload (fun w => listing_of w tokenId) ;;
  (if bool_decide (from ≠ 0) && isActive l then
     (* Cancel listing if NFT is transferred *)
     sstore (Slot_listings tokenId) (deactivate tokenId)
   else ret tt) ;;
  ERC721_update to tokenId auth.

Definition mintNFT (msg : Msg) (uri : string) : M Z :=
  tokenId <- sload nextTokenIdCounter ;;
  next <- checked_add tokenId 1 ;;
  sstore Slot_nextTokenIdCounter (set_nextTokenIdCounter next) ;;
  _mint _update (sender msg) tokenId ;;
  ret tokenId.

Definition listNFT (msg : Msg) (tokenId price : Z) : M unit :=
  nonReentrant (
    o <- ownerOf tokenId ;;
    require_ (bool_decide (o = sender msg)) "Not the owner" ;;
    require_ (bool_decide (price > 0)) "Price must be greater than 0" ;;
    fee <- sload listingFee ;;
    require_ (bool_decide (value msg >= fee)) "Insufficient listing fee" ;;
    l <- sload (fun w => listing_of w tokenId) ;;
    require_ (negb (isActive l)) "Already listed" ;;

    sstore (Slot_listings tokenId)
      (set_listings <[tokenId := mkListing price (sender msg) true]>) ;;

    (* Transfer listing fee to contract owner *)
    operator <- owner ;;
    fee <- sload listingFee ;;
    transfer_ msg ListingFee operator fee ;;

    (* Refund excess payment *)
    fee <- sload listingFee ;;
    (if bool_decide (value msg > fee) then
       fee <- sload listingFee ;;
       excess <- checked_sub (value msg) fee ;;
       transfer_ msg Refund (sender msg) excess
     else ret tt) ;;

    emit (NFTListed tokenId (sender msg) price)).

Definition buyNFT (msg : Msg) (tokenId : Z) : M unit :=
  nonReentrant (
    listing <- sload (fun w => listing_of w tokenId) ;;
    require_ (isActive listing) "NFT not listed" ;;
    require_ (bool_decide (value msg >= price listing)) "Insufficient payment" ;;

    (* Mark listing as inactive *)
    sstore (Slot_listings tokenId) (deactivate tokenId) ;;

    (* Transfer NFT to buyer *)
    _transfer _update (seller listing) (sender msg) tokenId ;;

    (* Store payment for seller *)
    old <- sload (fun w => pending_of w (seller listing)) ;;
    new <- checked_add old (price listing) ;;
    sstore (Slot_pendingWithdrawals (seller listing))
      (set_pendingWithdrawals <[seller listing := new]>) ;;

    (* Refund excess payment *)
    (if bool_decide (value msg > price listing) then
       excess <- checked_sub (value msg) (price listing) ;;
       transfer_ msg Refund (sender msg) excess
     else ret tt) ;;

    emit (NFTSold tokenId (sender msg) (seller listing) (price listing))).

Definition cancelListing (msg : Msg) (tokenId : Z) : M unit :=
  o <- ownerOf tokenId ;;
  require_ (bool_decide (o = sender msg)) "Not the owner" ;;
  l <- sload (fun w => listing_of w tokenId) ;;
  require_ (isActive l) "Not listed" ;;

  sstore (Slot_listings tokenId) (deactivate tokenId) ;;
  emit (ListingCancelled tokenId).

Definition withdrawFunds (msg : Msg) : M unit :=
  nonReentrant (
    amount <- sload (fun w => pending_of w (sender msg)) ;;
    require_ (bool_decide (amount > 0)) "No funds to withdraw" ;;

    sstore (Slot_pendingWithdrawals (sender msg))
      (set_pendingWithdrawals <[sender msg := 0]>) ;;
    transfer_ msg Payout (sender msg) amount).

Definition getListing (w : World) (tokenId : Z) : Listing :=
  listing_of w tokenId.

Definition getPendingWithdrawal (w : World) (a : address) : Z :=
  pending_of w a.

Definition setListingFee (msg : Msg) (newFee : Z) : M unit :=
  onlyOwner msg (
    sstore Slot_listingFee (set_listingFee newFee) ;;
    emit (ListingFeeUpdated newFee)).

Definition dispatch (msg : Msg) (c : Call) : M unit :=
  match c with
  | Call_mintNFT uri => mintNFT msg uri ;; ret tt
  | Call_listNFT tokenId price _ => listNFT msg tokenId price
  | Call_buyNFT tokenId _ => buyNFT msg tokenId
  | Call_cancelListing tokenId => cancelListing msg tokenId
  | Call_withdrawFunds => withdrawFunds msg
  | Call_setListingFee newFee => setListingFee msg newFee
  | Call_transferFrom from to tokenId => transferFrom _update msg from to tokenId
  | Call_approve to tokenId => approve msg to tokenId
  | Call_setApprovalForAll operator approved =>
      setApprovalForAll msg operator approved
  | Call_transferOwnership newOwner => transferOwnership msg newOwner
  | Call_renounceOwnership => renounceOwnership msg
  end.

Definition exec : Tx -> World -> Receipt Listing := exec dispatch.
Definition exec_all : list Tx -> World -> World := exec_all dispatch.
Definition receipts : list Tx -> World -> list (Tx * Receipt Listing) :=
  receipts dispatch.
Definition Reachable : World -> Prop := Reachable dispatch.

(** Whether [tokenId] is on sale. *)
Definition active (w : World) (tokenId : Z) : bool :=
  isActive (getListing w tokenId).

(** The seller of an active listing owns the token. *)
Definition Coherent (w : World) : Prop :=
  forall tokenId, active w tokenId = true ->
    owner_of w tokenId = seller (getListing w tokenId) /\
    owner_of w tokenId ≠ 0 /\
    0 < price (getListing w tokenId).

Definition Inv (w : World) : Prop :=
  Idle w /\ Coherent w /\ Solvent w /\ 0 <= listingFee w.

End Baseline.

(** ** NFTMarketplaceOptimized.sol *)
Module Optimized.

Record Listing : Type := mkListing {
  price : Z;       (* uint96 *)
  seller : address
  (* isActive removed, use price > 0 instead *)
}.

Definition Listing_zero : Listing := mkListing 0 0.

Abbreviation World := (World Listing).
Abbreviation M := (M Listing).

(** [listings[tokenId]] *)
Definition listing_of (w : World) (tokenId : Z) : Listing :=
  default Listing_zero (listings w !! tokenId).

(** [listings[tokenId].price] *)
Definition price_of (w : World) (tokenId : Z) : Z :=
  price (listing_of w tokenId).

Definition _update (to : address) (tokenId : Z) (auth : address) : M address :=
  from <- _ownerOf tokenId ;;
  (* Only write if necessary *)
  (if bool_decide (from ≠ 0) then
     listing <- sload (fun w => listing_of w tokenId) ;;
     if bool_decide (price listing > 0) then
       (* Cancel listing if NFT is transferred *)
       sstore (Slot_listings tokenId) (set_listings (delete tokenId))
     else ret tt
   else ret tt) ;;
  ERC721_update to tokenId auth.

Definition mintNFT (msg : Msg) (uri : string) : M Z :=
  tokenId <- sload nextTokenIdCounter ;;
  sstore Slot_nextTokenIdCounter
    (set_nextTokenIdCounter (unchecked_add tokenId 1)) ;;
  _mint _update (sender msg) tokenId ;;
  ret tokenId.

Definition listNFT (msg : Msg) (tokenId price : Z) : M unit :=
  nonReentrant (
    (* Early validation before storage reads *)
    require_ (bool_decide (price > 0)) "Price must be greater than 0" ;;
    require_ (bool_decide (price <= uint96_max)) "Price too high" ;;
    fee <- sload listingFee ;;
    require_ (bool_decide (value msg >= fee)) "Insufficient listing fee" ;;

    o <- ownerOf tokenId ;;
    require_ (bool_decide (o = sender msg)) "Not the owner" ;;

    (* Check if active using price (no need for bool) *)
    stored <- sload (fun w => price_of w tokenId) ;;
    require_ (bool_decide (stored = 0)) "Already listed" ;;

    sstore (Slot_listings tokenId)
      (set_listings <[tokenId := mkListing (uint96 price) (sender msg)]>) ;;

    (* Calculate refund once *)
    fee <- sload listingFee ;;
    let refund := unchecked_sub (value msg) fee in

    (* Transfer listing fee to contract owner *)
    operator <- owner ;;
    fee <- sload listingFee ;;
    transfer_ msg ListingFee operator fee ;;

    (* Refund excess payment if any *)
    (if bool_decide (refund > 0) then
       transfer_ msg Refund (sender msg) refund
     else ret tt) ;;

    emit (NFTListed tokenId (sender msg) price)).

Definition buyNFT (msg : Msg) (tokenId : Z) : M unit :=
  nonReentrant (
    (* Load to memory once *)
    listing <- sload (fun w => listing_of w tokenId) ;;

    (* Early validation *)
    require_ (bool_decide (price listing > 0)) "NFT not listed" ;;
    require_ (bool_decide (value msg >= price listing)) "Insufficient payment" ;;

    (* Delete listing *)
    sstore (Slot_listings tokenId) (set_listings (delete tokenId)) ;;

    (* Transfer NFT to buyer *)
    _transfer _update (seller listing) (sender msg) tokenId ;;

    old <- sload (fun w => pending_of w (seller listing)) ;;
    sstore (Slot_pendingWithdrawals (seller listing))
      (set_pendingWithdrawals
         <[seller listing := unchecked_add old (price listing)]>) ;;

    (* Calculate and refund excess *)
    let refund := unchecked_sub (value msg) (price listing) in
    (if bool_decide (refund > 0) then
       transfer_ msg Refund (sender msg) refund
     else ret tt) ;;

    emit (NFTSold tokenId (sender msg) (seller listing) (price listing))).

Definition cancelListing (msg : Msg) (tokenId : Z) : M unit :=
  o <- ownerOf tokenId ;;
  require_ (bool_decide (o = sender msg)) "Not the owner" ;;
  stored <- sload (fun w => price_of w tokenId) ;;
  require_ (bool_decide (stored > 0)) "Not listed" ;;

  (* Delete instead of setting false *)
  sstore (Slot_listings tokenId) (set_listings (delete tokenId)) ;;

  emit (ListingCancelled tokenId).

Definition withdrawFunds (msg : Msg) : M unit :=
  nonReentrant (
    (* Cache in memory *)
    amount <- sload (fun w => pending_of w (sender msg)) ;;
    require_ (bool_decide (amount > 0)) "No funds to withdraw" ;;

    (* Reset before transfer (checks-effects-interactions) *)
    sstore (Slot_pendingWithdrawals (sender msg))
      (set_pendingWithdrawals <[sender msg := 0]>) ;;

    transfer_ msg Payout (sender msg) amount).

(** Returns [(price, seller, isActive)]. *)
Definition getListing (w : World) (tokenId : Z) : Z * address * bool :=
  let listing := listing_of w tokenId in
  (price listing, seller listing, bool_decide (price listing > 0)).

Definition getPendingWithdrawal (w : World) (a : address) : Z :=
  pending_of w a.

Definition setListingFee (msg : Msg) (newFee : Z) : M unit :=
  onlyOwner msg (
    require_ (bool_decide (newFee <= uint96_max)) "Fee too high" ;;
    sstore Slot_listingFee (set_listingFee (uint96 newFee)) ;;
    emit (ListingFeeUpdated newFee)).

Definition dispatch (msg : Msg) (c : Call) : M unit :=
  match c with
  | Call_mintNFT uri => mintNFT msg uri ;; ret tt
  | Call_listNFT tokenId price _ => listNFT msg tokenId price
  | Call_buyNFT tokenId _ => buyNFT msg tokenId
  | Call_cancelListing tokenId => cancelListing msg tokenId
  | Call_withdrawFunds => withdrawFunds msg
  | Call_setListingFee newFee => setListingFee msg newFee
  | Call_transferFrom from to tokenId => transferFrom _update msg from to tokenId
  | Call_approve to tokenId => approve msg to tokenId
  | Call_setApprovalForAll operator approved =>
      setApprovalForAll msg operator approved
  | Call_transferOwnership newOwner => transferOwnership msg newOwner
  | Call_renounceOwnership => renounceOwnership msg
  end.

Definition exec : Tx -> World -> Receipt Listing := exec dispatch.
Definition exec_all : list Tx -> World -> World := exec_all dispatch.
Definition receipts : list Tx -> World -> list (Tx * Receipt Listing) :=
  receipts dispatch.
Definition Reachable : World -> Prop := Reachable dispatch.

(** Whether [tokenId] is on sale: the third component of [getListing]. *)
Definition active (w : World) (tokenId : Z) : bool :=
  snd (getListing w tokenId).

(** The seller of an active listing owns the token; stored prices are
    [uint96]. *)
Definition Coherent (w : World) : Prop :=
  forall tokenId,
    0 <= price (listing_of w tokenId) <= uint96_max /\
    (active w tokenId = true ->
       owner_of w tokenId = seller (listing_of w tokenId) /\
       owner_of w tokenId ≠ 0).

Definition Inv (w : World) : Prop :=
  Idle w /\ Coherent w /\ Solvent w /\ 0 <= listingFee w <= uint96_max.

End Optimized.


(** * Notions the statements use *)

(** The functions behind [nonReentrant]. *)
Definition guarded (c : Call) : bool :=
  match c with
  | Call_listNFT _ _ _ | Call_buyNFT _ _ | Call_withdrawFunds => true
  | _ => false
  end.

(** No transaction of [txs] calls [listNFT] on [tokenId]. *)
Definition no_relisting (tokenId : Z) (txs : list Tx) : Prop :=
  Forall (fun tx => relists tokenId (tx_call tx) = false) txs.

(** ** A run of the test suite: mint, list, buy *)

Definition accept_all : address -> Z -> bool := fun _ _ => true.
Definition operator : address := 10.
Definition alice : address := 11.
Definition bob : address := 12.

Definition listed_txs : list Tx :=
  [ mkTx alice accept_all (Call_mintNFT "https://example.com/nft/1");
    mkTx alice accept_all (Call_listNFT 0 100 ether_0_01) ].

Definition buy_over : Tx := mkTx bob accept_all (Call_buyNFT 0 150).
Definition buy_exact : Tx := mkTx bob accept_all (Call_buyNFT 0 100).

Definition reject_all : address -> Z -> bool := fun _ _ => false.
(** The run of the test suite up to the sale. *)
Definition sold_txs : list Tx := listed_txs ++ [buy_exact].
Definition withdraw_by (a : Z) (rcv : Z -> Z -> bool) : Tx :=
  mkTx a rcv Call_withdrawFunds.

(** What a successful [withdrawFunds] does, in order. *)
Definition withdraw_trace (caller : address) (amount : Z) : list Effect :=
  [Wrote Slot_status; Wrote (Slot_pendingWithdrawals caller);
   Sent Payout caller amount; Wrote Slot_status].

(** A state in which token 0 is listed by [alice] but owned by [bob]: the
    transfer of a purchase fails there. *)
Definition stale_listing : Baseline.World :=
  set_owners <[0 := bob]> (Baseline.exec_all listed_txs (deployed operator)).

(** What a successful [buyNFT] does, in order. *)
Definition buy_trace (tokenId : Z) (buyer seller : address) (price paid : Z)
    : list Effect :=
  [Wrote Slot_status; Wrote (Slot_listings tokenId);
   Wrote (Slot_tokenApprovals tokenId); Wrote (Slot_owners tokenId);
   Emitted (Transfer seller buyer tokenId);
   Wrote (Slot_pendingWithdrawals seller)]
  ++ (if bool_decide (paid > price) then [Sent Refund buyer (paid - price)]
      else [])
  ++ [Emitted (NFTSold tokenId buyer seller price); Wrote Slot_status].

Definition set_fee_by (a : address) (newFee : Z) : Tx :=
  mkTx a accept_all (Call_setListingFee newFee).

(** The seller of the test run buys her own token back. *)
Definition self_buy (paid : Z) (rcv : address -> Z -> bool) : Tx :=
  mkTx alice rcv (Call_buyNFT 0 paid).

(** The operator's account refuses value; every other account accepts. *)
Definition operator_refuses : address -> Z -> bool :=
  fun a _ => negb (bool_decide (a = operator)).

Definition minted_txs : list Tx :=
  [ mkTx alice accept_all (Call_mintNFT "https://example.com/nft/1") ].

(** The seller of the test run transfers the listed token directly. *)
Definition give_away : Tx := mkTx alice accept_all (Call_transferFrom alice bob 0).

(** ** Comparing the two contracts *)

(** The optimized contract stores prices and fees as [uint96]. *)
Definition fits_uint96 (c : Call) : bool :=
  match c with
  | Call_listNFT _ price _ => bool_decide (price <= uint96_max)
  | Call_setListingFee newFee => bool_decide (newFee <= uint96_max)
  | _ => true
  end.

(** The value sent with the transactions of a run. *)
Definition total_value (txs : list Tx) : Z :=
  foldr (fun tx acc => call_value (tx_call tx) + acc) 0 txs.

(** What an observer sees of the two contracts: the owners of the tokens,
    the escrow, whether a token is on sale as [getListing] reports it, at
    which price and by whom if it is, and the event log. *)
Definition Observed (wb : Baseline.World) (wo : Optimized.World) : Prop :=
  (forall tokenId, owner_of wb tokenId = owner_of wo tokenId) /\
  (forall a, Baseline.getPendingWithdrawal wb a
             = Optimized.getPendingWithdrawal wo a) /\
  (forall tokenId,
     Baseline.isActive (Baseline.getListing wb tokenId)
     = snd (Optimized.getListing wo tokenId)) /\
  (forall tokenId,
     Baseline.isActive (Baseline.getListing wb tokenId) = true ->
     Baseline.price (Baseline.getListing wb tokenId)
     = fst (fst (Optimized.getListing wo tokenId)) /\
     Baseline.seller (Baseline.getListing wb tokenId)
     = snd (fst (Optimized.getListing wo tokenId))) /\
  events wb = events wo.

(** Both calls succeed or both fail; outside [listNFT] a failure has the
    same reason in both. *)
Definition same_outcome (c : Call) (sb so : Status) : Prop :=
  (sb = Success <-> so = Success) /\ (is_list c = false -> sb = so).

Definition Equivalent (b : Tx * Receipt Baseline.Listing)
    (o : Tx * Receipt Optimized.Listing) : Prop :=
  fst b = fst o /\
  same_outcome (tx_call (fst b)) (status (snd b)) (status (snd o)) /\
  Observed (post (snd b)) (post (snd o)).

(** The storage of the two contracts in step: the shared variables are
    equal, a listing flagged active is stored with the same price and
    seller, one flagged inactive has price 0 in the optimized contract. *)
Definition Sim (wb : Baseline.World) (wo : Optimized.World) : Prop :=
  _owners wb = _owners wo /\
  _tokenApprovals wb = _tokenApprovals wo /\
  _operatorApprovals wb = _operatorApprovals wo /\
  _owner wb = _owner wo /\
  _status wb = _status wo /\
  pendingWithdrawals wb = pendingWithdrawals wo /\
  nextTokenIdCounter wb = nextTokenIdCounter wo /\
  listingFee wb = listingFee wo /\
  balance wb = balance wo /\
  events wb = events wo /\
  forall tokenId,
    if Baseline.isActive (Baseline.listing_of wb tokenId) then
      Optimized.price (Optimized.listing_of wo tokenId)
      = Baseline.price (Baseline.listing_of wb tokenId) /\
      Optimized.seller (Optimized.listing_of wo tokenId)
      = Baseline.seller (Baseline.listing_of wb tokenId)
    else Optimized.price (Optimized.listing_of wo tokenId) = 0.

(** The two contracts disagree on why a listing is refused: [bob] lists
    [alice]'s token at price 0. *)
Definition bad_listing : Tx := mkTx bob accept_all (Call_listNFT 0 0 ether_0_01).

(** What a successful [listNFT] does, in order. *)
Definition list_trace (tokenId : Z) (seller operator : address) (fee paid : Z)
    (price : Z) : list Effect :=
  [Wrote Slot_status; Wrote (Slot_listings tokenId);
   Sent ListingFee operator fee]
  ++ (if bool_decide (paid > fee) then [Sent Refund seller (paid - fee)]
      else [])
  ++ [Emitted (NFTListed tokenId seller price); Wrote Slot_status].

(** The test suite's cancellation. *)
Definition cancel_by (a : address) (tokenId : Z) : Tx :=
  mkTx a accept_all (Call_cancelListing tokenId).

(** ** Token numbering *)

Definition is_mint (c : Call) : bool :=
  match c with Call_mintNFT _ => true | _ => false end.

(** The number of tokens a run has minted. *)
Definition mints {L} : list (Tx * Receipt L) -> Z :=
  total_over (fun tx _ => if is_mint (tx_call tx) then 1 else 0).

(** Token ids are handed out in order: exactly the ids below the counter
    have an owner.  A token without owner carries no approval, and nobody
    is operator for the zero address. *)
Definition Numbered {L} (w : World L) : Prop :=
  0 <= nextTokenIdCounter w /\
  (forall tokenId,
     owner_of w tokenId ≠ 0 <-> 0 <= tokenId < nextTokenIdCounter w) /\
  (forall tokenId, owner_of w tokenId = 0 -> approved_of w tokenId = 0) /\
  (forall spender, (0, spender) ∉ _operatorApprovals w).



(** * Reasoning about runs *)

Section MonadLaws.
Context {L : Type}.
Implicit Types w : World L.

Lemma bind_ret {A B} (a : A) (k : A -> M L B) w : bind (ret a) k w = k a w.
Proof. unfold bind, ret. by destruct (k a w). Qed.

Lemma bind_revert {A B} e (k : A -> M L B) w :
  bind (revert e) k w = mkRun [] (Reverted e).
Proof. reflexivity. Qed.

Lemma bind_sload {A B} (f : World L -> A) (k : A -> M L B) w :
  bind (sload f) k w = k (f w) w.
Proof. unfold bind, sload. by destruct (k (f w) w). Qed.

Lemma bind_sstore {B} s f (k : unit -> M L B) w :
  bind (sstore s f) k w = cons_log (Wrote s, f w) (k tt (f w)).
Proof. unfold bind, sstore, cons_log. by destruct (k tt (f w)). Qed.

Lemma bind_emit {B} e (k : unit -> M L B) w :
  bind (emit e) k w =
  cons_log (Emitted e, set_events (fun l => l ++ [e]) w)
    (k tt (set_events (fun l => l ++ [e]) w)).
Proof. unfold bind, emit, cons_log. by destruct (k tt _). Qed.

Lemma bind_transfer {B} msg p to amount (k : unit -> M L B) w :
  bind (transfer_ msg p to amount) k w =
  if bool_decide (amount <= balance w) && receives msg to amount then
    cons_log (Sent p to amount, set_balance (balance w - amount) w)
      (k tt (set_balance (balance w - amount) w))
  else mkRun [] (Reverted TransferReverted).
Proof.
  unfold bind, transfer_, cons_log.
  destruct (_ && _); [by destruct (k tt _) | done].
Qed.

Lemma bind_bind {A B C} (m : M L A) (k1 : A -> M L B) (k2 : B -> M L C) w :
  bind (bind m k1) k2 w = bind m (fun a => bind (k1 a) k2) w.
Proof.
  unfold bind. destruct (m w) as [l [a w'|e]]; [|done].
  destruct (k1 a w') as [l1 [b w''|e]]; [|done].
  destruct (k2 b w'') as [l2 o]. by rewrite app_assoc.
Qed.

Lemma run_ret {A} (a : A) w : ret a w = mkRun [] (Done a w).
Proof. reflexivity. Qed.

Lemma run_revert {A} e w : @revert L A e w = mkRun [] (Reverted e).
Proof. reflexivity. Qed.

Lemma run_sstore s f w :
  sstore s f w = cons_log (Wrote s, f w) (mkRun [] (Done tt (f w))).
Proof. reflexivity. Qed.

Lemma run_emit e w :
  emit e w = cons_log (Emitted e, set_events (fun l => l ++ [e]) w)
               (mkRun [] (Done tt (set_events (fun l => l ++ [e]) w))).
Proof. reflexivity. Qed.

Lemma run_transfer msg p to amount w :
  transfer_ msg p to amount w =
  if bool_decide (amount <= balance w) && receives msg to amount then
    cons_log (Sent p to amount, set_balance (balance w - amount) w)
      (mkRun [] (Done tt (set_balance (balance w - amount) w)))
  else mkRun [] (Reverted TransferReverted).
Proof. unfold transfer_. by destruct (_ && _). Qed.
End MonadLaws.

(** Symbolic execution.  A goal about [exec tx w] is put in the form
    [wp (body w') Q]; the run is then reduced at its head, so that the rest
    of the function stays folded, the storage is normalised, and the
    condition that blocks the run is split. *)
Lemma exec_wp {L} (dispatch : Msg -> Call -> M L unit) tx w
    (Q : Receipt L -> Prop) :
  wp (dispatch (tx_msg tx) (tx_call tx)
        (receive_value (call_value (tx_call tx)) w))
     (fun r => Q match res r with
                 | Done _ w' => mkReceipt Success w' (log r)
                 | Reverted e => mkReceipt (Failure e) w (log r)
                 end) ->
  Q (exec dispatch tx w).
Proof. done. Qed.

Lemma default_lookup_insert {A} (m : gmap Z A) k v z :
  default z (<[k:=v]> m !! k) = v.
Proof. by rewrite lookup_insert_eq. Qed.

Lemma default_lookup_delete {A} (m : gmap Z A) k z :
  default z (delete k m !! k) = z.
Proof. by rewrite lookup_delete_eq. Qed.

Ltac side := solve [ done | lia | congruence ].

Ltac case_cond c :=
  lazymatch c with
  | ?a && ?b => case_cond a
  | ?a || ?b => case_cond a
  | negb ?a => case_cond a
  | bool_decide ?P =>
      first [ rewrite (bool_decide_eq_true_2 P) by side
            | rewrite (bool_decide_eq_false_2 P) by side
            | destruct (bool_decide_reflect P) ]
  | _ => destruct c eqn:?
  end.

(** Strong reduction of the storage operations. *)
Ltac evm_data :=
  lazy beta iota zeta delta
    [cons_log res log fst snd
     _owners _tokenApprovals _operatorApprovals _owner _status listings
     pendingWithdrawals nextTokenIdCounter listingFee balance events
     set_owners set_tokenApprovals set_operatorApprovals set_owner
     set_status set_listings set_pendingWithdrawals set_nextTokenIdCounter
     set_listingFee set_balance set_events
     owner_of approved_of pending_of receive_value escrow_total
     sender value receives tx_msg tx_sender tx_receives tx_call call_value
     status post trace
     Baseline.deactivate Baseline.active
     Baseline.getListing Baseline.getPendingWithdrawal Baseline.listing_of
     Optimized.active Optimized.getListing
     Optimized.getPendingWithdrawal Optimized.price_of Optimized.listing_of].

(** Head reduction of the run. *)
Ltac evm_head :=
  match goal with
  | |- wp ?r ?Q =>
    let r' := eval lazy head beta iota zeta delta
    [bind ret revert require_ sload sstore emit transfer_ checked_add checked_sub
     nonReentrant _nonReentrantBefore _nonReentrantAfter
     owner onlyOwner _checkOwner renounceOwnership
     transferOwnership _transferOwnership approve
     setApprovalForAll _mint _transfer transferFrom ERC721_update
     _checkAuthorized _isAuthorized _approve isApprovedForAll _getApproved
     ownerOf _requireOwned _ownerOf
     Baseline.dispatch
     Baseline.mintNFT Baseline.listNFT Baseline.buyNFT
     Baseline.cancelListing Baseline.withdrawFunds Baseline.setListingFee
     Baseline._update
     Optimized.dispatch
     Optimized.mintNFT Optimized.listNFT Optimized.buyNFT
     Optimized.cancelListing Optimized.withdrawFunds Optimized.setListingFee
     Optimized._update] in r in
    change (wp r' Q)
  end.

(** Strong reduction of everything: for a run without open conditions. *)
Ltac evm_red :=
  lazy beta iota zeta delta
    [wp bind ret revert require_ sload sstore emit transfer_
     checked_add checked_sub cons_log res log
     nonReentrant _nonReentrantBefore _nonReentrantAfter
     owner onlyOwner _checkOwner renounceOwnership
     transferOwnership _transferOwnership approve
     setApprovalForAll _mint _transfer transferFrom ERC721_update
     _checkAuthorized _isAuthorized _approve isApprovedForAll _getApproved
     ownerOf _requireOwned _ownerOf
     fst snd
     _owners _tokenApprovals _operatorApprovals _owner _status listings
     pendingWithdrawals nextTokenIdCounter listingFee balance events
     set_owners set_tokenApprovals set_operatorApprovals set_owner
     set_status set_listings set_pendingWithdrawals set_nextTokenIdCounter
     set_listingFee set_balance set_events
     owner_of approved_of pending_of receive_value escrow_total
     sender value receives tx_msg tx_sender tx_receives tx_call call_value
     status post trace exec
     Baseline.exec Baseline.dispatch
     Baseline.mintNFT Baseline.listNFT Baseline.buyNFT
     Baseline.cancelListing Baseline.withdrawFunds Baseline.setListingFee
     Baseline._update Baseline.deactivate Baseline.active
     Baseline.getListing Baseline.getPendingWithdrawal Baseline.listing_of
     Optimized.exec Optimized.dispatch
     Optimized.mintNFT Optimized.listNFT Optimized.buyNFT
     Optimized.cancelListing Optimized.withdrawFunds Optimized.setListingFee
     Optimized._update Optimized.active Optimized.getListing
     Optimized.getPendingWithdrawal Optimized.price_of Optimized.listing_of].

Ltac evm_split :=
  match goal with
  | |- context [(if ?c then _ else _) _] => case_cond c
  | |- context [if ?c then _ else mkRun _ (Reverted TransferReverted)] =>
      case_cond c
  end.

Ltac evm_begin :=
  match goal with
  | |- context [Baseline.exec ?tx ?w] =>
      pattern (Baseline.exec tx w);
      match goal with |- ?Q _ => refine (exec_wp Baseline.dispatch tx w Q _) end
  | |- context [Optimized.exec ?tx ?w] =>
      pattern (Optimized.exec tx w);
      match goal with |- ?Q _ => refine (exec_wp Optimized.dispatch tx w Q _) end
  end.

Ltac evm_steps :=
  repeat (evm_head; evm_data;
          rewrite ?default_lookup_insert, ?default_lookup_delete;
          cbn [andb orb negb Baseline.price Baseline.seller Baseline.isActive
               Optimized.price Optimized.seller];
          try evm_split).

Ltac evm_end := evm_red; cbn [app].

Ltac evm_go := evm_begin; evm_steps; evm_end.

(** ** Sums over the escrow ledger *)

Lemma sum_map_empty : sum_map ∅ = 0.
Proof. apply map_fold_empty. Qed.

Lemma sum_map_insert_fresh m a v :
  m !! a = None -> sum_map (<[a:=v]> m) = v + sum_map m.
Proof.
  intros Hn. unfold sum_map. apply map_fold_insert_L; [|done].
  intros. lia.
Qed.

Lemma sum_map_delete m a v :
  m !! a = Some v -> sum_map m = v + sum_map (delete a m).
Proof.
  intros Hs. rewrite <- (insert_delete_id m a v) at 1 by done.
  apply sum_map_insert_fresh, lookup_delete_eq.
Qed.

Lemma sum_map_insert m a v :
  sum_map (<[a:=v]> m) = sum_map m - default 0 (m !! a) + v.
Proof.
  destruct (m !! a) as [old|] eqn:Hl; cbn.
  - rewrite <- insert_delete_eq.
    rewrite sum_map_insert_fresh by apply lookup_delete_eq.
    rewrite (sum_map_delete m a old) by done. lia.
  - rewrite sum_map_insert_fresh by done. lia.
Qed.

Lemma sum_map_nonneg m : map_Forall (fun _ v => 0 <= v) m -> 0 <= sum_map m.
Proof.
  unfold sum_map. induction m as [|a v m Hn Hfold IH] using map_first_key_ind.
  - intros _. by rewrite map_fold_empty.
  - intros Hall. rewrite map_fold_insert_first_key by done.
    apply map_Forall_insert in Hall as [? Hrest]; [|done].
    specialize (IH Hrest). lia.
Qed.

Lemma sum_map_lookup_le m a :
  map_Forall (fun _ v => 0 <= v) m -> default 0 (m !! a) <= sum_map m.
Proof.
  intros Hall. destruct (m !! a) as [v|] eqn:Hl; cbn.
  - rewrite (sum_map_delete m a v) by done.
    assert (0 <= sum_map (delete a m)); [|lia].
    apply sum_map_nonneg. by apply map_Forall_delete.
  - by apply sum_map_nonneg.
Qed.

Lemma default_nonneg (m : gmap Z Z) a :
  map_Forall (fun _ v => 0 <= v) m -> 0 <= default 0 (m !! a).
Proof.
  intros Hall. destruct (m !! a) as [v|] eqn:Hl; cbn; [|done].
  by apply (Hall a v).
Qed.

(** Case analysis on the keys a lookup meets. *)
Ltac key_cases k' :=
  repeat match goal with
  | |- context [<[?k:=_]> _ !! k'] =>
      destruct (decide (k' = k)) as [->|?];
      [ rewrite ?lookup_insert_eq, ?lookup_delete_eq
      | rewrite ?(lookup_insert_ne _ k k'), ?(lookup_delete_ne _ k k') by done ]
  | |- context [delete ?k _ !! k'] =>
      destruct (decide (k' = k)) as [->|?];
      [ rewrite ?lookup_insert_eq, ?lookup_delete_eq
      | rewrite ?(lookup_insert_ne _ k k'), ?(lookup_delete_ne _ k k') by done ]
  end.

Ltac listing_simpl :=
  cbn [default from_option id Baseline.price Baseline.seller Baseline.isActive
       Baseline.Listing_zero Optimized.price Optimized.seller
       Optimized.Listing_zero] in *.

Ltac start_world w :=
  destruct w as [ow ta oa o st ls pw ctr fee bal evs].

(** What well-formedness says about the arguments of a call. *)
Ltac wf_facts H :=
  unfold wf_tx, wf_call in H; cbn [tx_sender tx_call] in H;
  repeat match goal with
  | H' : _ && _ = true |- _ =>
      let H1 := fresh "Hwf" in
      let H2 := fresh "Hwf" in
      apply andb_prop in H' as [H1 H2]
  end;
  repeat match goal with
  | H' : bool_decide _ = true |- _ => apply bool_decide_eq_true_1 in H'
  end;
  unfold is_uint256, is_address in *.

Ltac solve_solvent Hs1 :=
  lazymatch type of Hs1 with
  | map_Forall _ ?m =>
      repeat match goal with
      | |- context [default 0 (m !! ?a)] =>
          lazymatch goal with
          | _ : 0 <= default 0 (m !! a) |- _ => fail
          | _ => pose proof (default_nonneg m a Hs1);
                 pose proof (sum_map_lookup_le m a Hs1)
          end
      end
  end;
  repeat match goal with
  | |- map_Forall _ (<[_:=_]> _) => apply map_Forall_insert_2
  | |- context [sum_map (<[?a:=_]> ?m)] => rewrite (sum_map_insert m a)
  end; solve [ done | lia ].

(** ** Machine arithmetic *)

Lemma max_bounds : 0 < uint96_max /\ uint96_max < uint256_max.
Proof. unfold uint96_max, uint256_max. lia. Qed.

Lemma uint96_id x : 0 <= x <= uint96_max -> uint96 x = x.
Proof. unfold uint96, uint96_max. intros ?. apply Z.mod_small. lia. Qed.

Lemma unchecked_add_bounds a b :
  0 <= a -> 0 <= b -> 0 <= unchecked_add a b <= a + b.
Proof.
  intros Ha Hb. unfold unchecked_add.
  pose proof (Z.mod_pos_bound (a + b) (2 ^ 256) ltac:(lia)).
  pose proof (Z.mod_le (a + b) (2 ^ 256) ltac:(lia) ltac:(lia)). lia.
Qed.

Lemma unchecked_add_id a b :
  0 <= a -> 0 <= b -> a + b <= uint256_max -> unchecked_add a b = a + b.
Proof. unfold unchecked_add, uint256_max. intros. apply Z.mod_small. lia. Qed.

Lemma unchecked_sub_id a b :
  0 <= b <= a -> a <= uint256_max -> unchecked_sub a b = a - b.
Proof. unfold unchecked_sub, uint256_max. intros ? ?. apply Z.mod_small. lia. Qed.

Ltac unchecked_facts :=
  repeat match goal with
  | |- context [unchecked_sub ?a ?b] => rewrite (unchecked_sub_id a b) by lia
  | |- context [unchecked_add ?a ?b] =>
      lazymatch goal with
      | _ : 0 <= unchecked_add a b <= _ |- _ => fail
      | _ => pose proof (unchecked_add_bounds a b ltac:(lia) ltac:(lia))
      end
  end.

(** ** The invariant of the ledger *)

Ltac solve_coherent Hc :=
  let k := fresh "k" in
  let Ha := fresh "Ha" in
  intros k; key_cases k; listing_simpl; intros Ha; try discriminate;
  try (destruct (Hc _ Ha) as (? & ? & ?));
  repeat split; solve [ done | lia | congruence ].

Ltac solve_coherent_o Hc :=
  let k := fresh "k" in
  let Ha := fresh "Ha" in
  intros k; key_cases k; listing_simpl; rewrite ?uint96_id by lia;
  try match goal with
  | |- context [default Optimized.Listing_zero (_ !! ?t)] =>
      pose proof (proj1 (Hc t))
  end;
  (split;
   [ lia
   | intros Ha; try (apply bool_decide_eq_true_1 in Ha; lia);
     try (destruct (proj2 (Hc _) Ha) as (? & ?));
     repeat split; solve [ done | lia | congruence ] ]).

Lemma baseline_inv_step tx (w : Baseline.World) :
  Baseline.Inv w -> wf_tx tx = true -> Baseline.Inv (post (Baseline.exec tx w)).
Proof.
  intros HI Hwf. pose proof HI as (Hi & Hc & Hs & Hf). red in Hi.
  start_world w. cbn in Hi. subst st.
  destruct tx as [s rcv []]; wf_facts Hwf.
  all: evm_go.
  all: try exact HI.
  all: unfold Baseline.Inv, Baseline.Coherent, Solvent, Idle in *.
  all: clear HI; revert Hc Hs Hf; evm_red; intros Hc [Hs1 Hs2] Hf.
  all: try match goal with
       | H : Baseline.isActive _ = true |- _ => pose proof (Hc _ H) as (? & ? & ?)
       end.
  all: split; [reflexivity|]; split; [|split; [split|]].
  all: try assumption.
  all: try lia.
  all: try solve_coherent Hc.
  all: solve_solvent Hs1.
Qed.

Lemma optimized_inv_step tx (w : Optimized.World) :
  Optimized.Inv w -> wf_tx tx = true ->
  Optimized.Inv (post (Optimized.exec tx w)).
Proof.
  intros HI Hwf. pose proof HI as (Hi & Hc & Hs & Hf). red in Hi.
  start_world w. cbn in Hi. subst st.
  destruct tx as [s rcv []]; wf_facts Hwf.
  all: pose proof max_bounds as Hmax.
  all: evm_go.
  all: try exact HI.
  all: unfold Optimized.Inv, Optimized.Coherent, Solvent, Idle in *.
  all: clear HI; revert Hc Hs Hf; evm_red; intros Hc [Hs1 Hs2] Hf.
  all: split; [reflexivity|]; split; [|split; [split|]].
  all: try assumption.
  all: try lia.
  all: try solve_coherent_o Hc.
  all: try (rewrite uint96_id by lia; lia).
  all: try match goal with
       | |- context [default Optimized.Listing_zero (?ls !! ?t)] =>
           pose proof (proj1 (Hc t))
       end.
  all: try match goal with
       | |- context [default 0 (?m !! ?a)] => pose proof (default_nonneg m a Hs1)
       end.
  all: unchecked_facts; solve_solvent Hs1.
Qed.
(** ** What every transaction preserves *)

Lemma baseline_idle_step tx (w : Baseline.World) :
  Idle w -> Idle (post (Baseline.exec tx w)).
Proof.
  unfold Idle. intros Hi. start_world w. cbn in Hi. subst st.
  destruct tx as [s rcv []]; evm_go; reflexivity.
Qed.

Lemma optimized_idle_step tx (w : Optimized.World) :
  Idle w -> Idle (post (Optimized.exec tx w)).
Proof.
  unfold Idle. intros Hi. start_world w. cbn in Hi. subst st.
  destruct tx as [s rcv []]; evm_go; reflexivity.
Qed.

Lemma baseline_inactive_step tx (w : Baseline.World) tokenId :
  Baseline.active w tokenId = false -> relists tokenId (tx_call tx) = false ->
  Baseline.active (post (Baseline.exec tx w)) tokenId = false.
Proof.
  intros Ha Hr. start_world w.
  destruct tx as [s rcv []]; cbn in Hr; try case_bool_decide; try done.
  all: revert Ha; evm_go; intros Ha; try exact Ha.
  all: key_cases tokenId; listing_simpl; try done.
Qed.

Lemma optimized_inactive_step tx (w : Optimized.World) tokenId :
  Optimized.active w tokenId = false -> relists tokenId (tx_call tx) = false ->
  Optimized.active (post (Optimized.exec tx w)) tokenId = false.
Proof.
  intros Ha Hr. start_world w.
  destruct tx as [s rcv []]; cbn in Hr; try case_bool_decide; try done.
  all: revert Ha; evm_go; intros Ha; try exact Ha.
  all: key_cases tokenId; listing_simpl; try done.
Qed.

Lemma baseline_owner_change tx (w : Baseline.World) tokenId :
  Baseline.Coherent w ->
  owner_of (post (Baseline.exec tx w)) tokenId ≠ owner_of w tokenId ->
  Baseline.active (post (Baseline.exec tx w)) tokenId = false.
Proof.
  intros Hc. start_world w. unfold Baseline.Coherent in Hc.
  destruct tx as [s rcv []].
  all: revert Hc; evm_go; intros Hc Hne; try done.
  all: revert Hne; key_cases tokenId; listing_simpl; try done.
  all: intros _.
  all: match goal with |- ?b = false => destruct b eqn:Hact; [|done] end.
  all: destruct (Hc _ Hact) as (? & ? & ?); done.
Qed.

Lemma optimized_owner_change tx (w : Optimized.World) tokenId :
  Optimized.Coherent w ->
  owner_of (post (Optimized.exec tx w)) tokenId ≠ owner_of w tokenId ->
  Optimized.active (post (Optimized.exec tx w)) tokenId = false.
Proof.
  intros Hc. start_world w. unfold Optimized.Coherent in Hc.
  destruct tx as [s rcv []].
  all: revert Hc; evm_go; intros Hc Hne; try done.
  all: revert Hne; key_cases tokenId; listing_simpl; try done.
  all: intros _.
  all: case_bool_decide as Hact; [|done].
  all: destruct (proj2 (Hc _) (bool_decide_eq_true_2 _ Hact)) as (? & ?); done.
Qed.

(** ** Reachable states satisfy the invariant *)

Section Runs.
Context {L : Type} (dispatch : Msg -> Call -> M L unit).

Lemma exec_all_preserves (P : World L -> Prop) (G : Tx -> Prop) :
  (forall tx w, P w -> G tx -> P (post (exec dispatch tx w))) ->
  forall txs w, P w -> Forall G txs -> P (exec_all dispatch txs w).
Proof.
  intros Hstep txs. induction txs as [|tx txs IH]; intros w Hw Hall; [done|].
  apply Forall_cons in Hall as [Htx Hall]. cbn. apply IH; [|done]. by apply Hstep.
Qed.

Lemma forallb_Forall {A} (f : A -> bool) l :
  forallb f l = true -> Forall (fun x => f x = true) l.
Proof.
  rewrite forallb_forall, Forall_forall. intros H x Hx. apply H.
  by apply list_elem_of_In.
Qed.
End Runs.

Lemma ether_0_01_bounds : 0 <= ether_0_01 <= uint96_max.
Proof. unfold ether_0_01, uint96_max. lia. Qed.

Lemma deployed_inv_b deployer : Baseline.Inv (deployed deployer).
Proof.
  pose proof ether_0_01_bounds.
  split; [reflexivity|]. split; [|split; [split|]].
  - intros tokenId. unfold Baseline.active, Baseline.getListing, Baseline.listing_of.
    cbn. rewrite lookup_empty. cbn. done.
  - apply map_Forall_empty.
  - unfold escrow_total. cbn. by rewrite sum_map_empty.
  - cbn. lia.
Qed.

Lemma deployed_inv_o deployer : Optimized.Inv (deployed deployer).
Proof.
  pose proof ether_0_01_bounds. pose proof max_bounds.
  split; [reflexivity|]. split; [|split; [split|]].
  - intros tokenId. unfold Optimized.active, Optimized.getListing, Optimized.listing_of.
    cbn. rewrite lookup_empty. cbn. split; [lia|]. intros Ha.
    apply bool_decide_eq_true_1 in Ha. lia.
  - apply map_Forall_empty.
  - unfold escrow_total. cbn. by rewrite sum_map_empty.
  - cbn. lia.
Qed.

Lemma baseline_reachable_inv w : Baseline.Reachable w -> Baseline.Inv w.
Proof.
  intros (deployer & txs & Hwf & ->).
  apply (exec_all_preserves Baseline.dispatch Baseline.Inv (fun tx => wf_tx tx = true)).
  - intros tx w HI Htx. by apply baseline_inv_step.
  - apply deployed_inv_b.
  - by apply forallb_Forall.
Qed.

Lemma optimized_reachable_inv w : Optimized.Reachable w -> Optimized.Inv w.
Proof.
  intros (deployer & txs & Hwf & ->).
  apply (exec_all_preserves Optimized.dispatch Optimized.Inv (fun tx => wf_tx tx = true)).
  - intros tx w HI Htx. by apply optimized_inv_step.
  - apply deployed_inv_o.
  - by apply forallb_Forall.
Qed.

(** ** C1: no double sale *)

Ltac in_sites H :=
  repeat (apply elem_of_cons in H as [->|H]); [..|by apply elem_of_nil in H].

Lemma baseline_buy_not_listed s rcv tokenId v (w : Baseline.World) :
  Idle w -> Baseline.active w tokenId = false ->
  status (Baseline.exec (mkTx s rcv (Call_buyNFT tokenId v)) w)
  = Failure (Error_string "NFT not listed").
Proof.
  unfold Idle. intros Hi Ha. start_world w. cbn in Hi. subst st.
  revert Ha. evm_go; intros Ha; congruence.
Qed.

Lemma optimized_buy_not_listed s rcv tokenId v (w : Optimized.World) :
  Idle w -> Optimized.active w tokenId = false ->
  status (Optimized.exec (mkTx s rcv (Call_buyNFT tokenId v)) w)
  = Failure (Error_string "NFT not listed").
Proof.
  unfold Idle. intros Hi Ha. start_world w. cbn in Hi. subst st.
  revert Ha. evm_go; intros Ha; done.
Qed.

Lemma baseline_guard s rcv c (w : Baseline.World) :
  _status w = true -> guarded c = true ->
  status (Baseline.exec (mkTx s rcv c) w) = Failure ReentrancyGuardReentrantCall.
Proof.
  intros Hi Hc. start_world w. cbn in Hi. subst st.
  destruct c; try discriminate; evm_go; reflexivity.
Qed.

Lemma optimized_guard s rcv c (w : Optimized.World) :
  _status w = true -> guarded c = true ->
  status (Optimized.exec (mkTx s rcv c) w) = Failure ReentrancyGuardReentrantCall.
Proof.
  intros Hi Hc. start_world w. cbn in Hi. subst st.
  destruct c; try discriminate; evm_go; reflexivity.
Qed.

Lemma baseline_buy_commits s rcv tokenId v (w : Baseline.World) :
  status (Baseline.exec (mkTx s rcv (Call_buyNFT tokenId v)) w) = Success ->
  Idle (post (Baseline.exec (mkTx s rcv (Call_buyNFT tokenId v)) w)) /\
  Baseline.active (post (Baseline.exec (mkTx s rcv (Call_buyNFT tokenId v)) w))
    tokenId = false /\
  forall w', w' ∈ call_sites (trace (Baseline.exec (mkTx s rcv (Call_buyNFT tokenId v)) w)) ->
    _status w' = true /\ Baseline.active w' tokenId = false.
Proof.
  start_world w. evm_go; intros Hs; try discriminate.
  all: unfold Idle; evm_red; rewrite ?default_lookup_insert; cbn.
  all: split; [done|]; split; [done|]; intros w' Hin; in_sites Hin.
  all: rewrite default_lookup_insert; done.
Qed.

Lemma optimized_buy_commits s rcv tokenId v (w : Optimized.World) :
  status (Optimized.exec (mkTx s rcv (Call_buyNFT tokenId v)) w) = Success ->
  Idle (post (Optimized.exec (mkTx s rcv (Call_buyNFT tokenId v)) w)) /\
  Optimized.active (post (Optimized.exec (mkTx s rcv (Call_buyNFT tokenId v)) w))
    tokenId = false /\
  forall w', w' ∈ call_sites (trace (Optimized.exec (mkTx s rcv (Call_buyNFT tokenId v)) w)) ->
    _status w' = true /\ Optimized.active w' tokenId = false.
Proof.
  start_world w. evm_go; intros Hs; try discriminate.
  all: unfold Idle; evm_red; rewrite ?default_lookup_delete; cbn.
  all: split; [done|]; split; [done|]; intros w' Hin; in_sites Hin.
  all: rewrite default_lookup_delete; done.
Qed.

Lemma baseline_stays_unlisted tokenId txs (w : Baseline.World) :
  Idle w -> Baseline.active w tokenId = false -> no_relisting tokenId txs ->
  Idle (Baseline.exec_all txs w) /\ 
  Baseline.active (Baseline.exec_all txs w) tokenId = false.
Proof.
  intros Hi Ha Hall.
  apply (exec_all_preserves Baseline.dispatch
           (fun w => Idle w /\ Baseline.active w tokenId = false)
           (fun tx => relists tokenId (tx_call tx) = false)); [|done|done].
  intros tx w' [? ?] ?. split.
  - by apply baseline_idle_step.
  - by apply baseline_inactive_step.
Qed.

Lemma optimized_stays_unlisted tokenId txs (w : Optimized.World) :
  Idle w -> Optimized.active w tokenId = false -> no_relisting tokenId txs ->
  Idle (Optimized.exec_all txs w) /\ 
  Optimized.active (Optimized.exec_all txs w) tokenId = false.
Proof.
  intros Hi Ha Hall.
  apply (exec_all_preserves Optimized.dispatch
           (fun w => Idle w /\ Optimized.active w tokenId = false)
           (fun tx => relists tokenId (tx_call tx) = false)); [|done|done].
  intros tx w' [? ?] ?. split.
  - by apply optimized_idle_step.
  - by apply optimized_inactive_step.
Qed.

(** C1 (as amended).  After a successful [buyNFT] on a token, every later
    [buyNFT] on it fails with "NFT not listed" until a [listNFT] on the token
    intervenes.  At the external call the purchase makes (the refund), the
    listing is already removed and the guard is set: a [buyNFT] entered from
    there is rejected with [ReentrancyGuardReentrantCall]. *)
Theorem no_double_sale :
  (forall (w : Baseline.World) buyer rcv tokenId v,
     let r := Baseline.exec (mkTx buyer rcv (Call_buyNFT tokenId v)) w in
     status r = Success ->
     (forall txs buyer' rcv' v', no_relisting tokenId txs ->
        status (Baseline.exec (mkTx buyer' rcv' (Call_buyNFT tokenId v'))
                  (Baseline.exec_all txs (post r)))
        = Failure (Error_string "NFT not listed")) /\
     (forall w', w' ∈ call_sites (trace r) ->
        Baseline.active w' tokenId = false /\
        forall buyer' rcv' tokenId' v',
          status (Baseline.exec (mkTx buyer' rcv' (Call_buyNFT tokenId' v')) w')
          = Failure ReentrancyGuardReentrantCall)) /\
  (forall (w : Optimized.World) buyer rcv tokenId v,
     let r := Optimized.exec (mkTx buyer rcv (Call_buyNFT tokenId v)) w in
     status r = Success ->
     (forall txs buyer' rcv' v', no_relisting tokenId txs ->
        status (Optimized.exec (mkTx buyer' rcv' (Call_buyNFT tokenId v'))
                  (Optimized.exec_all txs (post r)))
        = Failure (Error_string "NFT not listed")) /\
     (forall w', w' ∈ call_sites (trace r) ->
        Optimized.active w' tokenId = false /\
        forall buyer' rcv' tokenId' v',
          status (Optimized.exec (mkTx buyer' rcv' (Call_buyNFT tokenId' v')) w')
          = Failure ReentrancyGuardReentrantCall)).
Proof.
  split; intros w buyer rcv tokenId v r Hok.
  - destruct (baseline_buy_commits _ _ _ _ _ Hok) as (Hi & Ha & Hsites). split.
    + intros txs buyer' rcv' v' Hno.
      destruct (baseline_stays_unlisted tokenId txs _ Hi Ha Hno).
      by apply baseline_buy_not_listed.
    + intros w' Hin. destruct (Hsites w' Hin). split; [done|].
      intros. by apply baseline_guard.
  - destruct (optimized_buy_commits _ _ _ _ _ Hok) as (Hi & Ha & Hsites). split.
    + intros txs buyer' rcv' v' Hno.
      destruct (optimized_stays_unlisted tokenId txs _ Hi Ha Hno).
      by apply optimized_buy_not_listed.
    + intros w' Hin. destruct (Hsites w' Hin). split; [done|].
      intros. by apply optimized_guard.
Qed.

(** The run of the test suite: a second purchase of token 0 fails. *)
Lemma no_double_sale_witness :
  status (Baseline.exec buy_exact
            (Baseline.exec_all []
               (post (Baseline.exec buy_over
                        (Baseline.exec_all listed_txs (deployed operator))))))
  = Failure (Error_string "NFT not listed").
Proof.
  apply (proj1 (proj1 no_double_sale
          (Baseline.exec_all listed_txs (deployed operator))
          bob accept_all 0 150 ltac:(vm_compute; reflexivity))).
  constructor.
Defined.

(** C1 as stated fails: the re-entered [buyNFT] does not report
    "NFT not listed" but the guard's error. *)
Lemma reentrant_buy_hits_the_guard :
  let rb := Baseline.exec buy_over
              (Baseline.exec_all listed_txs (deployed operator)) in
  let ro := Optimized.exec buy_over
              (Optimized.exec_all listed_txs (deployed operator)) in
  (status rb = Success /\
   map (fun w' => status (Baseline.exec buy_exact w')) (call_sites (trace rb))
   = [Failure ReentrancyGuardReentrantCall]) /\
  (status ro = Success /\
   map (fun w' => status (Optimized.exec buy_exact w')) (call_sites (trace ro))
   = [Failure ReentrancyGuardReentrantCall]).
Proof. vm_compute. done. Qed.

(** ** C5: withdrawal *)

Ltac use_imps :=
  repeat match goal with
  | H : ?P -> _, H' : ?P |- _ => specialize (H H')
  end.

Ltac iff_solve :=
  split;
  [ intros ?; try discriminate; repeat split; try side;
    intros; side
  | intros; try reflexivity; exfalso;
    repeat match goal with H : _ /\ _ |- _ => destruct H end;
    use_imps; try side;
    repeat match goal with
    | H : ?a > ?b -> _ |- _ =>
        let H' := fresh in assert (H' : a > b) by lia; specialize (H H')
    end; side ].

Ltac trace_simpl :=
  cbn [map fst snd call_sites omap list_omap sent foldr decide decide_rel
       Purpose_eq_dec].

Lemma baseline_withdraw_nothing caller rcv (w : Baseline.World) :
  Idle w -> pending_of w caller = 0 ->
  status (Baseline.exec (withdraw_by caller rcv) w)
  = Failure (Error_string "No funds to withdraw") /\
  post (Baseline.exec (withdraw_by caller rcv) w) = w.
Proof.
  unfold Idle, withdraw_by. intros Hi. start_world w. cbn in Hi. subst st.
  evm_go; intros Hz; try lia. done.
Qed.

Lemma optimized_withdraw_nothing caller rcv (w : Optimized.World) :
  Idle w -> pending_of w caller = 0 ->
  status (Optimized.exec (withdraw_by caller rcv) w)
  = Failure (Error_string "No funds to withdraw") /\
  post (Optimized.exec (withdraw_by caller rcv) w) = w.
Proof.
  unfold Idle, withdraw_by. intros Hi. start_world w. cbn in Hi. subst st.
  evm_go; intros Hz; try lia. done.
Qed.

Lemma baseline_withdraw caller rcv (w : Baseline.World) :
  Idle w -> Solvent w ->
  let r := Baseline.exec (withdraw_by caller rcv) w in
  let amount := pending_of w caller in
  (status r = Success <-> amount > 0 /\ rcv caller amount = true) /\
  (status r = Success ->
     map fst (trace r) = withdraw_trace caller amount /\
     (forall w', w' ∈ call_sites (trace r) -> pending_of w' caller = 0) /\
     pending_of (post r) caller = 0).
Proof.
  unfold Idle, Solvent, withdraw_by. intros Hi [Hs1 Hs2]. start_world w.
  cbn in Hi. subst st. cbn zeta. revert Hs1 Hs2.
  evm_go; intros Hs1 Hs2.
  all: pose proof (sum_map_lookup_le pw caller Hs1).
  all: pose proof (default_nonneg pw caller Hs1).
  all: (split; [iff_solve|]); intros Hok; try discriminate.
  trace_simpl. split; [done|]. rewrite default_lookup_insert. split; [|done].
  intros w' Hin. apply list_elem_of_singleton in Hin as ->. cbn.
  apply default_lookup_insert.
Qed.

Lemma optimized_withdraw caller rcv (w : Optimized.World) :
  Idle w -> Solvent w ->
  let r := Optimized.exec (withdraw_by caller rcv) w in
  let amount := pending_of w caller in
  (status r = Success <-> amount > 0 /\ rcv caller amount = true) /\
  (status r = Success ->
     map fst (trace r) = withdraw_trace caller amount /\
     (forall w', w' ∈ call_sites (trace r) -> pending_of w' caller = 0) /\
     pending_of (post r) caller = 0).
Proof.
  unfold Idle, Solvent, withdraw_by. intros Hi [Hs1 Hs2]. start_world w.
  cbn in Hi. subst st. cbn zeta. revert Hs1 Hs2.
  evm_go; intros Hs1 Hs2.
  all: pose proof (sum_map_lookup_le pw caller Hs1).
  all: pose proof (default_nonneg pw caller Hs1).
  all: (split; [iff_solve|]); intros Hok; try discriminate.
  trace_simpl. split; [done|]. rewrite default_lookup_insert. split; [|done].
  intros w' Hin. apply list_elem_of_singleton in Hin as ->. cbn.
  apply default_lookup_insert.
Qed.

(** C5 (as amended).  In a reachable state [withdrawFunds] succeeds exactly
    when the caller's escrow balance is positive and the caller accepts the
    payout.  On success the balance is zeroed before the single outbound
    transfer, which carries the full prior balance.  With a zero balance the
    call fails with "No funds to withdraw", the balance stays zero and the
    call repeated fails the same way. *)
Theorem withdraw_spec :
  (forall (w : Baseline.World) caller rcv,
     Baseline.Reachable w ->
     let r := Baseline.exec (withdraw_by caller rcv) w in
     let amount := Baseline.getPendingWithdrawal w caller in
     (status r = Success <-> amount > 0 /\ rcv caller amount = true) /\
     (status r = Success ->
        map fst (trace r) = withdraw_trace caller amount /\
        (forall w', w' ∈ call_sites (trace r) ->
           Baseline.getPendingWithdrawal w' caller = 0) /\
        Baseline.getPendingWithdrawal (post r) caller = 0) /\
     (amount = 0 ->
        status r = Failure (Error_string "No funds to withdraw") /\
        Baseline.getPendingWithdrawal (post r) caller = 0 /\
        status (Baseline.exec (withdraw_by caller rcv) (post r)) = status r)) /\
  (forall (w : Optimized.World) caller rcv,
     Optimized.Reachable w ->
     let r := Optimized.exec (withdraw_by caller rcv) w in
     let amount := Optimized.getPendingWithdrawal w caller in
     (status r = Success <-> amount > 0 /\ rcv caller amount = true) /\
     (status r = Success ->
        map fst (trace r) = withdraw_trace caller amount /\
        (forall w', w' ∈ call_sites (trace r) ->
           Optimized.getPendingWithdrawal w' caller = 0) /\
        Optimized.getPendingWithdrawal (post r) caller = 0) /\
     (amount = 0 ->
        status r = Failure (Error_string "No funds to withdraw") /\
        Optimized.getPendingWithdrawal (post r) caller = 0 /\
        status (Optimized.exec (withdraw_by caller rcv) (post r)) = status r)).
Proof.
  split; intros w caller rcv Hr r amount.
  - apply baseline_reachable_inv in Hr as (Hi & _ & Hs & _).
    destruct (baseline_withdraw caller rcv w Hi Hs) as [Hiff Hok].
    split; [exact Hiff|]. split; [exact Hok|]. intros Hz.
    destruct (baseline_withdraw_nothing caller rcv w Hi Hz) as [Hf Hp].
    subst r. rewrite Hp. by rewrite Hf.
  - apply optimized_reachable_inv in Hr as (Hi & _ & Hs & _).
    destruct (optimized_withdraw caller rcv w Hi Hs) as [Hiff Hok].
    split; [exact Hiff|]. split; [exact Hok|]. intros Hz.
    destruct (optimized_withdraw_nothing caller rcv w Hi Hz) as [Hf Hp].
    subst r. rewrite Hp. by rewrite Hf.
Qed.

Lemma sold_reachable_b : Baseline.Reachable (Baseline.exec_all sold_txs (deployed operator)).
Proof. exists operator, sold_txs. split; [vm_compute|]; reflexivity. Qed.

(** The seller of the test run withdraws the proceeds. *)
Lemma withdraw_spec_witness :
  status (Baseline.exec (withdraw_by alice accept_all)
            (Baseline.exec_all sold_txs (deployed operator))) = Success.
Proof.
  apply (proj1 (proj1 withdraw_spec _ alice accept_all sold_reachable_b)).
  vm_compute. done.
Defined.

(** C5 as stated fails: a positive balance does not suffice when the
    caller refuses the payout. *)
Lemma withdraw_refused :
  let w := Baseline.exec_all sold_txs (deployed operator) in
  let w' := Optimized.exec_all sold_txs (deployed operator) in
  (Baseline.getPendingWithdrawal w alice = 100 /\
   status (Baseline.exec (withdraw_by alice reject_all) w)
   = Failure TransferReverted) /\
  (Optimized.getPendingWithdrawal w' alice = 100 /\
   status (Optimized.exec (withdraw_by alice reject_all) w')
   = Failure TransferReverted).
Proof. vm_compute. done. Qed.

(** ** C2: a failed call changes nothing *)

Lemma exec_failure_restores {L} (dispatch : Msg -> Call -> M L unit) tx w e :
  status (exec dispatch tx w) = Failure e -> post (exec dispatch tx w) = w.
Proof. unfold exec. by destruct (res _). Qed.

Lemma baseline_buy_transfer_fails buyer rcv tokenId v (w : Baseline.World) :
  let l := Baseline.getListing w tokenId in
  let r := Baseline.exec (mkTx buyer rcv (Call_buyNFT tokenId v)) w in
  Idle w -> Baseline.isActive l = true -> v >= Baseline.price l ->
  buyer = 0 \/ owner_of w tokenId ≠ Baseline.seller l ->
  (exists e, status r = Failure e) /\
  Wrote (Slot_listings tokenId) ∈ map fst (trace r).
Proof.
  unfold Idle. start_world w. cbn zeta. intros Hi. cbn in Hi. subst st.
  evm_go; intros Ha Hv Hbad; try discriminate; try lia; try (exfalso; destruct Hbad; side).
  all: split; [by eexists|]; trace_simpl.
  all: apply elem_of_cons; right; apply elem_of_cons; by left.
Qed.

Lemma optimized_buy_transfer_fails buyer rcv tokenId v (w : Optimized.World) :
  let l := Optimized.listing_of w tokenId in
  let r := Optimized.exec (mkTx buyer rcv (Call_buyNFT tokenId v)) w in
  Idle w -> Optimized.active w tokenId = true -> v >= Optimized.price l ->
  buyer = 0 \/ owner_of w tokenId ≠ Optimized.seller l ->
  (exists e, status r = Failure e) /\
  Wrote (Slot_listings tokenId) ∈ map fst (trace r).
Proof.
  unfold Idle. start_world w. cbn zeta. intros Hi. cbn in Hi. subst st.
  evm_go; intros Ha Hv Hbad; try discriminate; try lia; try (exfalso; destruct Hbad; side).
  all: split; [by eexists|]; trace_simpl.
  all: apply elem_of_cons; right; apply elem_of_cons; by left.
Qed.

(** C2.  A call that ends in an error leaves the whole state as it was.
    In particular a purchase whose token transfer fails (the buyer is the
    zero address, or the seller no longer owns the token) has already
    written the listing when it fails, and that write is undone with the
    rest. *)
Theorem failure_is_atomic :
  (forall tx (w : Baseline.World) e,
     status (Baseline.exec tx w) = Failure e -> post (Baseline.exec tx w) = w) /\
  (forall tx (w : Optimized.World) e,
     status (Optimized.exec tx w) = Failure e -> post (Optimized.exec tx w) = w) /\
  (forall (w : Baseline.World) buyer rcv tokenId v,
     let l := Baseline.getListing w tokenId in
     let r := Baseline.exec (mkTx buyer rcv (Call_buyNFT tokenId v)) w in
     Idle w -> Baseline.isActive l = true -> v >= Baseline.price l ->
     buyer = 0 \/ owner_of w tokenId ≠ Baseline.seller l ->
     (exists e, status r = Failure e) /\
     Wrote (Slot_listings tokenId) ∈ map fst (trace r) /\
     post r = w) /\
  (forall (w : Optimized.World) buyer rcv tokenId v,
     let l := Optimized.listing_of w tokenId in
     let r := Optimized.exec (mkTx buyer rcv (Call_buyNFT tokenId v)) w in
     Idle w -> Optimized.active w tokenId = true -> v >= Optimized.price l ->
     buyer = 0 \/ owner_of w tokenId ≠ Optimized.seller l ->
     (exists e, status r = Failure e) /\
     Wrote (Slot_listings tokenId) ∈ map fst (trace r) /\
     post r = w).
Proof.
  split; [|split; [|split]].
  - intros tx w e. apply exec_failure_restores.
  - intros tx w e. apply exec_failure_restores.
  - intros w buyer rcv tokenId v l r Hi Ha Hv Hbad.
    destruct (baseline_buy_transfer_fails buyer rcv tokenId v w Hi Ha Hv Hbad)
      as [[e He] Hw].
    split; [by exists e|]. split; [done|]. by apply (exec_failure_restores _ _ _ e).
  - intros w buyer rcv tokenId v l r Hi Ha Hv Hbad.
    destruct (optimized_buy_transfer_fails buyer rcv tokenId v w Hi Ha Hv Hbad)
      as [[e He] Hw].
    split; [by exists e|]. split; [done|]. by apply (exec_failure_restores _ _ _ e).
Qed.

(** A purchase of the stale listing fails in the transfer and leaves the
    state as it was. *)
Lemma failure_is_atomic_witness :
  post (Baseline.exec buy_exact stale_listing) = stale_listing.
Proof.
  apply (proj1 failure_is_atomic buy_exact stale_listing
           (ERC721IncorrectOwner alice 0 bob)).
  vm_compute. reflexivity.
Defined.

(** ** C4: the order of a purchase *)

Lemma baseline_buy_order buyer rcv tokenId v (w : Baseline.World) :
  let r := Baseline.exec (mkTx buyer rcv (Call_buyNFT tokenId v)) w in
  let l := Baseline.getListing w tokenId in
  status r = Success ->
  map fst (trace r)
  = buy_trace tokenId buyer (Baseline.seller l) (Baseline.price l) v /\
  (forall w', w' ∈ call_sites (trace r) ->
     Baseline.active w' tokenId = false /\
     owner_of w' tokenId = buyer /\
     pending_of w' (Baseline.seller l)
     = pending_of w (Baseline.seller l) + Baseline.price l /\
     events w' = events w ++ [Transfer (Baseline.seller l) buyer tokenId]).
Proof.
  start_world w. cbn zeta. evm_go; intros Hok; try discriminate.
  all: unfold buy_trace; trace_simpl.
  all: first [ rewrite (bool_decide_eq_true_2 (v > _)) by lia
             | rewrite (bool_decide_eq_false_2 (v > _)) by lia ].
  all: cbn [app].
  all: split; [repeat f_equal; lia|].
  all: intros w' Hin; in_sites Hin; cbn.
  rewrite !default_lookup_insert. repeat split; try done.
  repeat f_equal. lia.
Qed.

Lemma optimized_buy_order buyer rcv tokenId v (w : Optimized.World) :
  let r := Optimized.exec (mkTx buyer rcv (Call_buyNFT tokenId v)) w in
  let l := Optimized.listing_of w tokenId in
  is_uint256 v ->
  status r = Success ->
  map fst (trace r)
  = buy_trace tokenId buyer (Optimized.seller l) (Optimized.price l) v /\
  (forall w', w' ∈ call_sites (trace r) ->
     Optimized.active w' tokenId = false /\
     owner_of w' tokenId = buyer /\
     pending_of w' (Optimized.seller l)
     = unchecked_add (pending_of w (Optimized.seller l)) (Optimized.price l) /\
     events w' = events w ++ [Transfer (Optimized.seller l) buyer tokenId]).
Proof.
  start_world w. cbn zeta. intros [Hlo Hhi]. evm_go; intros Hok; try discriminate.
  all: unfold buy_trace; trace_simpl.
  all: repeat match goal with
       | H : context [unchecked_sub ?a ?b] |- _ =>
           rewrite (unchecked_sub_id a b) in H by lia
       end.
  all: rewrite ?unchecked_sub_id by lia.
  all: first [ rewrite (bool_decide_eq_true_2 (v > _)) by lia
             | rewrite (bool_decide_eq_false_2 (v > _)) by lia ].
  all: cbn [app].
  all: split; [repeat f_equal; lia|].
  all: intros w' Hin; in_sites Hin; cbn.
  rewrite !default_lookup_insert, default_lookup_delete. cbn.
  repeat split; try done.
  repeat f_equal. lia.
Qed.

(** C4.  A successful [buyNFT] writes the listing first, then transfers
    the token, then credits the seller's escrow; the refund of an
    overpayment is its only outbound transfer and comes after all of these,
    right before the [NFTSold] event.  When the refund is sent the listing
    is removed, the buyer owns the token, the escrow is credited and the
    sale is not yet logged. *)
Theorem buy_order :
  (forall (w : Baseline.World) buyer rcv tokenId v,
     let r := Baseline.exec (mkTx buyer rcv (Call_buyNFT tokenId v)) w in
     let l := Baseline.getListing w tokenId in
     status r = Success ->
     map fst (trace r)
     = buy_trace tokenId buyer (Baseline.seller l) (Baseline.price l) v /\
     (forall w', w' ∈ call_sites (trace r) ->
        Baseline.active w' tokenId = false /\
        owner_of w' tokenId = buyer /\
        Baseline.getPendingWithdrawal w' (Baseline.seller l)
        = Baseline.getPendingWithdrawal w (Baseline.seller l) + Baseline.price l /\
        events w' = events w ++ [Transfer (Baseline.seller l) buyer tokenId])) /\
  (forall (w : Optimized.World) buyer rcv tokenId v,
     let r := Optimized.exec (mkTx buyer rcv (Call_buyNFT tokenId v)) w in
     let l := Optimized.listing_of w tokenId in
     is_uint256 v ->
     status r = Success ->
     map fst (trace r)
     = buy_trace tokenId buyer (Optimized.seller l) (Optimized.price l) v /\
     (forall w', w' ∈ call_sites (trace r) ->
        Optimized.active w' tokenId = false /\
        owner_of w' tokenId = buyer /\
        Optimized.getPendingWithdrawal w' (Optimized.seller l)
        = unchecked_add (Optimized.getPendingWithdrawal w (Optimized.seller l))
            (Optimized.price l) /\
        events w' = events w ++ [Transfer (Optimized.seller l) buyer tokenId])).
Proof.
  split; intros.
  - by apply baseline_buy_order.
  - by apply optimized_buy_order.
Qed.

(** The overpaying purchase of the test run. *)
Lemma buy_order_witness :
  map fst (trace (Baseline.exec buy_over
                    (Baseline.exec_all listed_txs (deployed operator))))
  = buy_trace 0 bob alice 100 150.
Proof.
  refine (proj1 (proj1 buy_order
            (Baseline.exec_all listed_txs (deployed operator))
            bob accept_all 0 150 _)).
  vm_compute. reflexivity.
Defined.

(** ** C8: the listing fee *)

(** C8.  [setListingFee] succeeds exactly when the caller is the operator
    and the new fee is within the contract's bound ([uint256] in the
    baseline, [uint96] in the optimized contract).  It then replaces the fee
    and emits [ListingFeeUpdated]; listings, escrow, ownership and the
    balance are untouched.  Another caller is rejected with
    [OwnableUnauthorizedAccount], the operator with a fee above the bound
    with "Fee too high". *)
Theorem set_fee_spec :
  (forall (w : Baseline.World) caller rcv newFee,
     is_uint256 newFee ->
     let r := Baseline.exec (mkTx caller rcv (Call_setListingFee newFee)) w in
     (status r = Success <-> caller = _owner w /\ newFee <= uint256_max) /\
     (status r = Success ->
        listingFee (post r) = newFee /\
        listings (post r) = listings w /\
        pendingWithdrawals (post r) = pendingWithdrawals w /\
        _owners (post r) = _owners w /\
        balance (post r) = balance w /\
        events (post r) = events w ++ [ListingFeeUpdated newFee]) /\
     (caller ≠ _owner w ->
        status r = Failure (OwnableUnauthorizedAccount caller))) /\
  (forall (w : Optimized.World) caller rcv newFee,
     is_uint256 newFee ->
     let r := Optimized.exec (mkTx caller rcv (Call_setListingFee newFee)) w in
     (status r = Success <-> caller = _owner w /\ newFee <= uint96_max) /\
     (status r = Success ->
        listingFee (post r) = newFee /\
        listings (post r) = listings w /\
        pendingWithdrawals (post r) = pendingWithdrawals w /\
        _owners (post r) = _owners w /\
        balance (post r) = balance w /\
        events (post r) = events w ++ [ListingFeeUpdated newFee]) /\
     (caller ≠ _owner w ->
        status r = Failure (OwnableUnauthorizedAccount caller)) /\
     (caller = _owner w -> newFee > uint96_max ->
        status r = Failure (Error_string "Fee too high"))).
Proof.
  split; intros w caller rcv newFee [Hlo Hhi]; start_world w; cbn zeta.
  all: evm_go.
  all: try rewrite uint96_id by lia.
  all: pose proof max_bounds.
  all: split; [iff_solve|].
  all: repeat split; intros; try discriminate; try done; try (exfalso; side).
  all: try (f_equal; lia).
Qed.

(** The operator of the test run doubles the fee. *)
Lemma set_fee_spec_witness :
  listingFee (post (Baseline.exec (set_fee_by operator (2 * ether_0_01))
                      (deployed operator))) = 2 * ether_0_01.
Proof.
  refine (proj1 (proj1 (proj2 (proj1 set_fee_spec (deployed operator)
            operator accept_all (2 * ether_0_01) _)) _)).
  - unfold is_uint256, ether_0_01, uint256_max. lia.
  - vm_compute. reflexivity.
Defined.

(** ** C10: self-purchase *)

Ltac use_arith_imps :=
  repeat match goal with
  | H : ?a > ?b -> _ |- _ =>
      let H' := fresh in assert (H' : a > b) by lia; specialize (H H')
  end.

Lemma baseline_self_purchase rcv tokenId v (w : Baseline.World) :
  Baseline.Inv w ->
  let l := Baseline.getListing w tokenId in
  let r := Baseline.exec (mkTx (Baseline.seller l) rcv (Call_buyNFT tokenId v)) w in
  Baseline.isActive l = true -> v >= Baseline.price l ->
  balance w + v <= uint256_max ->
  (v > Baseline.price l -> rcv (Baseline.seller l) (v - Baseline.price l) = true) ->
  status r = Success /\
  owner_of (post r) tokenId = Baseline.seller l /\
  Baseline.active (post r) tokenId = false /\
  pending_of (post r) (Baseline.seller l)
  = pending_of w (Baseline.seller l) + Baseline.price l /\
  sent Refund (trace r) = v - Baseline.price l.
Proof.
  intros (Hi & Hc & [Hs1 Hs2] & Hf). red in Hi. start_world w. cbn in Hi. subst st.
  cbn zeta. unfold Baseline.Coherent in Hc. revert Hc Hs1 Hs2.
  evm_go; intros Hc Hs1 Hs2 Ha Hv Hbal Hrcv; try discriminate.
  all: match goal with
       | H : Baseline.isActive _ = true |- _ =>
           destruct (Hc _ H) as (Ho & Hne & Hp)
       end.
  all: match goal with
       | |- context [default 0 (?m !! ?a)] =>
           pose proof (sum_map_lookup_le m a Hs1);
           pose proof (default_nonneg m a Hs1)
       | _ => idtac
       end.
  all: try (exfalso; use_imps; use_arith_imps; side).
  all: trace_simpl; rewrite ?default_lookup_insert; cbn.
  all: repeat split; try done; repeat case_decide; try done; lia.
Qed.

Lemma optimized_self_purchase rcv tokenId v (w : Optimized.World) :
  Optimized.Inv w ->
  let l := Optimized.listing_of w tokenId in
  let r := Optimized.exec (mkTx (Optimized.seller l) rcv (Call_buyNFT tokenId v)) w in
  Optimized.active w tokenId = true -> is_uint256 v -> v >= Optimized.price l ->
  balance w + v <= uint256_max ->
  (v > Optimized.price l -> rcv (Optimized.seller l) (v - Optimized.price l) = true) ->
  status r = Success /\
  owner_of (post r) tokenId = Optimized.seller l /\
  Optimized.active (post r) tokenId = false /\
  pending_of (post r) (Optimized.seller l)
  = pending_of w (Optimized.seller l) + Optimized.price l /\
  sent Refund (trace r) = v - Optimized.price l.
Proof.
  intros (Hi & Hc & [Hs1 Hs2] & Hf). red in Hi. start_world w. cbn in Hi. subst st.
  cbn zeta. unfold Optimized.Coherent in Hc. revert Hc Hs1 Hs2.
  evm_go; intros Hc Hs1 Hs2 Ha [Hlo Hhi] Hv Hbal Hrcv; try discriminate.
  all: destruct (Hc tokenId) as (Hpb & Hco);
       destruct (Hco ltac:(by apply bool_decide_eq_true_2)) as (Ho & Hne).
  all: match goal with
       | |- context [default 0 (?m !! ?a)] =>
           pose proof (sum_map_lookup_le m a Hs1);
           pose proof (default_nonneg m a Hs1)
       | _ => idtac
       end.
  all: repeat match goal with
       | H : context [unchecked_sub ?a ?b] |- _ =>
           rewrite (unchecked_sub_id a b) in H by lia
       end.
  all: try (exfalso; use_imps; use_arith_imps; side).
  all: rewrite ?unchecked_sub_id by lia.
  all: rewrite ?unchecked_add_id by lia.
  all: trace_simpl; rewrite ?default_lookup_insert, ?default_lookup_delete; cbn.
  all: repeat split; try done; repeat case_decide; try done; try lia.
Qed.

(** C10 (as amended).  In a reachable state the seller of an active
    listing can buy the token herself, with any payment that covers the
    price, provided she accepts the refund of the excess: the token stays
    hers, the listing is removed, her own escrow balance grows by the price
    and the excess is sent back.  (The balance bound says that the ether in
    existence fits in [uint256].) *)
Theorem self_purchase :
  (forall (w : Baseline.World) rcv tokenId v,
     let l := Baseline.getListing w tokenId in
     let r := Baseline.exec
                (mkTx (Baseline.seller l) rcv (Call_buyNFT tokenId v)) w in
     Baseline.Reachable w -> Baseline.isActive l = true ->
     v >= Baseline.price l -> balance w + v <= uint256_max ->
     (v > Baseline.price l ->
        rcv (Baseline.seller l) (v - Baseline.price l) = true) ->
     status r = Success /\
     owner_of (post r) tokenId = Baseline.seller l /\
     Baseline.active (post r) tokenId = false /\
     Baseline.getPendingWithdrawal (post r) (Baseline.seller l)
     = Baseline.getPendingWithdrawal w (Baseline.seller l) + Baseline.price l /\
     sent Refund (trace r) = v - Baseline.price l) /\
  (forall (w : Optimized.World) rcv tokenId v,
     let l := Optimized.listing_of w tokenId in
     let r := Optimized.exec
                (mkTx (Optimized.seller l) rcv (Call_buyNFT tokenId v)) w in
     Optimized.Reachable w -> Optimized.active w tokenId = true ->
     is_uint256 v -> v >= Optimized.price l -> balance w + v <= uint256_max ->
     (v > Optimized.price l ->
        rcv (Optimized.seller l) (v - Optimized.price l) = true) ->
     status r = Success /\
     owner_of (post r) tokenId = Optimized.seller l /\
     Optimized.active (post r) tokenId = false /\
     Optimized.getPendingWithdrawal (post r) (Optimized.seller l)
     = Optimized.getPendingWithdrawal w (Optimized.seller l) + Optimized.price l /\
     sent Refund (trace r) = v - Optimized.price l).
Proof.
  split.
  - intros w rcv tokenId v l r Hr. apply baseline_reachable_inv in Hr.
    by apply baseline_self_purchase.
  - intros w rcv tokenId v l r Hr. apply optimized_reachable_inv in Hr.
    by apply optimized_self_purchase.
Qed.

Lemma listed_reachable_b :
  Baseline.Reachable (Baseline.exec_all listed_txs (deployed operator)).
Proof. exists operator, listed_txs. split; [vm_compute|]; reflexivity. Qed.

(** The seller of the test run buys token 0 back and overpays by 50. *)
Lemma self_purchase_witness :
  status (Baseline.exec (self_buy 150 accept_all)
            (Baseline.exec_all listed_txs (deployed operator))) = Success.
Proof.
  refine (proj1 (proj1 self_purchase
            (Baseline.exec_all listed_txs (deployed operator))
            accept_all 0 150 listed_reachable_b _ _ _ _)).
  - vm_compute. reflexivity.
  - vm_compute. discriminate.
  - vm_compute. discriminate.
  - intros _. reflexivity.
Defined.

(** C10 as stated fails: the self-purchase with an overpayment reverts when
    the seller refuses the refund. *)
Lemma self_purchase_refund_refused :
  let w := Baseline.exec_all listed_txs (deployed operator) in
  let w' := Optimized.exec_all listed_txs (deployed operator) in
  (Baseline.active w 0 = true /\
   Baseline.seller (Baseline.getListing w 0) = alice /\
   150 >= Baseline.price (Baseline.getListing w 0) /\
   status (Baseline.exec (self_buy 150 reject_all) w)
   = Failure TransferReverted) /\
  (Optimized.active w' 0 = true /\
   Optimized.seller (Optimized.listing_of w' 0) = alice /\
   150 >= Optimized.price (Optimized.listing_of w' 0) /\
   status (Optimized.exec (self_buy 150 reject_all) w')
   = Failure TransferReverted).
Proof. vm_compute. repeat split; discriminate. Qed.

(** ** C7: listing *)

Lemma baseline_list seller rcv tokenId price v (w : Baseline.World) :
  Baseline.Inv w -> seller ≠ 0 ->
  let r := Baseline.exec (mkTx seller rcv (Call_listNFT tokenId price v)) w in
  (status r = Success <->
     owner_of w tokenId = seller /\ price > 0 /\ v >= listingFee w /\
     Baseline.active w tokenId = false /\
     rcv (_owner w) (listingFee w) = true /\
     (v > listingFee w -> rcv seller (v - listingFee w) = true)) /\
  (owner_of w tokenId = 0 -> status r = Failure (ERC721NonexistentToken tokenId)) /\
  (owner_of w tokenId ≠ 0 -> owner_of w tokenId ≠ seller ->
     status r = Failure (Error_string "Not the owner")) /\
  (owner_of w tokenId = seller -> price <= 0 ->
     status r = Failure (Error_string "Price must be greater than 0")) /\
  (owner_of w tokenId = seller -> price > 0 -> v < listingFee w ->
     status r = Failure (Error_string "Insufficient listing fee")) /\
  (owner_of w tokenId = seller -> price > 0 -> v >= listingFee w ->
     Baseline.active w tokenId = true ->
     status r = Failure (Error_string "Already listed")).
Proof.
  intros (Hi & Hc & [Hs1 Hs2] & Hf) Hne. red in Hi. start_world w.
  cbn in Hi. subst st. cbn zeta. cbn in Hf. clear Hc.
  pose proof (sum_map_nonneg pw Hs1). clear Hs1.
  unfold escrow_total in Hs2. cbn in Hs2.
  evm_go.
  all: (split; [iff_solve|]).
  all: repeat split; intros; try reflexivity; exfalso; side.
Qed.

Lemma optimized_list seller rcv tokenId price v (w : Optimized.World) :
  Optimized.Inv w -> seller ≠ 0 -> is_uint256 v ->
  let r := Optimized.exec (mkTx seller rcv (Call_listNFT tokenId price v)) w in
  (status r = Success <->
     owner_of w tokenId = seller /\ price > 0 /\ price <= uint96_max /\
     v >= listingFee w /\ Optimized.active w tokenId = false /\
     rcv (_owner w) (listingFee w) = true /\
     (v > listingFee w -> rcv seller (v - listingFee w) = true)) /\
  (price <= 0 -> status r = Failure (Error_string "Price must be greater than 0")) /\
  (price > uint96_max -> status r = Failure (Error_string "Price too high")) /\
  (0 < price <= uint96_max -> v < listingFee w ->
     status r = Failure (Error_string "Insufficient listing fee")) /\
  (0 < price <= uint96_max -> v >= listingFee w -> owner_of w tokenId = 0 ->
     status r = Failure (ERC721NonexistentToken tokenId)) /\
  (0 < price <= uint96_max -> v >= listingFee w -> owner_of w tokenId ≠ 0 ->
     owner_of w tokenId ≠ seller ->
     status r = Failure (Error_string "Not the owner")) /\
  (0 < price <= uint96_max -> v >= listingFee w -> owner_of w tokenId = seller ->
     Optimized.active w tokenId = true ->
     status r = Failure (Error_string "Already listed")).
Proof.
  intros (Hi & Hc & [Hs1 Hs2] & Hf) Hne [Hlo Hhi]. red in Hi. start_world w.
  cbn in Hi. subst st. cbn zeta. cbn in Hf.
  pose proof (sum_map_nonneg pw Hs1). clear Hs1.
  unfold escrow_total in Hs2. cbn in Hs2.
  pose proof max_bounds.
  unfold Optimized.Coherent in Hc. revert Hc. 
  evm_go; intros Hc.
  all: pose proof (proj1 (Hc tokenId)) as Hpb; clear Hc.
  all: repeat match goal with
       | H : context [unchecked_sub ?a ?b] |- _ =>
           rewrite (unchecked_sub_id a b) in H by lia
       end.
  all: rewrite ?(bool_decide_eq_true_2 (_ > 0)) by lia.
  all: rewrite ?(bool_decide_eq_false_2 (_ > 0)) by lia.
  all: (split; [iff_solve|]).
  all: repeat split; intros; try reflexivity; exfalso; side.
Qed.

(** C7 (as amended).  In a reachable state [listNFT] succeeds exactly when
    the caller owns the token, the price is positive (and fits [uint96] in
    the optimized contract), the value sent covers the fee, the token is not
    listed, the operator accepts the fee and the caller accepts the refund
    of any excess.  A violated precondition is reported by its own error,
    in the order in which the contract checks them; a token that does not
    exist is reported by the registry as [ERC721NonexistentToken]. *)
Theorem list_spec :
  (forall (w : Baseline.World) seller rcv tokenId price v,
     Baseline.Reachable w -> seller ≠ 0 ->
     let r := Baseline.exec (mkTx seller rcv (Call_listNFT tokenId price v)) w in
     (status r = Success <->
        owner_of w tokenId = seller /\ price > 0 /\ v >= listingFee w /\
        Baseline.active w tokenId = false /\
        rcv (_owner w) (listingFee w) = true /\
        (v > listingFee w -> rcv seller (v - listingFee w) = true)) /\
     (owner_of w tokenId = 0 ->
        status r = Failure (ERC721NonexistentToken tokenId)) /\
     (owner_of w tokenId ≠ 0 -> owner_of w tokenId ≠ seller ->
        status r = Failure (Error_string "Not the owner")) /\
     (owner_of w tokenId = seller -> price <= 0 ->
        status r = Failure (Error_string "Price must be greater than 0")) /\
     (owner_of w tokenId = seller -> price > 0 -> v < listingFee w ->
        status r = Failure (Error_string "Insufficient listing fee")) /\
     (owner_of w tokenId = seller -> price > 0 -> v >= listingFee w ->
        Baseline.active w tokenId = true ->
        status r = Failure (Error_string "Already listed"))) /\
  (forall (w : Optimized.World) seller rcv tokenId price v,
     Optimized.Reachable w -> seller ≠ 0 -> is_uint256 v ->
     let r := Optimized.exec (mkTx seller rcv (Call_listNFT tokenId price v)) w in
     (status r = Success <->
        owner_of w tokenId = seller /\ price > 0 /\ price <= uint96_max /\
        v >= listingFee w /\ Optimized.active w tokenId = false /\
        rcv (_owner w) (listingFee w) = true /\
        (v > listingFee w -> rcv seller (v - listingFee w) = true)) /\
     (price <= 0 ->
        status r = Failure (Error_string "Price must be greater than 0")) /\
     (price > uint96_max -> status r = Failure (Error_string "Price too high")) /\
     (0 < price <= uint96_max -> v < listingFee w ->
        status r = Failure (Error_string "Insufficient listing fee")) /\
     (0 < price <= uint96_max -> v >= listingFee w -> owner_of w tokenId = 0 ->
        status r = Failure (ERC721NonexistentToken tokenId)) /\
     (0 < price <= uint96_max -> v >= listingFee w -> owner_of w tokenId ≠ 0 ->
        owner_of w tokenId ≠ seller ->
        status r = Failure (Error_string "Not the owner")) /\
     (0 < price <= uint96_max -> v >= listingFee w ->
        owner_of w tokenId = seller -> Optimized.active w tokenId = true ->
        status r = Failure (Error_string "Already listed"))).
Proof.
  split.
  - intros w seller rcv tokenId price v Hr Hne.
    apply baseline_reachable_inv in Hr. by apply baseline_list.
  - intros w seller rcv tokenId price v Hr Hne Hv.
    apply optimized_reachable_inv in Hr. by apply optimized_list.
Qed.

Lemma minted_reachable_b :
  Baseline.Reachable (Baseline.exec_all minted_txs (deployed operator)).
Proof. exists operator, minted_txs. split; [vm_compute|]; reflexivity. Qed.

(** The listing of the test run. *)
Lemma list_spec_witness :
  status (Baseline.exec (mkTx alice accept_all (Call_listNFT 0 100 ether_0_01))
            (Baseline.exec_all minted_txs (deployed operator))) = Success.
Proof.
  refine (proj2 (proj1 (proj1 list_spec
            (Baseline.exec_all minted_txs (deployed operator))
            alice accept_all 0 100 ether_0_01 minted_reachable_b _)) _).
  - discriminate.
  - vm_compute. repeat split; intros; discriminate.
Defined.

(** C7 as stated fails.  The four preconditions hold and [listNFT] still
    fails when the operator refuses the fee; and listing a token that was
    never minted is not reported as "Not the owner". *)
Lemma list_needs_more :
  let w := Baseline.exec_all minted_txs (deployed operator) in
  let w' := Optimized.exec_all minted_txs (deployed operator) in
  (owner_of w 0 = alice /\ 100 > 0 /\ ether_0_01 >= listingFee w /\
   Baseline.active w 0 = false /\
   status (Baseline.exec
             (mkTx alice operator_refuses (Call_listNFT 0 100 ether_0_01)) w)
   = Failure TransferReverted /\
   status (Baseline.exec
             (mkTx alice accept_all (Call_listNFT 7 100 ether_0_01)) w)
   = Failure (ERC721NonexistentToken 7)) /\
  (owner_of w' 0 = alice /\ 100 > 0 /\ 100 <= uint96_max /\
   ether_0_01 >= listingFee w' /\ Optimized.active w' 0 = false /\
   status (Optimized.exec
             (mkTx alice operator_refuses (Call_listNFT 0 100 ether_0_01)) w')
   = Failure TransferReverted /\
   status (Optimized.exec
             (mkTx alice accept_all (Call_listNFT 7 100 ether_0_01)) w')
   = Failure (ERC721NonexistentToken 7)).
Proof. vm_compute. repeat split; discriminate. Qed.

(** ** C6: the transfer hook *)

(** C6.  In a reachable state, whenever a transaction changes the owner of
    a token, the token is not listed afterwards: [getListing] reports it
    inactive and a [buyNFT] on it fails with "NFT not listed".  Hence in
    every reachable state the seller of an active listing is the owner of
    the token. *)
Theorem transfer_hook :
  (forall (w : Baseline.World) tx tokenId,
     Baseline.Reachable w ->
     let w' := post (Baseline.exec tx w) in
     owner_of w' tokenId ≠ owner_of w tokenId ->
     Baseline.isActive (Baseline.getListing w' tokenId) = false /\
     forall buyer rcv v,
       status (Baseline.exec (mkTx buyer rcv (Call_buyNFT tokenId v)) w')
       = Failure (Error_string "NFT not listed")) /\
  (forall (w : Baseline.World) tokenId,
     Baseline.Reachable w ->
     Baseline.isActive (Baseline.getListing w tokenId) = true ->
     Baseline.seller (Baseline.getListing w tokenId) = owner_of w tokenId /\
     owner_of w tokenId ≠ 0) /\
  (forall (w : Optimized.World) tx tokenId,
     Optimized.Reachable w ->
     let w' := post (Optimized.exec tx w) in
     owner_of w' tokenId ≠ owner_of w tokenId ->
     snd (Optimized.getListing w' tokenId) = false /\
     forall buyer rcv v,
       status (Optimized.exec (mkTx buyer rcv (Call_buyNFT tokenId v)) w')
       = Failure (Error_string "NFT not listed")) /\
  (forall (w : Optimized.World) tokenId,
     Optimized.Reachable w ->
     snd (Optimized.getListing w tokenId) = true ->
     snd (fst (Optimized.getListing w tokenId)) = owner_of w tokenId /\
     owner_of w tokenId ≠ 0).
Proof.
  split; [|split; [|split]].
  - intros w tx tokenId Hr w' Hch.
    apply baseline_reachable_inv in Hr as (Hi & Hc & _).
    pose proof (baseline_owner_change tx w tokenId Hc Hch) as Ha.
    split; [exact Ha|]. intros.
    apply baseline_buy_not_listed; [by apply baseline_idle_step|exact Ha].
  - intros w tokenId Hr Ha.
    apply baseline_reachable_inv in Hr as (_ & Hc & _).
    destruct (Hc tokenId Ha) as (? & ? & ?). done.
  - intros w tx tokenId Hr w' Hch.
    apply optimized_reachable_inv in Hr as (Hi & Hc & _).
    pose proof (optimized_owner_change tx w tokenId Hc Hch) as Ha.
    split; [exact Ha|]. intros.
    apply optimized_buy_not_listed; [by apply optimized_idle_step|exact Ha].
  - intros w tokenId Hr Ha.
    apply optimized_reachable_inv in Hr as (_ & Hc & _).
    destruct (proj2 (Hc tokenId) Ha) as (? & ?). done.
Qed.

(** The listed token of the test run is transferred directly: the listing
    is gone. *)
Lemma transfer_hook_witness :
  Baseline.isActive
    (Baseline.getListing
       (post (Baseline.exec give_away
                (Baseline.exec_all listed_txs (deployed operator)))) 0) = false.
Proof.
  refine (proj1 (proj1 transfer_hook
            (Baseline.exec_all listed_txs (deployed operator))
            give_away 0 listed_reachable_b _)).
  vm_compute. discriminate.
Defined.

(** ** C3: conservation *)

Lemma sold_total_app evs evs' :
  sold_total (evs ++ evs') = sold_total evs + sold_total evs'.
Proof.
  unfold sold_total. induction evs as [|e evs IH]; cbn; [lia|].
  destruct e; lia.
Qed.

(** What one committed transaction moves. *)
Lemma baseline_conservation_step tx (w : Baseline.World) :
  let r := Baseline.exec tx w in
  status r = Success ->
  escrow_total (post r) + sent Payout (trace r) + sent ListingFee (trace r)
  = escrow_total w
    + (if is_buy (tx_call tx) then kept tx r else 0)
    + (if is_list (tx_call tx) then kept tx r else 0) /\
  sold_total (events (post r))
  = sold_total (events w) + (if is_buy (tx_call tx) then kept tx r else 0) /\
  balance (post r) - escrow_total (post r) = balance w - escrow_total w.
Proof.
  start_world w. cbn zeta. destruct tx as [s rcv []].
  all: evm_go; intros Hok; try discriminate.
  all: unfold kept; cbn [is_buy is_list tx_call call_value trace]; trace_simpl.
  all: rewrite ?sold_total_app; cbn [sold_total foldr].
  all: rewrite ?sum_map_insert.
  all: repeat case_decide; try done.
  all: repeat split; try lia.
Qed.

Lemma total_over_cons {L} (f : Tx -> Receipt L -> Z) tx r rs :
  total_over f ((tx, r) :: rs)
  = (if committed r then f tx r else 0) + total_over f rs.
Proof. unfold total_over. cbn. destruct (committed r); lia. Qed.

Lemma baseline_conservation_from txs (w : Baseline.World) :
  let w' := Baseline.exec_all txs w in
  let rs := Baseline.receipts txs w in
  escrow_total w' + withdrawn rs + fees_collected rs
  = escrow_total w + buy_proceeds rs + fees_paid rs /\
  sold_total (events w') = sold_total (events w) + buy_proceeds rs /\
  balance w' - escrow_total w' = balance w - escrow_total w.
Proof.
  cbn zeta. revert w. induction txs as [|tx txs IH]; intros w.
  - cbn. lia.
  - specialize (IH (post (Baseline.exec tx w))).
    unfold Baseline.exec_all, Baseline.receipts in *. cbn [exec_all receipts].
    fold (Baseline.exec tx w).
    unfold withdrawn, fees_collected, buy_proceeds, fees_paid in *.
    rewrite !total_over_cons.
    destruct (status (Baseline.exec tx w)) as [|e] eqn:Hst.
    + assert (committed (Baseline.exec tx w) = true) as ->
        by (unfold committed; rewrite Hst; done).
      pose proof (baseline_conservation_step tx w Hst). lia.
    + assert (committed (Baseline.exec tx w) = false) as ->
        by (unfold committed; rewrite Hst; done).
      assert (post (Baseline.exec tx w) = w) as Hp
        by (by apply (exec_failure_restores _ _ _ e)).
      rewrite Hp in *. lia.
Qed.

(** C3.  Over any run of transactions from the deployed contract, the
    escrow total plus what withdrawals paid out plus the fees handed to the
    operator equals what purchases brought in plus what listings paid in,
    refunds excluded on both sides.  What purchases brought in is the sum of
    the sale prices, and the contract holds exactly the escrow total: no
    refund ever enters it. *)
Theorem conservation :
  forall deployer txs,
    let w := Baseline.exec_all txs (deployed deployer) in
    let rs := Baseline.receipts txs (deployed deployer) in
    escrow_total w + withdrawn rs + fees_collected rs
    = buy_proceeds rs + fees_paid rs /\
    buy_proceeds rs = sold_total (events w) /\
    balance w = escrow_total w.
Proof.
  intros deployer txs w rs.
  pose proof (baseline_conservation_from txs (deployed deployer)) as H.
  cbn zeta in H. fold w rs in H.
  assert (escrow_total (deployed (L:=Baseline.Listing) deployer) = 0) as Hz
    by (unfold escrow_total; cbn; apply sum_map_empty).
  rewrite Hz in H. cbn [events balance deployed sold_total foldr] in H. lia.
Qed.

(** ** C9: the two contracts side by side *)

Ltac case_known c :=
  lazymatch c with
  | ?a && ?b => case_known a
  | ?a || ?b => case_known a
  | negb ?a => case_known a
  | bool_decide ?P =>
      first [ rewrite (bool_decide_eq_true_2 P) by side
            | rewrite (bool_decide_eq_false_2 P) by side
            | destruct (bool_decide_reflect P) ]
  | _ => first [ match goal with H : c = _ |- _ => rewrite H end
               | destruct c eqn:? ]
  end.

Ltac sim_split :=
  match goal with
  | |- context [(if ?c then _ else _) _] => case_known c
  | |- context [if ?c then _ else mkRun _ (Reverted TransferReverted)] =>
      case_known c
  end.

Ltac sim_rewrite :=
  repeat match goal with
  | H : Optimized.price _ = _ |- _ => rewrite H
  | H : Optimized.seller _ = _ |- _ => rewrite H
  | |- context [unchecked_sub ?a ?b] => rewrite (unchecked_sub_id a b) by lia
  | |- context [unchecked_add ?a ?b] => rewrite (unchecked_add_id a b) by lia
  | |- context [uint96 ?a] => rewrite (uint96_id a) by lia
  end.

Ltac sim_steps :=
  repeat (evm_head; evm_data;
          rewrite ?default_lookup_insert, ?default_lookup_delete;
          cbn [andb orb negb Baseline.price Baseline.seller Baseline.isActive
               Optimized.price Optimized.seller];
          sim_rewrite;
          try sim_split).

Ltac sim_go :=
  evm_begin; sim_steps; lazy beta iota zeta delta [wp res log];
  evm_begin; sim_steps; evm_end.

Ltac sim_token t :=
  match goal with
  | Hl : forall k : Z, if Baseline.isActive (default _ (?ls !! k)) then _ else _,
    Hc : forall k : Z, Baseline.isActive _ = true -> _,
    Hs1 : map_Forall _ ?pw |- _ =>
      let Hact := fresh "Hact" in
      pose proof (Hl t) as Hlt;
      destruct (Baseline.isActive (default Baseline.Listing_zero (ls !! t)))
        eqn:Hact;
      [ destruct Hlt as [Hlp Hlsl]; destruct (Hc t Hact) as (Hco & Hcn & Hcp);
        pose proof (default_nonneg pw
          (Baseline.seller (default Baseline.Listing_zero (ls !! t))) Hs1);
        pose proof (sum_map_lookup_le pw
          (Baseline.seller (default Baseline.Listing_zero (ls !! t))) Hs1)
      | ]
  end.

Lemma sim_step tx (wb : Baseline.World) (wo : Optimized.World) :
  Sim wb wo -> Baseline.Inv wb ->
  wf_tx tx = true -> fits_uint96 (tx_call tx) = true ->
  balance wb + call_value (tx_call tx) <= uint256_max ->
  0 <= nextTokenIdCounter wb < uint256_max ->
  Sim (post (Baseline.exec tx wb)) (post (Optimized.exec tx wo)) /\
  same_outcome (tx_call tx)
    (status (Baseline.exec tx wb)) (status (Optimized.exec tx wo)).
Proof.
  intros HS (Hi & Hc & Hs & Hf) Hwf Hfit Hbal Hctr. red in Hi.
  pose proof max_bounds as Hmax.
  start_world wb. destruct wo as [ow' ta' oa' o' st' ls' pw' ctr' fee' bal' evs'].
  pose proof HS as (? & ? & ? & ? & ? & ? & ? & ? & ? & ? & Hl).
  cbn in * |-. subst.
  unfold Baseline.Coherent, Solvent in *.
  match goal with |- ?G => set (goal := G) end.
  revert Hc Hs Hl; evm_red; intros Hc [Hs1 Hs2] Hl. subst goal.
  destruct tx as [s rcv [uri|tokenId p v|tokenId v|tokenId| |newFee
                         |from to tokenId|to tokenId|op approved|newOwner|]];
    wf_facts Hwf;
    cbn [fits_uint96 tx_call] in Hfit; try apply bool_decide_eq_true_1 in Hfit;
    cbn [tx_call call_value] in Hbal.
  1: sim_token ctr'.
  all: try sim_token tokenId.
  all: sim_go.
  all: (split;
    [ first [ exact HS
            | unfold Sim; evm_red; repeat (split; [reflexivity|]);
              let k := fresh "k" in
              intros k; specialize (Hl k); revert Hl;
              key_cases k; listing_simpl; rewrite ?Hact; try done
            | idtac ]
    | unfold same_outcome; cbn [is_list];
      first [ split; [split; intros; congruence | intros; congruence]
            | exfalso; first [ lia | congruence ]
            | idtac ] ]).
Qed.

(** The balance grows by at most the value received, the token counter by
    at most one. *)
Lemma baseline_bounds_step tx (w : Baseline.World) :
  Baseline.Inv w -> wf_tx tx = true ->
  balance (post (Baseline.exec tx w)) <= balance w + call_value (tx_call tx) /\
  nextTokenIdCounter w <= nextTokenIdCounter (post (Baseline.exec tx w))
    <= nextTokenIdCounter w + 1.
Proof.
  intros (Hi & _ & _ & Hf). red in Hi. start_world w. cbn in Hi, Hf. subst st.
  destruct tx as [s rcv []]; intros Hwf; wf_facts Hwf.
  all: evm_go; lia.
Qed.

Lemma sim_deployed deployer : Sim (deployed deployer) (deployed deployer).
Proof.
  repeat (split; [reflexivity|]). intros tokenId.
  unfold Baseline.listing_of, Optimized.listing_of. cbn.
  by rewrite !lookup_empty.
Qed.

Lemma sim_observed wb wo : Sim wb wo -> Baseline.Coherent wb -> Observed wb wo.
Proof.
  intros (Ho & _ & _ & _ & _ & Hp & _ & _ & _ & He & Hl) Hc.
  unfold Observed, Baseline.getPendingWithdrawal, Optimized.getPendingWithdrawal,
    Baseline.getListing, Optimized.getListing, owner_of, pending_of.
  rewrite Ho, Hp, He. cbn [fst snd].
  split; [done|]. split; [done|]. split; [|split; [|done]].
  - intros tokenId. specialize (Hl tokenId). specialize (Hc tokenId).
    unfold Baseline.active, Baseline.getListing in Hc.
    destruct (Baseline.isActive (Baseline.listing_of wb tokenId)).
    + destruct Hl as [-> _]. destruct Hc as (_ & _ & ?); [done|].
      symmetry. apply bool_decide_eq_true_2. lia.
    + rewrite Hl. done.
  - intros tokenId Ha. specialize (Hl tokenId). rewrite Ha in Hl.
    by destruct Hl as [-> ->].
Qed.

Lemma total_value_nonneg txs : forallb wf_tx txs = true -> 0 <= total_value txs.
Proof.
  induction txs as [|tx txs IH]; [done|].
  cbn [forallb]. intros [Hwf Hall]%andb_prop. specialize (IH Hall).
  change (total_value (tx :: txs))
    with (call_value (tx_call tx) + total_value txs).
  destruct tx as [s rcv []]; wf_facts Hwf; cbn [call_value tx_call]; lia.
Qed.

Lemma sim_receipts txs : forall (wb : Baseline.World) (wo : Optimized.World),
  Sim wb wo -> Baseline.Inv wb ->
  forallb wf_tx txs = true ->
  forallb (fun tx => fits_uint96 (tx_call tx)) txs = true ->
  balance wb + total_value txs <= uint256_max ->
  0 <= nextTokenIdCounter wb ->
  nextTokenIdCounter wb + Z.of_nat (length txs) <= uint256_max ->
  Forall2 Equivalent (Baseline.receipts txs wb) (Optimized.receipts txs wo).
Proof.
  induction txs as [|tx txs IH]; intros wb wo HS HI Hwf Hfit Hbal Hc0 Hc1.
  { constructor. }
  cbn [forallb] in Hwf, Hfit.
  change (total_value (tx :: txs))
    with (call_value (tx_call tx) + total_value txs) in Hbal.
  apply andb_prop in Hwf as [Hwf Hwfs]. apply andb_prop in Hfit as [Hfit Hfits].
  pose proof (total_value_nonneg txs Hwfs) as Hnn.
  rewrite length_cons, Nat2Z.inj_succ in Hc1.
  destruct (sim_step tx wb wo HS HI Hwf Hfit) as [HS' Hout]; [lia..|].
  pose proof (baseline_inv_step tx wb HI Hwf) as HI'.
  destruct (baseline_bounds_step tx wb HI Hwf) as [Hb' Hn'].
  change (Baseline.receipts (tx :: txs) wb)
    with ((tx, Baseline.exec tx wb)
          :: Baseline.receipts txs (post (Baseline.exec tx wb))).
  change (Optimized.receipts (tx :: txs) wo)
    with ((tx, Optimized.exec tx wo)
          :: Optimized.receipts txs (post (Optimized.exec tx wo))).
  constructor.
  - split; [reflexivity|]. split; [exact Hout|].
    apply sim_observed; [exact HS'|]. apply HI'.
  - apply IH; try done; lia.
Qed.

(** C9.  Run the same transactions against the two contracts, freshly
    deployed by the same account, with every listing price and every new
    fee within [uint96], the value sent in total within [uint256] and
    fewer than [2^256] transactions.  Then at every step both calls
    succeed or both fail, with the same error unless the call is
    [listNFT]; and after every step the token owners, the pending
    withdrawals, the activity that [getListing] reports for every token,
    the price and seller of every active listing, and the event logs are
    the same. *)
Theorem contracts_agree deployer txs :
  forallb wf_tx txs = true ->
  forallb (fun tx => fits_uint96 (tx_call tx)) txs = true ->
  total_value txs <= uint256_max ->
  Z.of_nat (length txs) <= uint256_max ->
  Forall2 Equivalent
    (Baseline.receipts txs (deployed deployer))
    (Optimized.receipts txs (deployed deployer)).
Proof.
  intros Hwf Hfit Hv Hn.
  apply sim_receipts;
    [apply sim_deployed | apply deployed_inv_b | done | done | cbn; lia..].
Qed.

(** The run of the test suite: mint, list, buy. *)
Lemma contracts_agree_witness :
  Forall2 Equivalent
    (Baseline.receipts sold_txs (deployed operator))
    (Optimized.receipts sold_txs (deployed operator)).
Proof.
  apply (contracts_agree operator sold_txs).
  - vm_compute. reflexivity.
  - vm_compute. reflexivity.
  - vm_compute. discriminate.
  - vm_compute. discriminate.
Defined.

(** C9 as stated fails for [listNFT]: the two contracts check its
    preconditions in a different order.  When [bob] lists [alice]'s token
    at price 0, both refuse, the baseline with "Not the owner", the
    optimized contract with "Price must be greater than 0". *)
Lemma listing_refused_differently :
  let wb := Baseline.exec_all minted_txs (deployed operator) in
  let wo := Optimized.exec_all minted_txs (deployed operator) in
  wf_tx bad_listing = true /\ fits_uint96 (tx_call bad_listing) = true /\
  status (Baseline.exec bad_listing wb)
  = Failure (Error_string "Not the owner") /\
  status (Optimized.exec bad_listing wo)
  = Failure (Error_string "Price must be greater than 0").
Proof. vm_compute. repeat split. Qed.

(** * Further properties of the contracts *)

(** ** cancelListing *)

(** Reduction of the storage operations in a hypothesis. *)
Ltac evm_red_in H :=
  let G := fresh "G" in
  match goal with |- ?g => set (G := g) end;
  revert H; evm_red; intros H; subst G.

Ltac decide_purposes :=
  repeat match goal with
  | |- context [decide (?a = ?b)] => destruct (decide (a = b)); try done
  end.

Ltac frame_solve :=
  rewrite ?default_lookup_insert, ?default_lookup_delete;
  cbn [map app Baseline.price Baseline.seller Baseline.isActive
       Optimized.price Optimized.seller];
  repeat match goal with
  | |- context [bool_decide ?P] =>
      first [ rewrite (bool_decide_eq_true_2 P) by lia
            | rewrite (bool_decide_eq_false_2 P) by lia ]
  end;
  repeat split; intros;
  rewrite ?lookup_insert_ne, ?lookup_delete_ne by done;
  try reflexivity; try lia; try (f_equal; lia).

(** X1.  [cancelListing] succeeds exactly when the caller owns the token and the
    token is on sale.  It then takes the listing off sale and emits
    [ListingCancelled]; nothing else changes and no value moves: the fee
    paid at listing is not returned.  The baseline keeps price and seller
    in the inactive listing, the optimized contract clears the record.  A
    token without owner is reported with [ERC721NonexistentToken], a
    caller who is not the owner with "Not the owner", a token not on sale
    with "Not listed". *)
Theorem cancel_spec :
  (forall (w : Baseline.World) caller rcv tokenId,
     let r := Baseline.exec (mkTx caller rcv (Call_cancelListing tokenId)) w in
     let l := Baseline.getListing w tokenId in
     (status r = Success <->
        owner_of w tokenId = caller /\ caller ≠ 0 /\ Baseline.isActive l = true) /\
     (status r = Success ->
        Baseline.getListing (post r) tokenId
        = Baseline.mkListing (Baseline.price l) (Baseline.seller l) false /\
        (forall t, t ≠ tokenId ->
           Baseline.getListing (post r) t = Baseline.getListing w t) /\
        events (post r) = events w ++ [ListingCancelled tokenId] /\
        map fst (trace r)
        = [Wrote (Slot_listings tokenId); Emitted (ListingCancelled tokenId)] /\
        _owners (post r) = _owners w /\
        pendingWithdrawals (post r) = pendingWithdrawals w /\
        listingFee (post r) = listingFee w /\
        balance (post r) = balance w) /\
     (owner_of w tokenId = 0 ->
        status r = Failure (ERC721NonexistentToken tokenId)) /\
     (owner_of w tokenId ≠ 0 -> owner_of w tokenId ≠ caller ->
        status r = Failure (Error_string "Not the owner")) /\
     (owner_of w tokenId = caller -> caller ≠ 0 -> Baseline.isActive l = false ->
        status r = Failure (Error_string "Not listed"))) /\
  (forall (w : Optimized.World) caller rcv tokenId,
     let r := Optimized.exec (mkTx caller rcv (Call_cancelListing tokenId)) w in
     (status r = Success <->
        owner_of w tokenId = caller /\ caller ≠ 0 /\
        snd (Optimized.getListing w tokenId) = true) /\
     (status r = Success ->
        Optimized.getListing (post r) tokenId = (0, 0, false) /\
        (forall t, t ≠ tokenId ->
           Optimized.getListing (post r) t = Optimized.getListing w t) /\
        events (post r) = events w ++ [ListingCancelled tokenId] /\
        map fst (trace r)
        = [Wrote (Slot_listings tokenId); Emitted (ListingCancelled tokenId)] /\
        _owners (post r) = _owners w /\
        pendingWithdrawals (post r) = pendingWithdrawals w /\
        listingFee (post r) = listingFee w /\
        balance (post r) = balance w) /\
     (owner_of w tokenId = 0 ->
        status r = Failure (ERC721NonexistentToken tokenId)) /\
     (owner_of w tokenId ≠ 0 -> owner_of w tokenId ≠ caller ->
        status r = Failure (Error_string "Not the owner")) /\
     (owner_of w tokenId = caller -> caller ≠ 0 ->
        snd (Optimized.getListing w tokenId) = false ->
        status r = Failure (Error_string "Not listed"))).
Proof.
  split; intros w caller rcv tokenId; start_world w; cbn zeta.
  all: evm_go.
  all: (split; [iff_solve|]).
  all: (split; [intros Hok; try discriminate|]).
  all: try (repeat split; intros; try reflexivity; exfalso; side).
  all: frame_solve.
Qed.

(** The seller of the test run takes her listing back. *)
Lemma cancel_spec_witness :
  status (Baseline.exec (cancel_by alice 0)
            (Baseline.exec_all listed_txs (deployed operator))) = Success.
Proof.
  refine (proj2 (proj1 (proj1 cancel_spec
            (Baseline.exec_all listed_txs (deployed operator))
            alice accept_all 0)) _).
  vm_compute. repeat split; done.
Defined.

(** ** buyNFT *)

Lemma baseline_buy buyer rcv tokenId v (w : Baseline.World) :
  Baseline.Inv w -> buyer ≠ 0 -> balance w + v <= uint256_max ->
  let l := Baseline.getListing w tokenId in
  let r := Baseline.exec (mkTx buyer rcv (Call_buyNFT tokenId v)) w in
  (status r = Success <->
     Baseline.isActive l = true /\ v >= Baseline.price l /\
     (v > Baseline.price l -> rcv buyer (v - Baseline.price l) = true)) /\
  (Baseline.isActive l = false ->
     status r = Failure (Error_string "NFT not listed")) /\
  (Baseline.isActive l = true -> v < Baseline.price l ->
     status r = Failure (Error_string "Insufficient payment")) /\
  (Baseline.isActive l = true -> v > Baseline.price l ->
     rcv buyer (v - Baseline.price l) = false ->
     status r = Failure TransferReverted).
Proof.
  intros (Hi & Hc & [Hs1 Hs2] & Hf) Hne Hbal. red in Hi. start_world w.
  cbn in Hi. subst st. cbn zeta. unfold Baseline.Coherent in Hc.
  unfold escrow_total in Hs2. cbn in Hs1, Hs2, Hbal. clear Hf.
  pose proof (sum_map_nonneg pw Hs1) as Hnn.
  pose proof (sum_map_lookup_le pw
    (Baseline.seller (default Baseline.Listing_zero (ls !! tokenId))) Hs1).
  pose proof (default_nonneg pw
    (Baseline.seller (default Baseline.Listing_zero (ls !! tokenId))) Hs1).
  clear Hs1. revert Hc.
  evm_go; intros Hc.
  all: try match goal with
       | H : Baseline.isActive _ = true |- _ =>
           destruct (Hc _ H) as (Ho & Hno & Hp)
       end.
  all: clear Hc.
  all: try (exfalso; side).
  all: (split; [iff_solve|]).
  all: repeat split; intros; try reflexivity; exfalso; side.
Qed.

Lemma optimized_buy buyer rcv tokenId v (w : Optimized.World) :
  Optimized.Inv w -> buyer ≠ 0 -> is_uint256 v -> balance w + v <= uint256_max ->
  let l := Optimized.listing_of w tokenId in
  let r := Optimized.exec (mkTx buyer rcv (Call_buyNFT tokenId v)) w in
  (status r = Success <->
     Optimized.price l > 0 /\ v >= Optimized.price l /\
     (v > Optimized.price l -> rcv buyer (v - Optimized.price l) = true)) /\
  (Optimized.price l = 0 ->
     status r = Failure (Error_string "NFT not listed")) /\
  (Optimized.price l > 0 -> v < Optimized.price l ->
     status r = Failure (Error_string "Insufficient payment")) /\
  (Optimized.price l > 0 -> v > Optimized.price l ->
     rcv buyer (v - Optimized.price l) = false ->
     status r = Failure TransferReverted).
Proof.
  intros (Hi & Hc & [Hs1 Hs2] & Hf) Hne [Hv0 Hv1] Hbal. red in Hi. start_world w.
  cbn in Hi. subst st. cbn zeta. unfold Optimized.Coherent in Hc.
  unfold escrow_total in Hs2. cbn in Hs1, Hs2, Hbal. clear Hf.
  pose proof max_bounds as Hmax.
  pose proof (sum_map_nonneg pw Hs1) as Hnn. clear Hs1.
  specialize (Hc tokenId). evm_red_in Hc. destruct Hc as [Hp Hc].
  evm_go.
  all: try match goal with
       | H : Optimized.price _ > 0 |- _ =>
           destruct (Hc (bool_decide_eq_true_2 _ H)) as (Ho & Hno)
       end.
  all: clear Hc.
  all: try rewrite unchecked_sub_id in * by lia.
  all: try (exfalso; side).
  all: (split; [iff_solve|]).
  all: repeat split; intros; try reflexivity; exfalso; side.
Qed.

(** X2.  [buyNFT] from a buyer other than the zero address, the ether in
    existence fitting [uint256].  The purchase succeeds exactly when the
    token is on sale, the payment covers the price and the buyer accepts
    the refund of the excess.  A token not on sale is refused with
    "NFT not listed", a payment below the price with
    "Insufficient payment"; a refused refund reverts the purchase. *)
Theorem buy_spec :
  (forall (w : Baseline.World) buyer rcv tokenId v,
     Baseline.Reachable w -> buyer ≠ 0 -> balance w + v <= uint256_max ->
     let l := Baseline.getListing w tokenId in
     let r := Baseline.exec (mkTx buyer rcv (Call_buyNFT tokenId v)) w in
     (status r = Success <->
        Baseline.isActive l = true /\ v >= Baseline.price l /\
        (v > Baseline.price l -> rcv buyer (v - Baseline.price l) = true)) /\
     (Baseline.isActive l = false ->
        status r = Failure (Error_string "NFT not listed")) /\
     (Baseline.isActive l = true -> v < Baseline.price l ->
        status r = Failure (Error_string "Insufficient payment")) /\
     (Baseline.isActive l = true -> v > Baseline.price l ->
        rcv buyer (v - Baseline.price l) = false ->
        status r = Failure TransferReverted)) /\
  (forall (w : Optimized.World) buyer rcv tokenId v,
     Optimized.Reachable w -> buyer ≠ 0 -> is_uint256 v ->
     balance w + v <= uint256_max ->
     let price := fst (fst (Optimized.getListing w tokenId)) in
     let isActive := snd (Optimized.getListing w tokenId) in
     let r := Optimized.exec (mkTx buyer rcv (Call_buyNFT tokenId v)) w in
     (status r = Success <->
        isActive = true /\ v >= price /\
        (v > price -> rcv buyer (v - price) = true)) /\
     (isActive = false -> status r = Failure (Error_string "NFT not listed")) /\
     (isActive = true -> v < price ->
        status r = Failure (Error_string "Insufficient payment")) /\
     (isActive = true -> v > price -> rcv buyer (v - price) = false ->
        status r = Failure TransferReverted)).
Proof.
  split.
  - intros w buyer rcv tokenId v Hr Hne Hbal.
    apply baseline_reachable_inv in Hr. by apply baseline_buy.
  - intros w buyer rcv tokenId v Hr Hne Hv Hbal.
    apply optimized_reachable_inv in Hr.
    pose proof (proj1 (proj1 (proj2 Hr) tokenId)) as Hp.
    destruct (optimized_buy buyer rcv tokenId v w Hr Hne Hv Hbal)
      as (Hiff & Hnl & Hip & Htr).
    unfold Optimized.getListing. cbn [fst snd]. cbv zeta.
    split; [split|split; [|split]].
    + intros Hok. apply Hiff in Hok as (? & ? & ?).
      repeat split; try done. by apply bool_decide_eq_true_2.
    + intros (Ha%bool_decide_eq_true_1 & ? & ?). by apply Hiff.
    + intros Ha%bool_decide_eq_false_1. apply Hnl. lia.
    + intros Ha%bool_decide_eq_true_1. by apply Hip.
    + intros Ha%bool_decide_eq_true_1. by apply Htr.
Qed.

(** The purchase of the test run. *)
Lemma buy_spec_witness :
  status (Baseline.exec buy_exact
            (Baseline.exec_all listed_txs (deployed operator))) = Success.
Proof.
  refine (proj2 (proj1 (proj1 buy_spec
            (Baseline.exec_all listed_txs (deployed operator))
            bob accept_all 0 100 listed_reachable_b _ _)) _).
  - discriminate.
  - vm_compute. discriminate.
  - vm_compute. repeat split; intros; discriminate.
Defined.

(** ** listNFT *)

Lemma baseline_list_effects seller rcv tokenId price v (w : Baseline.World) :
  let r := Baseline.exec (mkTx seller rcv (Call_listNFT tokenId price v)) w in
  status r = Success ->
  Baseline.getListing (post r) tokenId = Baseline.mkListing price seller true /\
  (forall t, t ≠ tokenId ->
     Baseline.getListing (post r) t = Baseline.getListing w t) /\
  map fst (trace r)
  = list_trace tokenId seller (_owner w) (listingFee w) v price /\
  sent ListingFee (trace r) = listingFee w /\
  sent Refund (trace r) = v - listingFee w /\
  balance (post r) = balance w /\
  events (post r) = events w ++ [NFTListed tokenId seller price] /\
  _owners (post r) = _owners w /\
  pendingWithdrawals (post r) = pendingWithdrawals w /\
  listingFee (post r) = listingFee w.
Proof.
  start_world w. cbn zeta.
  evm_go; intros Hok; try discriminate.
  all: unfold list_trace; trace_simpl.
  all: decide_purposes.
  all: frame_solve.
Qed.

Lemma optimized_list_effects seller rcv tokenId price v (w : Optimized.World) :
  Optimized.Inv w -> is_uint256 v ->
  let r := Optimized.exec (mkTx seller rcv (Call_listNFT tokenId price v)) w in
  status r = Success ->
  Optimized.getListing (post r) tokenId = (price, seller, true) /\
  (forall t, t ≠ tokenId ->
     Optimized.getListing (post r) t = Optimized.getListing w t) /\
  map fst (trace r)
  = list_trace tokenId seller (_owner w) (listingFee w) v price /\
  sent ListingFee (trace r) = listingFee w /\
  sent Refund (trace r) = v - listingFee w /\
  balance (post r) = balance w /\
  events (post r) = events w ++ [NFTListed tokenId seller price] /\
  _owners (post r) = _owners w /\
  pendingWithdrawals (post r) = pendingWithdrawals w /\
  listingFee (post r) = listingFee w.
Proof.
  intros (_ & _ & _ & Hf) [Hv0 Hv1]. start_world w. cbn zeta. cbn in Hf.
  pose proof max_bounds as Hmax.
  evm_go; intros Hok; try discriminate.
  all: unfold list_trace; trace_simpl.
  all: rewrite ?uint96_id by lia.
  all: rewrite ?unchecked_sub_id in * by lia.
  all: decide_purposes.
  all: frame_solve.
Qed.

(** X3.  A successful [listNFT] stores the listing that [getListing] then
    reports (the price asked, the caller as seller, active) and leaves the
    other listings alone.  It writes the listing before it sends any
    value, hands exactly the listing fee to the operator and the rest of
    the value sent back to the seller: the contract keeps none of it.  It
    emits [NFTListed] and changes neither owners nor escrow nor fee. *)
Theorem list_effects :
  (forall (w : Baseline.World) seller rcv tokenId price v,
     let r := Baseline.exec (mkTx seller rcv (Call_listNFT tokenId price v)) w in
     status r = Success ->
     Baseline.getListing (post r) tokenId = Baseline.mkListing price seller true /\
     (forall t, t ≠ tokenId ->
        Baseline.getListing (post r) t = Baseline.getListing w t) /\
     map fst (trace r)
     = list_trace tokenId seller (_owner w) (listingFee w) v price /\
     sent ListingFee (trace r) = listingFee w /\
     sent Refund (trace r) = v - listingFee w /\
     balance (post r) = balance w /\
     events (post r) = events w ++ [NFTListed tokenId seller price] /\
     _owners (post r) = _owners w /\
     pendingWithdrawals (post r) = pendingWithdrawals w /\
     listingFee (post r) = listingFee w) /\
  (forall (w : Optimized.World) seller rcv tokenId price v,
     Optimized.Reachable w -> is_uint256 v ->
     let r := Optimized.exec (mkTx seller rcv (Call_listNFT tokenId price v)) w in
     status r = Success ->
     Optimized.getListing (post r) tokenId = (price, seller, true) /\
     (forall t, t ≠ tokenId ->
        Optimized.getListing (post r) t = Optimized.getListing w t) /\
     map fst (trace r)
     = list_trace tokenId seller (_owner w) (listingFee w) v price /\
     sent ListingFee (trace r) = listingFee w /\
     sent Refund (trace r) = v - listingFee w /\
     balance (post r) = balance w /\
     events (post r) = events w ++ [NFTListed tokenId seller price] /\
     _owners (post r) = _owners w /\
     pendingWithdrawals (post r) = pendingWithdrawals w /\
     listingFee (post r) = listingFee w).
Proof.
  split.
  - intros w seller rcv tokenId price v. apply baseline_list_effects.
  - intros w seller rcv tokenId price v Hr Hv.
    apply optimized_reachable_inv in Hr. by apply optimized_list_effects.
Qed.

(** The listing of the test run. *)
Lemma list_effects_witness :
  Baseline.getListing
    (post (Baseline.exec (mkTx alice accept_all (Call_listNFT 0 100 ether_0_01))
             (Baseline.exec_all minted_txs (deployed operator)))) 0
  = Baseline.mkListing 100 alice true.
Proof.
  refine (proj1 (proj1 list_effects
            (Baseline.exec_all minted_txs (deployed operator))
            alice accept_all 0 100 ether_0_01 _)).
  vm_compute. reflexivity.
Defined.

(** ** mintNFT and the numbering of tokens *)

Ltac numbered_token t :=
  match goal with
  | H2 : forall k : Z, default 0 (?ow !! k) ≠ 0 <-> _,
    H3 : forall k : Z, default 0 (?ow !! k) = 0 -> _ |- _ =>
      pose proof (H2 t); pose proof (H3 t)
  end.

Ltac numbered_leaf HN H2 H3 H4 :=
  first
  [ exact HN
  | exfalso; side
  | exfalso;
    match goal with
    | H : (?x, ?s) ∈ ?oa |- _ =>
        let Hx := fresh in
        assert (x = 0) as Hx by lia; rewrite Hx in H; exact (H4 _ H)
    end
  | unfold Numbered; evm_red;
    split; [lia|]; split; [|split];
    [ first [ exact H2
            | let k := fresh "k" in
              intros k; specialize (H2 k); revert H2; key_cases k;
              cbn [default from_option id]; intros; lia ]
    | first [ exact H3
            | let k := fresh "k" in
              intros k; specialize (H2 k); specialize (H3 k); revert H2 H3;
              key_cases k; cbn [default from_option id]; intros; lia ]
    | first [ exact H4
            | let sp := fresh "sp" in
              let Hin := fresh "Hin" in
              intros sp Hin;
              match goal with
              | b : bool |- _ =>
                  destruct b;
                  [ apply elem_of_union in Hin as [Hin|Hin];
                    [ exact (H4 _ Hin)
                    | apply elem_of_singleton in Hin; congruence ]
                  | apply elem_of_difference in Hin as [Hin _];
                    exact (H4 _ Hin) ]
              end ] ] ].

Lemma baseline_numbered_step tx (w : Baseline.World) :
  Numbered w -> wf_tx tx = true -> Numbered (post (Baseline.exec tx w)).
Proof.
  intros HN Hwf. pose proof HN as (H1 & H2 & H3 & H4).
  start_world w.
  evm_red_in H1. evm_red_in H2. evm_red_in H3. evm_red_in H4.
  destruct tx as [s rcv [uri|tokenId p v|tokenId v|tokenId| |newFee
                         |from to tokenId|to tokenId|op approved|newOwner|]];
    wf_facts Hwf.
  1: numbered_token ctr.
  all: try numbered_token tokenId.
  all: evm_go.
  all: numbered_leaf HN H2 H3 H4.
Qed.

Lemma optimized_numbered_step tx (w : Optimized.World) :
  Numbered w -> wf_tx tx = true -> nextTokenIdCounter w < uint256_max ->
  Numbered (post (Optimized.exec tx w)).
Proof.
  intros HN Hwf Hlt. pose proof HN as (H1 & H2 & H3 & H4).
  start_world w. cbn in Hlt.
  evm_red_in H1. evm_red_in H2. evm_red_in H3. evm_red_in H4.
  destruct tx as [s rcv [uri|tokenId p v|tokenId v|tokenId| |newFee
                         |from to tokenId|to tokenId|op approved|newOwner|]];
    wf_facts Hwf.
  1: numbered_token ctr.
  all: try numbered_token tokenId.
  all: evm_go.
  all: rewrite ?unchecked_add_id by lia.
  all: numbered_leaf HN H2 H3 H4.
Qed.

Ltac committed_simpl :=
  unfold committed; cbn [status];
  rewrite ?bool_decide_eq_true_2, ?bool_decide_eq_false_2 by done;
  cbn [is_mint tx_call].

(** Only a successful [mintNFT] moves the counter, by one. *)
Lemma baseline_counter_step tx (w : Baseline.World) :
  nextTokenIdCounter (post (Baseline.exec tx w))
  = nextTokenIdCounter w
    + (if committed (Baseline.exec tx w)
       then if is_mint (tx_call tx) then 1 else 0 else 0).
Proof.
  start_world w. destruct tx as [s rcv []].
  all: evm_go; committed_simpl; lia.
Qed.

Lemma optimized_counter_step tx (w : Optimized.World) :
  0 <= nextTokenIdCounter w < uint256_max ->
  nextTokenIdCounter (post (Optimized.exec tx w))
  = nextTokenIdCounter w
    + (if committed (Optimized.exec tx w)
       then if is_mint (tx_call tx) then 1 else 0 else 0).
Proof.
  intros Hc. start_world w. cbn in Hc. destruct tx as [s rcv []].
  all: evm_go; rewrite ?unchecked_add_id by lia; committed_simpl; lia.
Qed.

Lemma mints_cons {L} tx (r : Receipt L) rs :
  mints ((tx, r) :: rs)
  = (if committed r then if is_mint (tx_call tx) then 1 else 0 else 0)
    + mints rs.
Proof. unfold mints. by rewrite total_over_cons. Qed.



Lemma baseline_counter_from txs : forall (w : Baseline.World),
  nextTokenIdCounter (Baseline.exec_all txs w)
  = nextTokenIdCounter w + mints (Baseline.receipts txs w).
Proof.
  induction txs as [|tx txs IH]; intros w.
  { cbn. unfold mints, total_over. cbn. lia. }
  change (Baseline.exec_all (tx :: txs) w)
    with (Baseline.exec_all txs (post (Baseline.exec tx w))).
  change (Baseline.receipts (tx :: txs) w)
    with ((tx, Baseline.exec tx w)
          :: Baseline.receipts txs (post (Baseline.exec tx w))).
  rewrite IH, mints_cons, baseline_counter_step. lia.
Qed.

Lemma optimized_counter_from txs : forall (w : Optimized.World),
  0 <= nextTokenIdCounter w ->
  nextTokenIdCounter w + Z.of_nat (length txs) <= uint256_max ->
  nextTokenIdCounter (Optimized.exec_all txs w)
  = nextTokenIdCounter w + mints (Optimized.receipts txs w).
Proof.
  induction txs as [|tx txs IH]; intros w H0 Hn.
  { cbn. unfold mints, total_over. cbn. lia. }
  rewrite length_cons, Nat2Z.inj_succ in Hn.
  change (Optimized.exec_all (tx :: txs) w)
    with (Optimized.exec_all txs (post (Optimized.exec tx w))).
  change (Optimized.receipts (tx :: txs) w)
    with ((tx, Optimized.exec tx w)
          :: Optimized.receipts txs (post (Optimized.exec tx w))).
  pose proof (optimized_counter_step tx w ltac:(lia)) as Hs.
  assert (0 <= (if committed (Optimized.exec tx w)
                then if is_mint (tx_call tx) then 1 else 0 else 0) <= 1)
    by (destruct (committed _); [destruct (is_mint _)|]; lia).
  rewrite IH, mints_cons by lia. lia.
Qed.

Lemma optimized_numbered_from txs : forall (w : Optimized.World),
  Numbered w -> forallb wf_tx txs = true ->
  nextTokenIdCounter w + Z.of_nat (length txs) <= uint256_max ->
  Numbered (Optimized.exec_all txs w).
Proof.
  induction txs as [|tx txs IH]; intros w HN Hwf Hn; [done|].
  rewrite length_cons, Nat2Z.inj_succ in Hn.
  cbn [forallb] in Hwf. apply andb_prop in Hwf as [Hwf Hwfs].
  change (Optimized.exec_all (tx :: txs) w)
    with (Optimized.exec_all txs (post (Optimized.exec tx w))).
  pose proof (proj1 HN) as H0.
  pose proof (optimized_counter_step tx w ltac:(lia)) as Hs.
  assert (0 <= (if committed (Optimized.exec tx w)
                then if is_mint (tx_call tx) then 1 else 0 else 0) <= 1)
    by (destruct (committed _); [destruct (is_mint _)|]; lia).
  apply IH; [apply optimized_numbered_step; [done..|lia] | done | lia].
Qed.

Lemma numbered_deployed {L} deployer : Numbered (deployed (L:=L) deployer).
Proof.
  unfold Numbered, deployed, owner_of, approved_of. cbn.
  split; [done|]. split; [|split].
  - intros tokenId. rewrite lookup_empty. cbn. lia.
  - intros tokenId _. by rewrite lookup_empty.
  - intros spender. apply not_elem_of_empty.
Qed.

Lemma baseline_numbered_from txs (w : Baseline.World) :
  Numbered w -> forallb wf_tx txs = true -> Numbered (Baseline.exec_all txs w).
Proof.
  intros HN Hwf.
  apply (exec_all_preserves Baseline.dispatch Numbered (fun tx => wf_tx tx = true)).
  - intros tx w' HN' Htx. by apply baseline_numbered_step.
  - done.
  - by apply forallb_Forall.
Qed.

(** X4.  The tokens of a run are numbered 0, 1, 2, ... in the order of the
    successful [mintNFT] calls: a token id has an owner exactly when it is
    below the number of tokens minted so far.  (In the optimized contract
    the counter is unchecked; the run is shorter than [2^256].) *)
Theorem token_ids :
  (forall deployer txs tokenId,
     forallb wf_tx txs = true ->
     let w := Baseline.exec_all txs (deployed deployer) in
     let n := mints (Baseline.receipts txs (deployed deployer)) in
     owner_of w tokenId ≠ 0 <-> 0 <= tokenId < n) /\
  (forall deployer txs tokenId,
     forallb wf_tx txs = true -> Z.of_nat (length txs) <= uint256_max ->
     let w := Optimized.exec_all txs (deployed deployer) in
     let n := mints (Optimized.receipts txs (deployed deployer)) in
     owner_of w tokenId ≠ 0 <-> 0 <= tokenId < n).
Proof.
  split.
  - intros deployer txs tokenId Hwf. cbv zeta.
    pose proof (baseline_numbered_from txs (deployed deployer)
                  (numbered_deployed deployer) Hwf) as (_ & H2 & _).
    rewrite H2, baseline_counter_from. cbn. lia.
  - intros deployer txs tokenId Hwf Hn. cbv zeta.
    pose proof (optimized_numbered_from txs (deployed deployer)
                  (numbered_deployed deployer) Hwf) as (_ & H2 & _);
      [cbn; lia|].
    rewrite H2, optimized_counter_from by (cbn; lia). cbn. lia.
Qed.

(** After the run of the test suite token 0 exists. *)
Lemma token_ids_witness :
  owner_of (Baseline.exec_all sold_txs (deployed operator)) 0 ≠ 0.
Proof.
  apply (proj1 token_ids operator sold_txs 0).
  - vm_compute. reflexivity.
  - vm_compute. split; [discriminate|reflexivity].
Defined.





(** ** Tokens are never burned *)

(** X6.  No call takes a token out of circulation: a token that has an owner
    has one after any transaction, in any state. *)
Theorem tokens_are_never_burned :
  (forall tx (w : Baseline.World) tokenId,
     owner_of w tokenId ≠ 0 ->
     owner_of (post (Baseline.exec tx w)) tokenId ≠ 0) /\
  (forall tx (w : Optimized.World) tokenId,
     owner_of w tokenId ≠ 0 ->
     owner_of (post (Optimized.exec tx w)) tokenId ≠ 0).
Proof.
  split; intros tx w tokenId; start_world w; destruct tx as [s rcv []].
  all: evm_go; try done.
  all: key_cases tokenId; cbn [default from_option id]; done.
Qed.

(** Token 0 of the test run after its sale. *)
Lemma tokens_are_never_burned_witness :
  owner_of (post (Baseline.exec buy_exact
                    (Baseline.exec_all listed_txs (deployed operator)))) 0 ≠ 0.
Proof.
  apply (proj1 tokens_are_never_burned buy_exact
           (Baseline.exec_all listed_txs (deployed operator)) 0).
  vm_compute. discriminate.
Defined.

(** ** The escrow of an account *)

Lemma baseline_escrow_step tx (w : Baseline.World) a :
  Baseline.Inv w ->
  let r := Baseline.exec tx w in
  pending_of (post r) a < pending_of w a ->
  tx_sender tx = a /\ tx_call tx = Call_withdrawFunds /\
  status r = Success /\ pending_of (post r) a = 0 /\
  map fst (trace r) = withdraw_trace a (pending_of w a).
Proof.
  intros (Hi & Hc & [Hs1 Hs2] & Hf). red in Hi. start_world w.
  cbn in Hi. subst st. cbn zeta. unfold Baseline.Coherent in Hc.
  evm_red_in Hc.
  destruct tx as [s rcv [uri|tokenId p v|tokenId v|tokenId| |newFee
                         |from to tokenId|to tokenId|op approved|newOwner|]].
  all: evm_go; try lia.
  all: try match goal with
       | H : Baseline.isActive _ = true |- _ =>
           destruct (Hc _ H) as (Ho & Hno & Hp)
       end.
  all: key_cases a; cbn [default from_option id]; try lia.
  all: intros _; unfold withdraw_trace; trace_simpl; done.
Qed.

Lemma optimized_escrow_step tx (w : Optimized.World) a :
  Optimized.Inv w -> wf_tx tx = true ->
  balance w + call_value (tx_call tx) <= uint256_max ->
  let r := Optimized.exec tx w in
  pending_of (post r) a < pending_of w a ->
  tx_sender tx = a /\ tx_call tx = Call_withdrawFunds /\
  status r = Success /\ pending_of (post r) a = 0 /\
  map fst (trace r) = withdraw_trace a (pending_of w a).
Proof.
  intros (Hi & Hc & [Hs1 Hs2] & Hf) Hwf Hbal. red in Hi. start_world w.
  cbn in Hi. subst st. cbn zeta. unfold Optimized.Coherent in Hc.
  unfold escrow_total in Hs2. cbn in Hs1, Hs2, Hbal.
  pose proof max_bounds as Hmax.
  evm_red_in Hc.
  destruct tx as [s rcv [uri|tokenId p v|tokenId v|tokenId| |newFee
                         |from to tokenId|to tokenId|op approved|newOwner|]];
    wf_facts Hwf; cbn [tx_call call_value] in Hbal.
  all: evm_go; try lia.
  all: try match goal with
       | |- context [unchecked_add (default 0 (?m !! ?x)) ?y] =>
           pose proof (sum_map_lookup_le m x Hs1);
           pose proof (default_nonneg m x Hs1);
           pose proof (proj1 (Hc tokenId));
           rewrite (unchecked_add_id (default 0 (m !! x)) y) by lia
       end.
  all: key_cases a; cbn [default from_option id]; try lia.
  all: intros _; unfold withdraw_trace; trace_simpl; done.
Qed.

(** X7.  Nobody but the account itself takes anything out of its escrow: if a
    transaction leaves an account with less escrow than before, it is a
    successful [withdrawFunds] called by that account, which empties the
    escrow and pays all of it to the account. *)
Theorem escrow_is_safe :
  (forall tx (w : Baseline.World) a,
     Baseline.Reachable w ->
     let r := Baseline.exec tx w in
     Baseline.getPendingWithdrawal (post r) a
     < Baseline.getPendingWithdrawal w a ->
     tx_sender tx = a /\ tx_call tx = Call_withdrawFunds /\
     status r = Success /\ Baseline.getPendingWithdrawal (post r) a = 0 /\
     map fst (trace r)
     = withdraw_trace a (Baseline.getPendingWithdrawal w a)) /\
  (forall tx (w : Optimized.World) a,
     Optimized.Reachable w -> wf_tx tx = true ->
     balance w + call_value (tx_call tx) <= uint256_max ->
     let r := Optimized.exec tx w in
     Optimized.getPendingWithdrawal (post r) a
     < Optimized.getPendingWithdrawal w a ->
     tx_sender tx = a /\ tx_call tx = Call_withdrawFunds /\
     status r = Success /\ Optimized.getPendingWithdrawal (post r) a = 0 /\
     map fst (trace r)
     = withdraw_trace a (Optimized.getPendingWithdrawal w a)).
Proof.
  split.
  - intros tx w a Hr. apply baseline_escrow_step.
    by apply baseline_reachable_inv.
  - intros tx w a Hr Hwf Hbal. apply optimized_escrow_step; try done.
    by apply optimized_reachable_inv.
Qed.

(** The seller of the test run withdraws the price of her token. *)
Lemma escrow_is_safe_witness :
  status (Baseline.exec (withdraw_by alice accept_all)
            (Baseline.exec_all sold_txs (deployed operator))) = Success /\
  Baseline.getPendingWithdrawal
    (post (Baseline.exec (withdraw_by alice accept_all)
             (Baseline.exec_all sold_txs (deployed operator)))) alice = 0.
Proof.
  refine (let H := proj1 escrow_is_safe (withdraw_by alice accept_all)
                     (Baseline.exec_all sold_txs (deployed operator)) alice
                     sold_reachable_b _ in
          conj (proj1 (proj2 (proj2 H))) (proj1 (proj2 (proj2 (proj2 H))))).
  vm_compute. reflexivity.
Defined.

(** ** The guard between transactions *)

(** X8.  Between two transactions the re-entrancy guard is released, so no
    transaction is ever refused by it: [ReentrancyGuardReentrantCall] can
    only meet a call made from inside a guarded function. *)
Theorem guard_is_released :
  (forall (w : Baseline.World) tx,
     Baseline.Reachable w ->
     _status w = false /\
     status (Baseline.exec tx w) ≠ Failure ReentrancyGuardReentrantCall) /\
  (forall (w : Optimized.World) tx,
     Optimized.Reachable w ->
     _status w = false /\
     status (Optimized.exec tx w) ≠ Failure ReentrancyGuardReentrantCall).
Proof.
  split; intros w tx Hr.
  - apply baseline_reachable_inv in Hr as (Hi & _). red in Hi.
    split; [done|]. start_world w. cbn in Hi. subst st.
    destruct tx as [s rcv []]; evm_go; discriminate.
  - apply optimized_reachable_inv in Hr as (Hi & _). red in Hi.
    split; [done|]. start_world w. cbn in Hi. subst st.
    destruct tx as [s rcv []]; evm_go; discriminate.
Qed.

(** After the sale of the test run the guard is released. *)
Lemma guard_is_released_witness :
  _status (Baseline.exec_all sold_txs (deployed operator)) = false.
Proof.
  exact (proj1 (proj1 guard_is_released
                  (Baseline.exec_all sold_txs (deployed operator))
                  buy_exact sold_reachable_b)).
Defined.

(** ** Who changes the fee *)

(** X9.  The listing fee changes in no other way than by a successful
    [setListingFee] from the operator, and then to the value asked for. *)
Theorem only_operator_sets_fee :
  (forall tx (w : Baseline.World),
     let r := Baseline.exec tx w in
     listingFee (post r) ≠ listingFee w ->
     tx_sender tx = _owner w /\ status r = Success /\
     tx_call tx = Call_setListingFee (listingFee (post r))) /\
  (forall tx (w : Optimized.World),
     wf_tx tx = true ->
     let r := Optimized.exec tx w in
     listingFee (post r) ≠ listingFee w ->
     tx_sender tx = _owner w /\ status r = Success /\
     tx_call tx = Call_setListingFee (listingFee (post r)) /\
     listingFee (post r) <= uint96_max).
Proof.
  split.
  - intros tx w. start_world w. cbn zeta.
    destruct tx as [s rcv []]; evm_go; try done.
    intros _. repeat split; first [lia|done].
  - intros tx w Hwf. start_world w. cbn zeta.
    pose proof max_bounds.
    destruct tx as [s rcv []]; wf_facts Hwf; evm_go; try done.
    rewrite uint96_id by lia.
    intros _. repeat split; first [lia|done].
Qed.

(** The operator of the test run doubles the fee. *)
Lemma only_operator_sets_fee_witness :
  tx_sender (set_fee_by operator (2 * ether_0_01)) = operator.
Proof.
  refine (proj1 (proj1 only_operator_sets_fee
                   (set_fee_by operator (2 * ether_0_01))
                   (deployed operator) _)).
  vm_compute. discriminate.
Defined.

(** ** The packed fields of the optimized contract *)

(** X10.  The optimized contract keeps prices and the fee in [uint96] fields.
    In every reachable state the fee and every stored price are within
    [uint96]: no cast has truncated a value.  A price of zero is stored
    exactly for the tokens that are not on sale. *)
Theorem packed_fields_fit :
  forall (w : Optimized.World) tokenId,
    Optimized.Reachable w ->
    0 <= listingFee w <= uint96_max /\
    0 <= fst (fst (Optimized.getListing w tokenId)) <= uint96_max /\
    (fst (fst (Optimized.getListing w tokenId)) = 0 <->
     snd (Optimized.getListing w tokenId) = false).
Proof.
  intros w tokenId (Hi & Hc & Hs & Hf)%optimized_reachable_inv.
  destruct (Hc tokenId) as [Hp _].
  unfold Optimized.getListing. cbn [fst snd].
  split; [done|]. split; [done|]. split.
  - intros ->. done.
  - intros Hz%bool_decide_eq_false_1. lia.
Qed.

(** The listing of the test run: 100 is stored as it is. *)
Lemma packed_fields_fit_witness :
  0 <= listingFee (Optimized.exec_all listed_txs (deployed operator))
    <= uint96_max.
Proof.
  refine (proj1 (packed_fields_fit
                   (Optimized.exec_all listed_txs (deployed operator)) 0 _)).
  exists operator, listed_txs. split; [vm_compute|]; reflexivity.
Defined.

(** ** How a listing comes and goes *)

(** X11.  A token comes on sale in no other way than by a successful [listNFT]
    on it, called by its owner, with the listing the call asks for. *)
Theorem only_owner_lists :
  (forall tx (w : Baseline.World) tokenId,
     let r := Baseline.exec tx w in
     Baseline.isActive (Baseline.getListing w tokenId) = false ->
     Baseline.isActive (Baseline.getListing (post r) tokenId) = true ->
     status r = Success /\ tx_sender tx = owner_of w tokenId /\
     exists price v,
       tx_call tx = Call_listNFT tokenId price v /\
       Baseline.getListing (post r) tokenId
       = Baseline.mkListing price (tx_sender tx) true) /\
  (forall tx (w : Optimized.World) tokenId,
     let r := Optimized.exec tx w in
     snd (Optimized.getListing w tokenId) = false ->
     snd (Optimized.getListing (post r) tokenId) = true ->
     status r = Success /\ tx_sender tx = owner_of w tokenId /\
     exists price v,
       tx_call tx = Call_listNFT tokenId price v /\
       Optimized.getListing (post r) tokenId = (price, tx_sender tx, true)).
Proof.
  split; intros tx w tokenId; start_world w; cbn zeta.
  all: pose proof max_bounds as Hmax.
  all: destruct tx as [s rcv [uri|t p v|t v|t| |newFee
                              |from to t|to t|op approved|newOwner|]].
  all: evm_go; intros Ha Ha'; try congruence.
  all: revert Ha Ha'; key_cases tokenId; listing_simpl; intros Ha Ha';
       try congruence.
  all: try (apply bool_decide_eq_true_1 in Ha'; lia).
  all: split; [done|]; split; [done|]; exists p, v; split; [done|].
  all: rewrite ?uint96_id by lia.
  all: try done.
  all: by rewrite bool_decide_eq_true_2 by lia.
Qed.

(** The listing of the test run is [alice]'s. *)
Lemma only_owner_lists_witness :
  tx_sender (mkTx alice accept_all (Call_listNFT 0 100 ether_0_01))
  = owner_of (Baseline.exec_all minted_txs (deployed operator)) 0.
Proof.
  refine (proj1 (proj2 (proj1 only_owner_lists
            (mkTx alice accept_all (Call_listNFT 0 100 ether_0_01))
            (Baseline.exec_all minted_txs (deployed operator)) 0 _ _))).
  - vm_compute. reflexivity.
  - vm_compute. reflexivity.
Defined.

(** X12.  A token goes off sale in no other way than by a successful purchase
    of it, a successful [cancelListing] by its owner, or a successful
    transfer of it. *)
Theorem only_sale_cancel_or_transfer_unlists :
  (forall tx (w : Baseline.World) tokenId,
     let r := Baseline.exec tx w in
     Baseline.isActive (Baseline.getListing w tokenId) = true ->
     Baseline.isActive (Baseline.getListing (post r) tokenId) = false ->
     status r = Success /\
     ((exists v, tx_call tx = Call_buyNFT tokenId v) \/
      (tx_call tx = Call_cancelListing tokenId /\
       tx_sender tx = owner_of w tokenId) \/
      (exists from to, tx_call tx = Call_transferFrom from to tokenId))) /\
  (forall tx (w : Optimized.World) tokenId,
     let r := Optimized.exec tx w in
     snd (Optimized.getListing w tokenId) = true ->
     snd (Optimized.getListing (post r) tokenId) = false ->
     status r = Success /\
     ((exists v, tx_call tx = Call_buyNFT tokenId v) \/
      (tx_call tx = Call_cancelListing tokenId /\
       tx_sender tx = owner_of w tokenId) \/
      (exists from to, tx_call tx = Call_transferFrom from to tokenId))).
Proof.
  split; intros tx w tokenId; start_world w; cbn zeta.
  all: pose proof max_bounds as Hmax.
  all: destruct tx as [s rcv [uri|t p v|t v|t| |newFee
                              |from to t|to t|op approved|newOwner|]].
  all: evm_go; intros Ha Ha'; try congruence.
  all: revert Ha Ha'; key_cases tokenId; listing_simpl; intros Ha Ha';
       try congruence.
  all: try (apply bool_decide_eq_true_1 in Ha; lia).
  all: try (rewrite ?uint96_id in Ha' by lia;
            apply bool_decide_eq_false_1 in Ha'; lia).
  all: split; [done|].
  all: first [ left; eexists; reflexivity
             | right; left; split; [reflexivity|done]
             | right; right; eexists _, _; reflexivity ].
Qed.

(** The cancellation of the test run is the owner's. *)
Lemma only_sale_cancel_or_transfer_unlists_witness :
  status (Baseline.exec (cancel_by alice 0)
            (Baseline.exec_all listed_txs (deployed operator))) = Success.
Proof.
  refine (proj1 (proj1 only_sale_cancel_or_transfer_unlists
            (cancel_by alice 0)
            (Baseline.exec_all listed_txs (deployed operator)) 0 _ _)).
  - vm_compute. reflexivity.
  - vm_compute. reflexivity.
Defined.

(** ** From sale to payout, and back on sale *)

Lemma baseline_buy_effects buyer rcv tokenId v (w : Baseline.World) :
  let l := Baseline.getListing w tokenId in
  let r := Baseline.exec (mkTx buyer rcv (Call_buyNFT tokenId v)) w in
  status r = Success ->
  Baseline.isActive l = true /\ v >= Baseline.price l /\
  owner_of (post r) tokenId = buyer /\
  Baseline.active (post r) tokenId = false /\
  pending_of (post r) (Baseline.seller l)
  = pending_of w (Baseline.seller l) + Baseline.price l /\
  listingFee (post r) = listingFee w /\
  _owner (post r) = _owner w.
Proof.
  start_world w. cbn zeta.
  evm_go; intros Hok; try discriminate.
  all: frame_solve.
Qed.

Lemma optimized_buy_effects buyer rcv tokenId v (w : Optimized.World) :
  Optimized.Inv w -> balance w + v <= uint256_max ->
  let l := Optimized.listing_of w tokenId in
  let r := Optimized.exec (mkTx buyer rcv (Call_buyNFT tokenId v)) w in
  status r = Success ->
  Optimized.price l > 0 /\ v >= Optimized.price l /\
  owner_of (post r) tokenId = buyer /\
  Optimized.active (post r) tokenId = false /\
  pending_of (post r) (Optimized.seller l)
  = pending_of w (Optimized.seller l) + Optimized.price l /\
  listingFee (post r) = listingFee w /\
  _owner (post r) = _owner w.
Proof.
  intros (Hi & Hc & [Hs1 Hs2] & Hf) Hbal. red in Hi. start_world w.
  cbn in Hi. subst st. cbn zeta. unfold Optimized.Coherent in Hc.
  unfold escrow_total in Hs2. cbn in Hs1, Hs2, Hbal.
  pose proof (proj1 (Hc tokenId)) as Hp. evm_red_in Hp. clear Hc Hf.
  pose proof (sum_map_lookup_le pw
    (Optimized.seller (default Optimized.Listing_zero (ls !! tokenId))) Hs1).
  pose proof (default_nonneg pw
    (Optimized.seller (default Optimized.Listing_zero (ls !! tokenId))) Hs1).
  clear Hs1.
  evm_go; intros Hok; try discriminate.
  all: rewrite ?unchecked_add_id by lia.
  all: frame_solve.
Qed.

(** X13.  What a sale credits can be withdrawn: after a successful [buyNFT] the
    seller's escrow holds the price on top of what it held, and a
    [withdrawFunds] by the seller, who accepts the payout, succeeds, pays
    all of it and leaves the escrow empty. *)
Theorem seller_gets_paid :
  (forall (w : Baseline.World) buyer rcv rcv' tokenId v,
     Baseline.Reachable w ->
     wf_tx (mkTx buyer rcv (Call_buyNFT tokenId v)) = true ->
     let l := Baseline.getListing w tokenId in
     let r := Baseline.exec (mkTx buyer rcv (Call_buyNFT tokenId v)) w in
     let due :=
       Baseline.getPendingWithdrawal w (Baseline.seller l) + Baseline.price l in
     let r' := Baseline.exec (withdraw_by (Baseline.seller l) rcv') (post r) in
     status r = Success -> rcv' (Baseline.seller l) due = true ->
     Baseline.price l > 0 /\
     Baseline.getPendingWithdrawal (post r) (Baseline.seller l) = due /\
     status r' = Success /\
     map fst (trace r') = withdraw_trace (Baseline.seller l) due /\
     Baseline.getPendingWithdrawal (post r') (Baseline.seller l) = 0) /\
  (forall (w : Optimized.World) buyer rcv rcv' tokenId v,
     Optimized.Reachable w ->
     wf_tx (mkTx buyer rcv (Call_buyNFT tokenId v)) = true ->
     balance w + v <= uint256_max ->
     let price := fst (fst (Optimized.getListing w tokenId)) in
     let seller := snd (fst (Optimized.getListing w tokenId)) in
     let r := Optimized.exec (mkTx buyer rcv (Call_buyNFT tokenId v)) w in
     let due := Optimized.getPendingWithdrawal w seller + price in
     let r' := Optimized.exec (withdraw_by seller rcv') (post r) in
     status r = Success -> rcv' seller due = true ->
     price > 0 /\
     Optimized.getPendingWithdrawal (post r) seller = due /\
     status r' = Success /\
     map fst (trace r') = withdraw_trace seller due /\
     Optimized.getPendingWithdrawal (post r') seller = 0).
Proof.
  split.
  - intros w buyer rcv rcv' tokenId v Hr Hwf l r due r' Hok Hrcv.
    apply baseline_reachable_inv in Hr.
    pose proof (baseline_inv_step _ _ Hr Hwf) as (Hi' & _ & Hs' & _).
    destruct (baseline_buy_effects buyer rcv tokenId v w Hok)
      as (Ha & Hv & _ & _ & Hdue & _).
    destruct Hr as (_ & Hc & [Hs1 _] & _).
    destruct (Hc tokenId Ha) as (_ & _ & Hp).
    pose proof (default_nonneg _ (Baseline.seller l) Hs1) as Hnn.
    fold l in Hp, Hdue. fold r in Hi', Hs', Hdue.
    unfold Baseline.getPendingWithdrawal in *.
    destruct (baseline_withdraw (Baseline.seller l) rcv' (post r) Hi' Hs')
      as [Hiff Heff].
    fold r' in Hiff, Heff. rewrite Hdue in Hiff, Heff. fold due in Hiff, Heff.
    assert (status r' = Success) as Hok'.
    { apply Hiff. split; [|done]. unfold due, pending_of. lia. }
    destruct (Heff Hok') as (Htr & _ & Hz).
    repeat split; try done. lia.
  - intros w buyer rcv rcv' tokenId v Hr Hwf Hbal price seller r due r' Hok Hrcv.
    apply optimized_reachable_inv in Hr.
    pose proof (optimized_inv_step _ _ Hr Hwf) as (Hi' & _ & Hs' & _).
    destruct (optimized_buy_effects buyer rcv tokenId v w Hr Hbal Hok)
      as (Hp & Hv & _ & _ & Hdue & _).
    unfold Optimized.getListing in price, seller. cbn [fst snd] in price, seller.
    fold price in Hp, Hdue. fold seller in Hdue. fold r in Hi', Hs', Hdue.
    unfold Optimized.getPendingWithdrawal in *.
    destruct (optimized_withdraw seller rcv' (post r) Hi' Hs') as [Hiff Heff].
    fold r' in Hiff, Heff. rewrite Hdue in Hiff, Heff. fold due in Hiff, Heff.
    assert (status r' = Success) as Hok'.
    { apply Hiff. split; [|done].
      pose proof (default_nonneg (pendingWithdrawals w) seller
                    (proj1 (proj1 (proj2 (proj2 Hr))))).
      unfold due, pending_of. lia. }
    destruct (Heff Hok') as (Htr & _ & Hz).
    repeat split; done.
Qed.

(** The seller of the test run is paid the price of her token. *)
Lemma seller_gets_paid_witness :
  status (Baseline.exec (withdraw_by alice accept_all)
            (post (Baseline.exec buy_exact
                     (Baseline.exec_all listed_txs (deployed operator)))))
  = Success.
Proof.
  refine (proj1 (proj2 (proj2 (proj1 seller_gets_paid
            (Baseline.exec_all listed_txs (deployed operator))
            bob accept_all accept_all 0 100 listed_reachable_b _ _ _)))).
  - vm_compute. reflexivity.
  - vm_compute. reflexivity.
  - reflexivity.
Defined.

Lemma optimized_buy_frame buyer rcv tokenId v (w : Optimized.World) :
  let r := Optimized.exec (mkTx buyer rcv (Call_buyNFT tokenId v)) w in
  status r = Success ->
  owner_of (post r) tokenId = buyer /\
  Optimized.active (post r) tokenId = false /\
  listingFee (post r) = listingFee w /\
  _owner (post r) = _owner w.
Proof.
  start_world w. cbn zeta.
  evm_go; intros Hok; try discriminate.
  all: frame_solve.
Qed.

(** X14.  The buyer of a token can put it on sale again at once: after a
    successful [buyNFT], a [listNFT] on the token by the buyer, at a
    positive price and with the fee covered, succeeds if the operator
    accepts the fee and the buyer the refund of the excess. *)
Theorem buyer_can_relist :
  (forall (w : Baseline.World) buyer rcv rcv' tokenId v price' v',
     Baseline.Reachable w ->
     wf_tx (mkTx buyer rcv (Call_buyNFT tokenId v)) = true ->
     let r := Baseline.exec (mkTx buyer rcv (Call_buyNFT tokenId v)) w in
     status r = Success ->
     price' > 0 -> v' >= listingFee w ->
     rcv' (_owner w) (listingFee w) = true ->
     (v' > listingFee w -> rcv' buyer (v' - listingFee w) = true) ->
     status (Baseline.exec (mkTx buyer rcv' (Call_listNFT tokenId price' v'))
               (post r)) = Success) /\
  (forall (w : Optimized.World) buyer rcv rcv' tokenId v price' v',
     Optimized.Reachable w ->
     wf_tx (mkTx buyer rcv (Call_buyNFT tokenId v)) = true ->
     let r := Optimized.exec (mkTx buyer rcv (Call_buyNFT tokenId v)) w in
     status r = Success ->
     0 < price' <= uint96_max -> is_uint256 v' -> v' >= listingFee w ->
     rcv' (_owner w) (listingFee w) = true ->
     (v' > listingFee w -> rcv' buyer (v' - listingFee w) = true) ->
     status (Optimized.exec (mkTx buyer rcv' (Call_listNFT tokenId price' v'))
               (post r)) = Success).
Proof.
  split.
  - intros w buyer rcv rcv' tokenId v price' v' Hr Hwf r Hok Hp Hv Hfee Href.
    apply baseline_reachable_inv in Hr.
    pose proof (baseline_inv_step _ _ Hr Hwf) as HI'. fold r in HI'.
    destruct (baseline_buy_effects buyer rcv tokenId v w Hok)
      as (_ & _ & Ho & Ha & _ & Hf & Hop). fold r in Ho, Ha, Hf, Hop.
    assert (buyer ≠ 0) as Hne by (wf_facts Hwf; done).
    apply (baseline_list buyer rcv' tokenId price' v' (post r) HI' Hne).
    rewrite Hf, Hop. done.
  - intros w buyer rcv rcv' tokenId v price' v' Hr Hwf r Hok Hp Hv' Hv Hfee Href.
    apply optimized_reachable_inv in Hr.
    pose proof (optimized_inv_step _ _ Hr Hwf) as HI'. fold r in HI'.
    destruct (optimized_buy_frame buyer rcv tokenId v w Hok)
      as (Ho & Ha & Hf & Hop). fold r in Ho, Ha, Hf, Hop.
    assert (buyer ≠ 0) as Hne by (wf_facts Hwf; done).
    apply (optimized_list buyer rcv' tokenId price' v' (post r) HI' Hne Hv').
    rewrite Hf, Hop. repeat split; try done; lia.
Qed.

(** [bob] of the test run puts the token he bought on sale at 200. *)
Lemma buyer_can_relist_witness :
  status (Baseline.exec (mkTx bob accept_all (Call_listNFT 0 200 ether_0_01))
            (post (Baseline.exec buy_exact
                     (Baseline.exec_all listed_txs (deployed operator)))))
  = Success.
Proof.
  refine (proj1 buyer_can_relist
            (Baseline.exec_all listed_txs (deployed operator))
            bob accept_all accept_all 0 100 200 ether_0_01
            listed_reachable_b _ _ _ _ _ _).
  - vm_compute. reflexivity.
  - vm_compute. reflexivity.
  - reflexivity.
  - vm_compute. discriminate.
  - reflexivity.
  - reflexivity.
Defined.

(** ** Conservation in the optimized contract *)

Lemma optimized_conservation_step tx (w : Optimized.World) :
  Optimized.Inv w -> wf_tx tx = true ->
  balance w + call_value (tx_call tx) <= uint256_max ->
  let r := Optimized.exec tx w in
  status r = Success ->
  escrow_total (post r) + sent Payout (trace r) + sent ListingFee (trace r)
  = escrow_total w
    + (if is_buy (tx_call tx) then kept tx r else 0)
    + (if is_list (tx_call tx) then kept tx r else 0) /\
  sold_total (events (post r))
  = sold_total (events w) + (if is_buy (tx_call tx) then kept tx r else 0) /\
  balance (post r) - escrow_total (post r) = balance w - escrow_total w.
Proof.
  intros (Hi & Hc & [Hs1 Hs2] & Hf) Hwf Hbal. red in Hi. start_world w.
  cbn in Hi. subst st. cbn zeta. unfold Optimized.Coherent in Hc.
  unfold escrow_total in Hs2. cbn in Hs1, Hs2, Hbal, Hf.
  pose proof max_bounds as Hmax.
  evm_red_in Hc.
  destruct tx as [s rcv [uri|tokenId p v|tokenId v|tokenId| |newFee
                         |from to tokenId|to tokenId|op approved|newOwner|]];
    wf_facts Hwf; cbn [tx_call call_value] in Hbal.
  all: evm_go; intros Hok; try discriminate.
  all: try match goal with
       | |- context [unchecked_add (default 0 (?m !! ?x)) ?y] =>
           pose proof (sum_map_lookup_le m x Hs1);
           pose proof (default_nonneg m x Hs1);
           pose proof (proj1 (Hc tokenId));
           rewrite (unchecked_add_id (default 0 (m !! x)) y) by lia
       end.
  all: rewrite ?unchecked_sub_id in * by lia.
  all: unfold kept; cbn [is_buy is_list tx_call call_value trace]; trace_simpl.
  all: rewrite ?sold_total_app; cbn [sold_total foldr].
  all: rewrite ?sum_map_insert.
  all: decide_purposes.
  all: repeat split; try lia.
Qed.

Lemma optimized_bounds_step tx (w : Optimized.World) :
  Optimized.Inv w -> wf_tx tx = true ->
  balance (post (Optimized.exec tx w)) <= balance w + call_value (tx_call tx).
Proof.
  intros (Hi & _ & _ & Hf). red in Hi. start_world w. cbn in Hi, Hf. subst st.
  pose proof max_bounds as Hmax.
  destruct tx as [s rcv []]; intros Hwf; wf_facts Hwf.
  all: evm_go; rewrite ?unchecked_sub_id in * by lia; lia.
Qed.

Lemma optimized_conservation_from txs : forall (w : Optimized.World),
  Optimized.Inv w -> forallb wf_tx txs = true ->
  balance w + total_value txs <= uint256_max ->
  let w' := Optimized.exec_all txs w in
  let rs := Optimized.receipts txs w in
  escrow_total w' + withdrawn rs + fees_collected rs
  = escrow_total w + buy_proceeds rs + fees_paid rs /\
  sold_total (events w') = sold_total (events w) + buy_proceeds rs /\
  balance w' - escrow_total w' = balance w - escrow_total w.
Proof.
  cbn zeta. induction txs as [|tx txs IH]; intros w HI Hwf Hbal.
  - cbn. lia.
  - cbn [forallb] in Hwf. apply andb_prop in Hwf as [Hwf Hwfs].
    change (total_value (tx :: txs))
      with (call_value (tx_call tx) + total_value txs) in Hbal.
    pose proof (total_value_nonneg txs Hwfs) as Hnn.
    pose proof (optimized_bounds_step tx w HI Hwf) as Hb.
    specialize (IH (post (Optimized.exec tx w))
                  (optimized_inv_step tx w HI Hwf) Hwfs ltac:(lia)).
    unfold Optimized.exec_all, Optimized.receipts in *. cbn [exec_all receipts].
    fold (Optimized.exec tx w).
    unfold withdrawn, fees_collected, buy_proceeds, fees_paid in *.
    rewrite !total_over_cons.
    destruct (status (Optimized.exec tx w)) as [|e] eqn:Hst.
    + assert (committed (Optimized.exec tx w) = true) as ->
        by (unfold committed; rewrite Hst; done).
      pose proof (optimized_conservation_step tx w HI Hwf ltac:(lia) Hst). lia.
    + assert (committed (Optimized.exec tx w) = false) as ->
        by (unfold committed; rewrite Hst; done).
      assert (post (Optimized.exec tx w) = w) as Hp
        by (by apply (exec_failure_restores _ _ _ e)).
      rewrite Hp in *. lia.
Qed.

(** X15.  Conservation holds in the optimized contract as well, although its
    arithmetic is unchecked, as long as the value sent in the run fits
    [uint256]: the escrow total plus what withdrawals paid out plus the
    fees handed to the operator equals what purchases brought in plus what
    listings paid in; what purchases brought in is the sum of the sale
    prices; and the contract holds exactly the escrow total. *)
Theorem optimized_conservation :
  forall deployer txs,
    forallb wf_tx txs = true -> total_value txs <= uint256_max ->
    let w := Optimized.exec_all txs (deployed deployer) in
    let rs := Optimized.receipts txs (deployed deployer) in
    escrow_total w + withdrawn rs + fees_collected rs
    = buy_proceeds rs + fees_paid rs /\
    buy_proceeds rs = sold_total (events w) /\
    balance w = escrow_total w.
Proof.
  intros deployer txs Hwf Hv w rs.
  pose proof (optimized_conservation_from txs (deployed deployer)
                (deployed_inv_o deployer) Hwf ltac:(cbn; lia)) as H.
  cbn zeta in H. fold w rs in H.
  assert (escrow_total (deployed (L:=Optimized.Listing) deployer) = 0) as Hz
    by (unfold escrow_total; cbn; apply sum_map_empty).
  rewrite Hz in H. cbn [events balance deployed sold_total foldr] in H. lia.
Qed.

(** After the run of the test suite the optimized contract holds the
    price of the token, which is [alice]'s escrow. *)
Lemma optimized_conservation_witness :
  balance (Optimized.exec_all sold_txs (deployed operator))
  = escrow_total (Optimized.exec_all sold_txs (deployed operator)).
Proof.
  refine (proj2 (proj2 (optimized_conservation operator sold_txs _ _))).
  - vm_compute. reflexivity.
  - vm_compute. discriminate.
Defined.

(** ** What moves a token *)

(** X16.  A token changes hands in no other way than by a successful purchase
    of it, which gives it to the buyer, a successful [transferFrom] of it,
    which gives it to the recipient, or, for an id without owner, by a
    successful [mintNFT], which gives it to the caller.  Listing a token,
    cancelling a listing, withdrawing and setting the fee move no
    token. *)
Theorem only_sale_transfer_or_mint_moves_tokens :
  (forall tx (w : Baseline.World) tokenId,
     let r := Baseline.exec tx w in
     owner_of (post r) tokenId ≠ owner_of w tokenId ->
     status r = Success /\
     ((exists v, tx_call tx = Call_buyNFT tokenId v /\
                 owner_of (post r) tokenId = tx_sender tx) \/
      (exists to, tx_call tx = Call_transferFrom (owner_of w tokenId) to tokenId /\
                  owner_of (post r) tokenId = to) \/
      (exists uri, tx_call tx = Call_mintNFT uri /\
                   tokenId = nextTokenIdCounter w /\ owner_of w tokenId = 0 /\
                   owner_of (post r) tokenId = tx_sender tx))) /\
  (forall tx (w : Optimized.World) tokenId,
     let r := Optimized.exec tx w in
     owner_of (post r) tokenId ≠ owner_of w tokenId ->
     status r = Success /\
     ((exists v, tx_call tx = Call_buyNFT tokenId v /\
                 owner_of (post r) tokenId = tx_sender tx) \/
      (exists to, tx_call tx = Call_transferFrom (owner_of w tokenId) to tokenId /\
                  owner_of (post r) tokenId = to) \/
      (exists uri, tx_call tx = Call_mintNFT uri /\
                   tokenId = nextTokenIdCounter w /\ owner_of w tokenId = 0 /\
                   owner_of (post r) tokenId = tx_sender tx))).
Proof.
  split; intros tx w tokenId; start_world w; cbn zeta.
  all: destruct tx as [s rcv [uri|t p v|t v|t| |newFee
                              |from to t|to t|op approved|newOwner|]].
  all: evm_go; intros Hne; try congruence.
  all: revert Hne; key_cases tokenId; cbn [default from_option id]; intros Hne;
       try congruence.
  all: split; [done|].
  all: first
    [ left; eexists; split; reflexivity
    | right; left; eexists; split; [f_equal; lia | reflexivity]
    | right; right; eexists; repeat split; first [reflexivity | lia] ].
Qed.

(** The sale of the test run gives token 0 to [bob]. *)
Lemma only_sale_transfer_or_mint_moves_tokens_witness :
  status (Baseline.exec buy_exact
            (Baseline.exec_all listed_txs (deployed operator))) = Success.
Proof.
  refine (proj1 (proj1 only_sale_transfer_or_mint_moves_tokens buy_exact
            (Baseline.exec_all listed_txs (deployed operator)) 0 _)).
  vm_compute. discriminate.
Defined.
